(** * PKUWA: the domain / key registry and the pkucall gate

    A shallow embedding of [src/pkuc/pku.c] (the full variant) and of the
    functions of [src/pku.c] that differ from it, with the properties of the
    registry, the protection-register codec and the call gate.

    Conventions of the embedding.
    - C [int] and [unsigned int] values are integers of [Z]; where the source
      can leave the 32-bit range (the two left shifts of [SetPkey]) the
      wrap-around is written out with [int32].
    - The fixed-size global arrays are lists; an index is a [Z] as in the
      source and is converted at the access.  A read outside the array has no
      defined result in C: a function that reads an array returns an
      [option], and [None] stands for such a read.  In a well-formed state
      ([wf]) the lists have the lengths of the arrays.
    - The globals of the translation unit are the fields of [State]; every
      function threads the state explicitly and returns its C result next to
      the new state.
    - [printf] and [perror] only write diagnostics; they are left out. *)

From Stdlib Require Import ZArith Lia Bool List.
From Stdlib.Strings Require Import Byte.
From stdpp Require Import base option list.

Local Open Scope Z_scope.

(** ** Constants of pku.h and errno.h *)

Definition PAGESIZEPKU : Z := 4096.
Definition PK_NUM_KEYS : Z := 16.
Definition NUM_DOMAINS : Z := 16.
Definition NUM_REGISTERED_PKUCALLS : Z := 64.
Definition NUM_MPROTECT_RANGES : Z := 4096.
Definition PKEY_DISABLE_ACCESS : Z := 0x1.
Definition PKEY_DISABLE_WRITE : Z := 0x2.

(** The errno numbers come from the C library's errno.h, which is not part of
    the repository; the Linux numbering is used.  Every statement below names
    them symbolically. *)
Definition EPERM : Z := 1.
Definition EACCES : Z := 13.
Definition EINVAL : Z := 22.

(** ** 32-bit integers *)

(** The value an [int] holds after a computation whose mathematical result
    is [z]: reduction modulo 2^32 into [-2^31, 2^31). *)
Definition int32 (z : Z) : Z := (z + 2 ^ 31) mod 2 ^ 32 - 2 ^ 31.

(** ** Data model (pku.h, pkuc/pku.c) *)

(** [struct PKUKey]: a domain's protection key. *)
Record PKUKey := mkPKUKey {
  pkey : Z;      (* pkey_t, uint16_t *)
  perm : Z;      (* unsigned int: PKEY_DISABLE_ACCESS | PKEY_DISABLE_WRITE *)
  used : bool
}.

(** [struct PKUCall]: a registered call; [entry] is the function pointer,
    0 for NULL. *)
Record PKUCall := mkPKUCall {
  did : Z;
  entry : Z
}.

(** [struct s_mprotect]: a memory range record.  The fields carry the prefix
    [rg_] because [pkey] and [used] are already fields of [PKUKey]. *)
Record s_mprotect := mk_s_mprotect {
  rg_addr : Z;
  rg_len : Z;
  rg_prot : Z;
  rg_pkey : PKUKey;
  rg_used : bool;
  rg_name : Z;          (* const char*, as an address *)
  rg_mmap_flags : Z;
  rg_mmap_fd : Z
}.

(** [struct PKUData]; [UserHandler] is a function pointer, 0 for NULL. *)
Record PKUData := mkPKUData {
  initialized : Z;
  stacksize : Z;
  UserHandler : Z;
  domains : list PKUKey;
  ranges : list s_mprotect;
  ranges_max_used : Z
}.

(** The globals of pkuc/pku.c, with what lies outside the file:
    - [CurrentDid] is the cell behind [GetCurrentDid]/[SetCurrentDid];
    - [pkru] is the protection-control register, the value last handed to
      [wrpkru];
    - [handler_calls] lists the arguments of the calls made through
      [g_data.UserHandler], oldest first;
    - [errno] is the C library's errno. *)
Record State := mkState {
  keys : list PKUKey;
  RegisteredPKUCalls : list PKUCall;
  g_initialized : Z;
  g_data : PKUData;
  g_LazyFree : bool;
  CurrentDid : Z;
  pkru : Z;
  handler_calls : list Z;
  errno : Z
}.

Definition set_keys (v : list PKUKey) (s : State) : State :=
  mkState v (RegisteredPKUCalls s) (g_initialized s) (g_data s) (g_LazyFree s)
          (CurrentDid s) (pkru s) (handler_calls s) (errno s).
Definition set_RegisteredPKUCalls (v : list PKUCall) (s : State) : State :=
  mkState (keys s) v (g_initialized s) (g_data s) (g_LazyFree s)
          (CurrentDid s) (pkru s) (handler_calls s) (errno s).
Definition set_g_initialized (v : Z) (s : State) : State :=
  mkState (keys s) (RegisteredPKUCalls s) v (g_data s) (g_LazyFree s)
          (CurrentDid s) (pkru s) (handler_calls s) (errno s).
Definition set_g_data (v : PKUData) (s : State) : State :=
  mkState (keys s) (RegisteredPKUCalls s) (g_initialized s) v (g_LazyFree s)
          (CurrentDid s) (pkru s) (handler_calls s) (errno s).
Definition set_pkru (v : Z) (s : State) : State :=
  mkState (keys s) (RegisteredPKUCalls s) (g_initialized s) (g_data s) (g_LazyFree s)
          (CurrentDid s) v (handler_calls s) (errno s).
Definition set_handler_calls (v : list Z) (s : State) : State :=
  mkState (keys s) (RegisteredPKUCalls s) (g_initialized s) (g_data s) (g_LazyFree s)
          (CurrentDid s) (pkru s) v (errno s).
Definition set_errno (v : Z) (s : State) : State :=
  mkState (keys s) (RegisteredPKUCalls s) (g_initialized s) (g_data s) (g_LazyFree s)
          (CurrentDid s) (pkru s) (handler_calls s) v.

Definition set_initialized (v : Z) (d : PKUData) : PKUData :=
  mkPKUData v (stacksize d) (UserHandler d) (domains d) (ranges d) (ranges_max_used d).
Definition set_domains (v : list PKUKey) (d : PKUData) : PKUData :=
  mkPKUData (initialized d) (stacksize d) (UserHandler d) v (ranges d) (ranges_max_used d).

(** Modelled from the spec: [GetCurrentDid] and [SetCurrentDid] are declared
    in PKUInternal.h, which is not under src/.  The spec has each thread of
    control "maintain its own currently active domain", which the caller
    records before a switch and hands back to [Restore]: one cell, read by
    the first and overwritten by the second. *)
Definition GetCurrentDid (s : State) : Z := CurrentDid s.
Definition SetCurrentDid (d : Z) (s : State) : State :=
  mkState (keys s) (RegisteredPKUCalls s) (g_initialized s) (g_data s) (g_LazyFree s)
          d (pkru s) (handler_calls s) (errno s).

(** [a[i]] for a C array held in a list: defined inside the array only. *)
Definition at_index {A} (l : list A) (i : Z) : option A :=
  if 0 <=? i then l !! Z.to_nat i else None.

(** The state before [main]: zero-initialised globals, then the constructor
    [PKUInitCtor].  The register is not set by the library: [pkru0] is what
    the process starts with.  The current domain is the root, did 0, the one
    domain that exists then. *)
Definition zero_key : PKUKey := mkPKUKey 0 0 false.
Definition zero_call : PKUCall := mkPKUCall 0 0.
Definition zero_range : s_mprotect := mk_s_mprotect 0 0 0 zero_key false 0 0 0.
Definition zero_data : PKUData :=
  mkPKUData 0 0 0 (replicate (Z.to_nat NUM_DOMAINS) zero_key)
            (replicate (Z.to_nat NUM_MPROTECT_RANGES) zero_range) 0.
Definition zero_state (pkru0 : Z) : State :=
  mkState (replicate (Z.to_nat NUM_DOMAINS) zero_key)
          (replicate (Z.to_nat NUM_REGISTERED_PKUCALLS) zero_call)
          0 zero_data false 0 pkru0 [] 0.

(** [PKUInitCtor]: keys[0].perm = 0; keys[0].pkey = 0; keys[0].used = 1. *)
Definition PKUInitCtor (s : State) : State :=
  let s := set_keys (alter (fun k => mkPKUKey (pkey k) 0 (used k)) 0%nat (keys s)) s in
  let s := set_keys (alter (fun k => mkPKUKey 0 (perm k) (used k)) 0%nat (keys s)) s in
  set_keys (alter (fun k => mkPKUKey (pkey k) (perm k) true) 0%nat (keys s)) s.

Definition initial_state (pkru0 : Z) : State := PKUInitCtor (zero_state pkru0).

(** [DomainExists]: did >= 0 && did < NUM_DOMAINS && keys[did].used. *)
Definition DomainExists (d : Z) (s : State) : bool :=
  (0 <=? d) && (d <? NUM_DOMAINS) &&
  match keys s !! Z.to_nat d with Some k => used k | None => false end.

(** ** The register primitives and the codec *)

(** [wrpkru(pkru)] moves its argument through a volatile local and returns
    it: the argument is the value committed to the register. *)
Definition wrpkru (v : Z) (s : State) : Z * State := (v, set_pkru v s).

(** [rdpkru()] as the source has it: [volatile int ecx = 0; return ecx;].
    It never samples the register. *)
Definition rdpkru (_ : Z) : Z := 0.

(** The RDPKRU instruction, for a runtime that substitutes it for the body
    above: the sample is the register. *)
Definition rdpkru_insn (r : Z) : Z := r.

(** The two-bit field of key [k] in a register value. *)
Definition pkru_field (r k : Z) : Z := Z.land (Z.shiftr r (2 * k)) 3.

Section Codec.

(** The read primitive, from the register to the sampled [int].  The
    statements hold for every read primitive; [rdpkru] is the source's. *)
Variable rd : Z -> Z.

(** [SetPkey(pkey, prot)].  The two shifts are by [pkey * 2]; the result of
    [3 << 30] leaves the range of [int] and wraps.  For a key of 16 or more
    the shift count reaches the width of [int] and C defines no result; the
    key table never holds such a key ([registry_inv]), and the properties of
    the codec are stated for keys below 16. *)
Definition SetPkey (pkey prot : Z) (s : State) : Z * State :=
  let pkey_shift := pkey * 2 in
  let new_pkru_bits := 0 in
  let new_pkru_bits :=
    if Z.land prot PKEY_DISABLE_ACCESS =? 0 then new_pkru_bits
    else Z.lor new_pkru_bits PKEY_DISABLE_ACCESS in
  let new_pkru_bits :=
    if Z.land prot PKEY_DISABLE_WRITE =? 0 then new_pkru_bits
    else Z.lor new_pkru_bits PKEY_DISABLE_WRITE in
  let new_pkru_bits := int32 (Z.shiftl new_pkru_bits pkey_shift) in
  let old_pkru := rd (pkru s) in
  let old_pkru := if old_pkru =? 0 then 0x55555554 else old_pkru in
  let old_pkru :=
    Z.land old_pkru
      (Z.lnot (int32 (Z.shiftl (Z.lor PKEY_DISABLE_ACCESS PKEY_DISABLE_WRITE) pkey_shift))) in
  let '(_, s) := wrpkru (Z.lor old_pkru new_pkru_bits) s in
  (0, s).

End Codec.

Arguments SetPkey : simpl never.

(** ** The host hook *)

(** [WASICALL(buf, size)] expands to [getentropy(buf, size)], the one hook of
    the guest runtime: it receives the 12-byte request and leaves the reply in
    the same buffer.  A hook is given to each call that uses it, as the
    function from the request to the error code and the buffer afterwards. *)
Definition hook : Type := list byte -> Z * list byte.

(** [buf[i]] of an [unsigned char] buffer, as an integer. *)
Definition byte_at (buf : list byte) (i : nat) : Z :=
  Z.of_N (Byte.to_N (default x00 (buf !! i))).

(** [unsigned char buf[12] = {b0, b1}]: the rest is zero. *)
Definition request (b0 b1 : byte) : list byte := b0 :: b1 :: replicate 10 x00.

(** ** Initialisation (pkuc/pku.c) *)

(** [DoInit(flags)]; [pagesize] is what [sysconf(_SC_PAGESIZE)] returns. *)
Definition DoInit (pagesize : Z) (flags : Z) (s : State) : Z * State :=
  if negb (initialized (g_data s) =? 0) then (-1, set_errno EACCES s)
  else if -1 =? pagesize then (-1, set_errno EACCES s)
  else if negb (PAGESIZEPKU =? pagesize) then (-1, set_errno EACCES s)
  else (0, set_g_data (set_initialized 1 (g_data s)) s).

(** [PKUDeinit()]. *)
Definition PKUDeinit (s : State) : Z * State := (0, s).

(** [PKUInit(flags)].  At the label [error] the flag [DoInitFinished] is
    still 0, so [PKUDeinit] is not called there. *)
Definition PKUInit (pagesize : Z) (flags : Z) (s : State) : Z * State :=
  if negb (g_initialized s =? 0) then (0, s)
  else
    let '(ret, s) := DoInit pagesize flags s in
    if -1 =? ret then (ret, s)
    else (ret, set_g_initialized 1 s).

(** ** Domains and keys (pkuc/pku.c) *)

(** [g_data.UserHandler(addr)]: a call through the configured pointer, which
    is recorded; through a null pointer it has no defined result.  What the
    callback itself does is outside the library. *)
Definition call_UserHandler (addr : Z) (s : State) : option State :=
  if UserHandler (g_data s) =? 0 then None
  else Some (set_handler_calls (handler_calls s ++ [addr]) s).

(** The loop of [PKUDomainFree] over the range records [rs], in order. *)
Fixpoint sweep_ranges (rs : list s_mprotect) (s : State) : option State :=
  match rs with
  | [] => Some s
  | r :: rs' =>
      if rg_used r then s' ← call_UserHandler (rg_addr r) s; sweep_ranges rs' s'
      else sweep_ranges rs' s
  end.

(** [PKUDomainFree(domain)]. *)
Definition PKUDomainFree (domain : Z) (s : State) : option (Z * State) :=
  if initialized (g_data s) =? 0 then Some (-1, s)
  else if negb (DomainExists domain s) then Some (-1, set_errno EINVAL s)
  else if existsb used (take (Z.to_nat NUM_DOMAINS) (domains (g_data s)))
  then Some (-1, set_errno EINVAL s)
  else
    s ← sweep_ranges (take (Z.to_nat NUM_MPROTECT_RANGES) (ranges (g_data s))) s;
    let dom := Z.to_nat domain in
    let ds := alter (fun d => mkPKUKey 0 (perm d) (used d)) dom (domains (g_data s)) in
    let ds := alter (fun d => mkPKUKey (pkey d) 0 (used d)) dom ds in
    let ds := alter (fun d => mkPKUKey (pkey d) (perm d) false) dom ds in
    Some (0, set_g_data (set_domains ds (g_data s)) s).

(** [PKUCreateDomain(flags)]. *)
Definition PKUCreateDomain (getentropy : hook) (flags : Z) (s : State) : Z * State :=
  let buf := request x01 x21 in
  let '(error, buf) := getentropy buf in
  if negb (error =? 0) then (-1, s)
  else if 16 <=? byte_at buf 2 then (0, s)
  else
    let i := Z.to_nat (byte_at buf 2) in
    let s := set_keys (alter (fun k => mkPKUKey (byte_at buf 2) (perm k) (used k)) i (keys s)) s in
    let s := set_keys (alter (fun k => mkPKUKey (pkey k) (perm k) true) i (keys s)) s in
    (byte_at buf 2, s).

(** [PKUPkeyAlloc(flags, AccessRights)]. *)
Definition PKUPkeyAlloc (getentropy : hook) (flags AccessRights : Z) (s : State) : Z * State :=
  if negb (Z.land AccessRights (Z.lnot (Z.lor PKEY_DISABLE_ACCESS PKEY_DISABLE_WRITE)) =? 0)
  then (-1, set_errno EINVAL s)
  else PKUCreateDomain getentropy flags s.

(** The second loop of [PKUPkeyFree]: domain->used = false on a used slot. *)
Definition revoke (d : PKUKey) : PKUKey :=
  if used d then mkPKUKey (pkey d) (perm d) false else d.

(** [PKUPkeyFree(pkey)].  Both loops run to [NUM_DOMAINS]. *)
Definition PKUPkeyFree (pkey : Z) (s : State) : option (Z * State) :=
  if existsb rg_used (take (Z.to_nat NUM_DOMAINS) (ranges (g_data s)))
  then Some (-1, set_errno EPERM s)
  else
    let ds := domains (g_data s) in
    let ds := (revoke <$> take (Z.to_nat NUM_DOMAINS) ds) ++ drop (Z.to_nat NUM_DOMAINS) ds in
    let s := set_g_data (set_domains ds (g_data s)) s in
    if g_LazyFree s then Some (0, s)
    else PKUDomainFree pkey s.

(** ** The call gate (pkuc/pku.c) *)

(** The scan of [RegisterPKUCall]: from [PKUCallID] on, stop at the first
    slot whose entry is null, or past the last slot. *)
Fixpoint scan_calls (calls : list PKUCall) (PKUCallID : Z) : Z :=
  match calls with
  | [] => PKUCallID
  | c :: calls' =>
      if entry c =? 0 then PKUCallID else scan_calls calls' (PKUCallID + 1)
  end.

(** [RegisterPKUCall(did, entry)]. *)
Definition RegisterPKUCall (did_ : Z) (entry_ : Z) (s : State) : option (Z * State) :=
  if negb (DomainExists did_ s) then Some (- EINVAL, s)
  else
    let PKUCallID :=
      scan_calls (take (Z.to_nat NUM_REGISTERED_PKUCALLS) (RegisteredPKUCalls s)) 0 in
    if (PKUCallID <? 0) || (NUM_REGISTERED_PKUCALLS <=? PKUCallID) then Some (- EACCES, s)
    else
      c ← at_index (RegisteredPKUCalls s) PKUCallID;
      if negb (entry c =? 0) then Some (- EACCES, s)
      else
        let cs := alter (fun c => mkPKUCall did_ (entry c)) (Z.to_nat PKUCallID)
                        (RegisteredPKUCalls s) in
        let cs := alter (fun c => mkPKUCall (did c) entry_) (Z.to_nat PKUCallID) cs in
        Some (PKUCallID, set_RegisteredPKUCalls cs s).

Section Gate.

Variable rd : Z -> Z.

(** [PKUDomainAssignPkey(did, pkey, flags, AccessRights)]. *)
Definition PKUDomainAssignPkey (did_ pkey_ flags AccessRights : Z) (s : State)
  : option (Z * State) :=
  if negb (DomainExists (GetCurrentDid s) s) then Some (- EINVAL, s)
  else if negb (DomainExists did_ s) then Some (- EINVAL, s)
  else if negb (Z.land AccessRights
                  (Z.lnot (Z.lor PKEY_DISABLE_ACCESS PKEY_DISABLE_WRITE)) =? 0)
  then Some (- EINVAL, s)
  else
    k ← at_index (keys s) did_;
    let '(_, s) := SetPkey rd (pkey k) (perm k) s in
    Some (0, s).

(** [PKUSwitch(PKUCallID)]. *)
Definition PKUSwitch (PKUCallID : Z) (s : State) : option (Z * State) :=
  c ← at_index (RegisteredPKUCalls s) PKUCallID;
  let did_ := did c in
  k ← at_index (keys s) did_;
  let '(_, s) := SetPkey rd (pkey k) (perm k) s in
  let s := SetCurrentDid did_ s in
  Some (0, s).

(** [PKURestore(did)]. *)
Definition PKURestore (did_ : Z) (s : State) : option (Z * State) :=
  k ← at_index (keys s) (GetCurrentDid s);
  let '(_, s) := SetPkey rd (pkey k) (Z.lor PKEY_DISABLE_ACCESS PKEY_DISABLE_WRITE) s in
  let s := SetCurrentDid did_ s in
  Some (0, s).

End Gate.

(** ** The functions of src/pku.c that differ

    [SetPkey], [DomainExists], [RegisterPKUCall] and [PKUInitCtor] have the
    same text in both files; [PKUCreateDomain] differs in the opcode of its
    request only.  The functions below are the ones whose bodies differ. *)
Module Pku.

Definition PKUCreateDomain (getentropy : hook) (flags : Z) (s : State) : Z * State :=
  let buf := request x01 x4a in
  let '(error, buf) := getentropy buf in
  if negb (error =? 0) then (-1, s)
  else if 16 <=? byte_at buf 2 then (0, s)
  else
    let i := Z.to_nat (byte_at buf 2) in
    let s := set_keys (alter (fun k => mkPKUKey (byte_at buf 2) (perm k) (used k)) i (keys s)) s in
    let s := set_keys (alter (fun k => mkPKUKey (pkey k) (perm k) true) i (keys s)) s in
    (byte_at buf 2, s).

Definition PKUInit (flags : Z) (s : State) : Z * State := (0, s).
Definition PKUDeinit (s : State) : Z * State := (0, s).
Definition PKUDomainFree (did_ : Z) (s : State) : Z * State := (0, s).
Definition PKUPkeyAlloc (flags AccessRights : Z) (s : State) : Z * State := (0, s).
Definition PKUPkeyFree (pkey_ : Z) (s : State) : Z * State := (0, s).

Section Gate.

Variable rd : Z -> Z.

(** The check of the current domain is commented out here. *)
Definition PKUDomainAssignPkey (did_ pkey_ flags AccessRights : Z) (s : State)
  : option (Z * State) :=
  if negb (DomainExists did_ s) then Some (- EINVAL, s)
  else if negb (Z.land AccessRights
                  (Z.lnot (Z.lor PKEY_DISABLE_ACCESS PKEY_DISABLE_WRITE)) =? 0)
  then Some (- EINVAL, s)
  else
    k ← at_index (keys s) did_;
    let '(_, s) := SetPkey rd (pkey k) (perm k) s in
    Some (0, s).

(** [SetCurrentDid] is commented out here. *)
Definition PKUSwitch (PKUCallID : Z) (s : State) : option (Z * State) :=
  c ← at_index (RegisteredPKUCalls s) PKUCallID;
  let did_ := did c in
  k ← at_index (keys s) did_;
  let '(_, s) := SetPkey rd (pkey k) (perm k) s in
  Some (0, s).

(** The whole body is commented out here. *)
Definition PKURestore (did_ : Z) (s : State) : option (Z * State) := Some (0, s).

End Gate.

End Pku.

(** ** Well-formed and reachable states *)

(** The lists have the lengths of the arrays they stand for. *)
Definition wf (s : State) : Prop :=
  length (keys s) = Z.to_nat NUM_DOMAINS /\
  length (RegisteredPKUCalls s) = Z.to_nat NUM_REGISTERED_PKUCALLS /\
  length (domains (g_data s)) = Z.to_nat NUM_DOMAINS /\
  length (ranges (g_data s)) = Z.to_nat NUM_MPROTECT_RANGES.

(** A call of the library, with what the environment answers to it.  The
    functions of pkuc/pku.c that are not listed ([DomainProtect], [PKUMmap],
    [PKUMprotect], [PKUPkeyMprotect], [PKUMunmap], [NaiveMmap], [ReadPKRU],
    [EnableSectionGuardPage], [GetMemorySize]) write none of the globals of
    [State]: they use the host hook and the counters of the allocator. *)
Inductive call : Type :=
| CallDoInit (pagesize flags : Z)
| CallPKUInit (pagesize flags : Z)
| CallPKUDeinit
| CallPKUDomainFree (domain : Z)
| CallPKUPkeyAlloc (getentropy : hook) (flags AccessRights : Z)
| CallPKUPkeyFree (pkey_ : Z)
| CallPKUCreateDomain (getentropy : hook) (flags : Z)
| CallRegisterPKUCall (did_ entry_ : Z)
| CallPKUDomainAssignPkey (did_ pkey_ flags AccessRights : Z)
| CallPKUSwitch (PKUCallID : Z)
| CallPKURestore (did_ : Z).

Definition exec (rd : Z -> Z) (c : call) (s : State) : option (Z * State) :=
  match c with
  | CallDoInit pagesize flags => Some (DoInit pagesize flags s)
  | CallPKUInit pagesize flags => Some (PKUInit pagesize flags s)
  | CallPKUDeinit => Some (PKUDeinit s)
  | CallPKUDomainFree domain => PKUDomainFree domain s
  | CallPKUPkeyAlloc h flags ar => Some (PKUPkeyAlloc h flags ar s)
  | CallPKUPkeyFree k => PKUPkeyFree k s
  | CallPKUCreateDomain h flags => Some (PKUCreateDomain h flags s)
  | CallRegisterPKUCall d e => RegisterPKUCall d e s
  | CallPKUDomainAssignPkey d k f ar => PKUDomainAssignPkey rd d k f ar s
  | CallPKUSwitch i => PKUSwitch rd i s
  | CallPKURestore d => PKURestore rd d s
  end.

(** The states of a run: the state before [main], whatever the register
    holds then, and the states after a sequence of calls with a defined
    result. *)
Inductive reachable (rd : Z -> Z) : State -> Prop :=
| reachable_init pkru0 : reachable rd (initial_state pkru0)
| reachable_call s c r s' :
    reachable rd s -> exec rd c s = Some (r, s') -> reachable rd s'.

(** ** Notions used in the statements *)

(** The value [SetPkey] starts from: the sample, or the fallback constant
    when the sample is 0. *)
Definition sampled (rd : Z -> Z) (s : State) : Z :=
  if rd (pkru s) =? 0 then 0x55555554 else rd (pkru s).

(** [PKUSwitch(id)] immediately followed by [PKURestore(D)], as the macro
    [PKUCALL] of pku.h brackets a call; the state after both. *)
Definition Switch_Restore (rd : Z -> Z) (PKUCallID D : Z) (s : State) : option State :=
  '(_, s) ← PKUSwitch rd PKUCallID s;
  '(_, s) ← PKURestore rd D s;
  Some s.

(** The same with the two functions of src/pku.c. *)
Definition Pku_Switch_Restore (rd : Z -> Z) (PKUCallID D : Z) (s : State) : option State :=
  '(_, s) ← Pku.PKUSwitch rd PKUCallID s;
  '(_, s) ← Pku.PKURestore D s;
  Some s.

(** A host that grants the key [k]: no error, and [k] in [buf[2]]. *)
Definition grant (k : byte) : hook :=
  fun buf => (0, <[2%nat := k]> buf).

(** What every call of the library preserves: the lengths of the tables; in
    the key table, permission bits that are zero and keys below 16; a root
    slot that is used; in the call table, domain ids inside the key table. *)
Definition registry_inv (s : State) : Prop :=
  wf s /\
  (forall i k, keys s !! i = Some k -> perm k = 0 /\ 0 <= pkey k < 16) /\
  (exists k0, keys s !! 0%nat = Some k0 /\ used k0 = true) /\
  (forall i c, RegisteredPKUCalls s !! i = Some c -> 0 <= did c < 16).

(** ** States of a sample run

    The process starts with the register at 0x55555554; [PKUInit] succeeds
    with the page size 4096; the host grants key 1 to [PKUCreateDomain]; a
    call with the entry point 0x1000 is registered for domain 1 and gets the
    id 0; the gate is entered with [PKUSwitch(0)]. *)
Definition st_init : State := initial_state 0x55555554.
Definition st_ready : State := (PKUInit 4096 0 st_init).2.
Definition st_dom1 : State := (PKUCreateDomain (grant x01) 0 st_ready).2.
Definition st_freed : State :=
  default st_dom1 (snd <$> PKUDomainFree 1 st_dom1).
Definition st_call : State :=
  default st_dom1 (snd <$> RegisterPKUCall 1 0x1000 st_dom1).
Definition st_inside : State :=
  default st_call (snd <$> PKUSwitch rdpkru 0 st_call).

(** ** A domain that holds a right

    The sample run with the right PKEY_DISABLE_WRITE stored for domain 1:
    what pku.h documents [PKUDomainAssignPkey(1, 1, 0, PKEY_DISABLE_WRITE)]
    to leave ("the access rights for pkey"; [perm]: "Key permissions.
    Bitwise OR of ... PKEY_DISABLE_ACCESS, PKEY_DISABLE_WRITE").  [keys] is
    a global with external linkage.  Then domain 1 is freed. *)
Definition st_rights : State :=
  set_keys (<[1%nat := mkPKUKey 1 PKEY_DISABLE_WRITE true]> (keys st_dom1)) st_dom1.
Definition st_rights_freed : State :=
  default st_rights (snd <$> PKUDomainFree 1 st_rights).

(** ** States with range records

    Nothing under src/ marks a range record or a slot of [g_data.domains]
    used, or sets [g_data.UserHandler]: the tracker that does is outside.
    The states below put such tables under the sample run, after domain 1
    was created: a handler at 0x3000 and a used record for the address [a]
    in slot [i] of the range table. *)
Definition used_range (a : Z) : s_mprotect :=
  mk_s_mprotect a 4096 3 (mkPKUKey 1 0 true) true 0 0 0.

(** Records 0 and 20 are used. *)
Definition st_ranges : State :=
  set_g_data
    (mkPKUData 1 0 0x3000 (domains (g_data st_dom1))
       (<[20%nat := used_range 0x5000]>
          (<[0%nat := used_range 0x2000]> (ranges (g_data st_dom1)))) 0)
    st_dom1.

(** Record 20 alone is used. *)
Definition st_far : State :=
  set_g_data
    (mkPKUData 1 0 0x3000 (domains (g_data st_dom1))
       (<[20%nat := used_range 0x5000]> (ranges (g_data st_dom1))) 0)
    st_dom1.

(** ** Host calls of pkuc/pku.c: memory and register requests

    The functions below talk to the host through the same hook.  They use
    two static globals of their own, [GS_MmapMemory] and [MmapAddr], and
    none of the globals of [State].  [sent] lists the requests handed to the
    hook, oldest first.  [size_t] values are integers of [Z]; where the
    source can leave the range of [size_t] the wrap-around is written out
    with the width [w] of [size_t] in bits (32 on wasm32). *)
Record IOState := mkIOState {
  GS_MmapMemory : Z;
  MmapAddr : Z;
  sent : list (list byte)
}.

(** The value stored by [buf[i] = v] in an [unsigned char]. *)
Definition to_uchar (v : Z) : byte :=
  default x00 (Byte.of_N (Z.to_N (v mod 256))).

(** [for(int i = n-1; i >= 0; --i) { buf[i+off] = temp & 0xff; temp >>= 8; }] *)
Fixpoint store_loop (n off : nat) (temp : Z) (buf : list byte) : list byte :=
  match n with
  | O => buf
  | S i =>
      store_loop i off (Z.shiftr temp 8)
                 (<[(i + off)%nat := to_uchar (Z.land temp 0xff)]> buf)
  end.

(** [for(int i = from; i < from + n; i++) { temp <<= 8; temp += buf[i]; }]
    on a [size_t]; four steps stay below 2^32. *)
Fixpoint load_loop (n from : nat) (temp : Z) (buf : list byte) : Z :=
  match n with
  | O => temp
  | S n' => load_loop n' (S from) (Z.shiftl temp 8 + byte_at buf from) buf
  end.

(** The same loop on an [int], as in [ReadPKRU]: each step wraps. *)
Fixpoint load_loop_int (n from : nat) (pkru_ : Z) (buf : list byte) : Z :=
  match n with
  | O => pkru_
  | S n' =>
      load_loop_int n' (S from)
        (int32 (int32 (Z.shiftl pkru_ 8) + byte_at buf from)) buf
  end.

(** The hook is called with [buf]; the request is recorded. *)
Definition WASICALL (getentropy : hook) (buf : list byte) (m : IOState)
  : Z * list byte * IOState :=
  let '(error, buf') := getentropy buf in
  (error, buf', mkIOState (GS_MmapMemory m) (MmapAddr m) (sent m ++ [buf])).

(** The request of [DomainProtect]. *)
Definition DomainProtect_request (op : byte) (addr length pkey_ : Z) : list byte :=
  let buf := request x01 op in
  let buf := store_loop 4 2 addr buf in
  let buf := store_loop 4 6 length buf in
  let buf := <[10%nat := to_uchar 3]> buf in
  <[11%nat := to_uchar pkey_]> buf.

(** [DomainProtect(addr, length, pkey)]: an error of the hook is reported
    with [perror] only. *)
Definition DomainProtect (getentropy : hook) (addr length pkey_ : Z) (m : IOState)
  : Z * IOState :=
  let buf := DomainProtect_request x20 addr length pkey_ in
  let '(error, buf, m) := WASICALL getentropy buf m in
  (0, m).

(** The request of [PKUMmap]. *)
Definition PKUMmap_request (addr length prot flags : Z) : list byte :=
  let buf := request x01 x2b in
  let buf := store_loop 4 2 addr buf in
  let buf := store_loop 4 6 length buf in
  let buf := <[10%nat := to_uchar prot]> buf in
  <[11%nat := to_uchar flags]> buf.

(** [PKUMmap(addr, length, prot, flags, fd, offset)]; the result is the
    pointer, 0 for NULL. *)
Definition PKUMmap (w : Z) (getentropy : hook) (addr length prot flags fd offset : Z)
    (m : IOState) : Z * IOState :=
  let buf := PKUMmap_request addr length prot flags in
  let '(error, buf, m) := WASICALL getentropy buf m in
  let temp := load_loop 4 2 0 buf in
  let len := load_loop 4 6 0 buf in
  let temp := if negb (len =? length) then 0 else temp in
  (temp, mkIOState ((GS_MmapMemory m + len) mod 2 ^ w) (MmapAddr m) (sent m)).

(** [PKUMunmap(addr, len)]. *)
Definition PKUMunmap (addr len : Z) (m : IOState) : Z * IOState := (0, m).

(** [PKUMprotect(addr, len, prot)]. *)
Definition PKUMprotect (w : Z) (getentropy : hook) (addr len prot : Z) (m : IOState)
  : Z * IOState :=
  let m :=
    if (addr =? 0) && (MmapAddr m =? 0) then
      let '(p, m) := PKUMmap w getentropy 0 len prot (Z.lor 0x2 0x20) (-1) 0 m in
      mkIOState (GS_MmapMemory m) p (sent m)
    else m in
  let m :=
    if negb (MmapAddr m =? 0) then (DomainProtect getentropy (MmapAddr m) len 0 m).2
    else m in
  (0, m).

(** [PKUPkeyMprotect(addr, len, prot, pkey)]. *)
Definition PKUPkeyMprotect (w : Z) (getentropy : hook) (addr len prot pkey_ : Z)
    (m : IOState) : Z * IOState :=
  PKUMprotect w getentropy addr len prot m.

(** [PAGE_ALIGN(S)] of pkuc/pku.h, in [size_t] arithmetic of width [w]. *)
Definition PAGE_ALIGN (w : Z) (S : Z) : Z :=
  Z.land ((S + (PAGESIZEPKU - 1)) mod 2 ^ w)
         (Z.lnot (PAGESIZEPKU - 1) mod 2 ^ w).

(** [NaiveMmap(bytes)]; [PKUMalloc] is the allocator of pkumalloc.h, given
    as the function from the size to the pointer it returns. *)
Definition NaiveMmap (w : Z) (PKUMalloc : Z -> Z) (bytes : Z) (m : IOState)
  : Z * IOState :=
  let bytes := PAGE_ALIGN w bytes in
  let m := mkIOState ((GS_MmapMemory m + bytes) mod 2 ^ w) (MmapAddr m) (sent m) in
  (PKUMalloc bytes, m).

(** [ReadPKRU()]. *)
Definition ReadPKRU (getentropy : hook) (m : IOState) : Z * IOState :=
  let buf := x0f :: x01 :: xee :: replicate 9 x00 in
  let '(error, buf, m) := WASICALL getentropy buf m in
  if negb (error =? 0) then (-1, m)
  else (load_loop_int 4 3 0 buf, m).

(** The request of [WritePKRU]; [pkru] is an [unsigned int]. *)
Definition WritePKRU_request (pkru_ : Z) : list byte :=
  let buf := x0f :: x01 :: xef :: replicate 9 x00 in
  store_loop 4 3 (pkru_ mod 2 ^ 32) buf.

(** [WritePKRU(pkru)]. *)
Definition WritePKRU (getentropy : hook) (pkru_ : Z) (m : IOState) : Z * IOState :=
  let buf := WritePKRU_request pkru_ in
  let '(error, buf, m) := WASICALL getentropy buf m in
  if negb (error =? 0) then (-1, m) else (0, m).

(** [PKUIsPkeyLoaded(pkey, pkru)] of pkuc/pku.h: the mask is a 64-bit
    unsigned value, and [pkru], an [int], is converted to that type. *)
Definition PKUIsPkeyLoaded (pkey_ pkru_ : Z) : bool :=
  let mask :=
    Z.shiftl (Z.lor PKEY_DISABLE_ACCESS PKEY_DISABLE_WRITE) (pkey_ * 2) mod 2 ^ 64 in
  negb (Z.land (pkru_ mod 2 ^ 64) mask =? mask).

(** A host that leaves the buffer as it is and reports no error. *)
Definition echo : hook := fun buf => (0, buf).

(** The value of four bytes of a buffer, most significant first. *)
Definition be32 (buf : list byte) (from : nat) : Z :=
  byte_at buf from * 2 ^ 24 + byte_at buf (from + 1) * 2 ^ 16 +
  byte_at buf (from + 2) * 2 ^ 8 + byte_at buf (from + 3).

(** ** The caller of pkuc/main.c *)

(** [init()] of main.c; [func] is the address of the function [func], and
    the last component of the result is the static [pkucall_id_func] that
    [PKU_CALL_REGISTER] assigns. *)
Definition init (rd : Z -> Z) (getentropy : hook) (func : Z) (s : State)
  : option (Z * State * Z) :=
  let '(domain, s) := PKUCreateDomain getentropy 0 s in
  '(ret, s) ← PKUDomainAssignPkey rd domain 0 0 0 s;
  '(pkucall_id_func, s) ← RegisterPKUCall domain func s;
  let ret := pkucall_id_func in
  Some (ret, s, pkucall_id_func).

(** ** Host calls of src/pku.c

    [DomainProtect], [ReadPkru] and [WritePkru] of src/pku.c call
    [getentropy] directly and use other opcodes; the register requests have
    a two-byte opcode, the value staying in bytes 3..6. *)
Module PkuIO.

Definition DomainProtect (getentropy : hook) (addr length pkey_ : Z) (m : IOState)
  : Z * IOState :=
  let buf := DomainProtect_request x49 addr length pkey_ in
  let '(error, buf, m) := WASICALL getentropy buf m in
  (0, m).

Definition ReadPkru (getentropy : hook) (m : IOState) : Z * IOState :=
  let buf := x0f :: xee :: replicate 10 x00 in
  let '(error, buf, m) := WASICALL getentropy buf m in
  if negb (error =? 0) then (-1, m)
  else (load_loop_int 4 3 0 buf, m).

Definition WritePkru_request (pkru_ : Z) : list byte :=
  let buf := x0f :: xef :: replicate 10 x00 in
  store_loop 4 3 (pkru_ mod 2 ^ 32) buf.

Definition WritePkru (getentropy : hook) (pkru_ : Z) (m : IOState) : Z * IOState :=
  let buf := WritePkru_request pkru_ in
  let '(error, buf, m) := WASICALL getentropy buf m in
  if negb (error =? 0) then (-1, m) else (0, m).

End PkuIO.

(** A host that answers every request with the buffer [buf], no error. *)
Definition reply (buf : list byte) : hook := fun _ => (0, buf).

(** A host that refuses every request: error 1, the buffer untouched. *)
Definition refuse : hook := fun buf => (1, buf).

(** What holds besides [registry_inv] in every state of a run: a used slot
    of the key table holds the key of its own index; nothing ever marks a
    slot of the [g_data] tables used or configures a handler, so these stay
    as they were zero-initialised; the lazy-free mode is off; the two
    initialisation flags are 0 or 1, and the outer one implies the inner. *)
Definition run_inv (s : State) : Prop :=
  (forall i k, keys s !! i = Some k -> used k = true -> pkey k = Z.of_nat i) /\
  domains (g_data s) = replicate (Z.to_nat NUM_DOMAINS) zero_key /\
  ranges (g_data s) = replicate (Z.to_nat NUM_MPROTECT_RANGES) zero_range /\
  UserHandler (g_data s) = 0 /\ handler_calls s = [] /\ g_LazyFree s = false /\
  (g_initialized s = 0 \/ g_initialized s = 1 /\ initialized (g_data s) = 1) /\
  (initialized (g_data s) = 0 \/ initialized (g_data s) = 1).

(** * Properties *)

(** ** Bits of 32-bit values *)

Lemma int32_mod (z : Z) : int32 z mod 2 ^ 32 = z mod 2 ^ 32.
Proof.
  unfold int32. rewrite Zminus_mod_idemp_l. f_equal. lia.
Qed.

Lemma int32_testbit (z m : Z) :
  0 <= m < 32 -> Z.testbit (int32 z) m = Z.testbit z m.
Proof.
  intros Hm.
  rewrite <- (Z.mod_pow2_bits_low (int32 z) 32 m) by lia.
  rewrite int32_mod. apply Z.mod_pow2_bits_low. lia.
Qed.

Lemma int32_range (z : Z) : - 2 ^ 31 <= int32 z < 2 ^ 31.
Proof.
  unfold int32. pose proof (Z.mod_pos_bound (z + 2 ^ 31) (2 ^ 32)). lia.
Qed.

(** The bits of a field are the two bits of the register at [2k]. *)
Lemma pkru_field_testbit (r k n : Z) :
  0 <= k -> 0 <= n ->
  Z.testbit (pkru_field r k) n = (n <? 2) && Z.testbit r (n + 2 * k).
Proof.
  intros Hk Hn. unfold pkru_field.
  rewrite Z.land_spec, Z.shiftr_spec by lia.
  change 3 with (Z.ones 2). rewrite Z.testbit_ones_nonneg by lia.
  destruct (n <? 2); [rewrite andb_true_r| rewrite andb_false_r]; reflexivity.
Qed.

(** Two fields are equal when their two bits are. *)
Lemma pkru_field_ext (r r' k k' : Z) :
  0 <= k -> 0 <= k' ->
  Z.testbit r (2 * k) = Z.testbit r' (2 * k') ->
  Z.testbit r (1 + 2 * k) = Z.testbit r' (1 + 2 * k') ->
  pkru_field r k = pkru_field r' k'.
Proof.
  intros Hk Hk' H0 H1. apply Z.bits_inj'. intros n Hn.
  rewrite !pkru_field_testbit by lia.
  destruct (Z.ltb_spec n 2); simpl; [|reflexivity].
  assert (n = 0 \/ n = 1) as [-> | ->] by lia; simpl; assumption.
Qed.

(** The bits [SetPkey] shifts into place are the two low bits of [prot]. *)
Lemma new_bits_land (prot : Z) :
  (let b := 0 in
   let b := if Z.land prot PKEY_DISABLE_ACCESS =? 0 then b
            else Z.lor b PKEY_DISABLE_ACCESS in
   if Z.land prot PKEY_DISABLE_WRITE =? 0 then b
   else Z.lor b PKEY_DISABLE_WRITE) = Z.land prot 3.
Proof.
  cbv zeta. unfold PKEY_DISABLE_ACCESS, PKEY_DISABLE_WRITE.
  apply Z.bits_inj'. intros n Hn.
  assert (Hb0 : Z.testbit (Z.land prot 1) 0 = Z.testbit prot 0)
    by (rewrite Z.land_spec; simpl; apply andb_true_r).
  assert (Hb1 : Z.testbit (Z.land prot 2) 1 = Z.testbit prot 1)
    by (rewrite Z.land_spec; simpl; apply andb_true_r).
  assert (H1 : Z.land prot 1 = 0 <-> Z.testbit prot 0 = false).
  { rewrite <- Hb0. split; [intros ->; reflexivity|].
    intros H. apply Z.bits_inj'. intros m Hm. rewrite Z.bits_0.
    destruct (Z.eq_dec m 0) as [->|]; [assumption|].
    rewrite Z.land_spec. change 1 with (Z.ones 1).
    rewrite Z.testbit_ones_nonneg by lia.
    destruct (Z.ltb_spec m 1); [lia|apply andb_false_r]. }
  assert (H2 : Z.land prot 2 = 0 <-> Z.testbit prot 1 = false).
  { rewrite <- Hb1. split; [intros ->; reflexivity|].
    intros H. apply Z.bits_inj'. intros m Hm. rewrite Z.bits_0.
    destruct (Z.eq_dec m 1) as [->|]; [assumption|].
    rewrite Z.land_spec. change 2 with (Z.shiftl 1 1).
    rewrite Z.shiftl_spec by lia.
    destruct (Z.eq_dec m 0) as [->|]; [apply andb_false_r|].
    change 1 with (Z.ones 1) at 1.
    rewrite Z.testbit_ones_nonneg by lia.
    destruct (Z.ltb_spec (m - 1) 1); [lia|apply andb_false_r]. }
  rewrite Z.land_spec. change 3 with (Z.ones 2).
  rewrite Z.testbit_ones_nonneg by lia.
  destruct (Z.eqb_spec (Z.land prot 1) 0) as [E1|E1];
  destruct (Z.eqb_spec (Z.land prot 2) 0) as [E2|E2].
  - apply H1 in E1. apply H2 in E2. rewrite Z.bits_0.
    destruct (Z.ltb_spec n 2); [|symmetry; apply andb_false_r].
    assert (n = 0 \/ n = 1) as [-> | ->] by lia; rewrite ?E1, ?E2; reflexivity.
  - apply H1 in E1. assert (E2' : Z.testbit prot 1 = true).
    { destruct (Z.testbit prot 1) eqn:E; [reflexivity|]. exfalso. apply E2, H2, eq_refl. }
    destruct (Z.ltb_spec n 2); [|rewrite andb_false_r; destruct n as [|[p|p|]|]; try lia; reflexivity].
    assert (n = 0 \/ n = 1) as [-> | ->] by lia; rewrite ?E1, ?E2'; reflexivity.
  - apply H2 in E2. assert (E1' : Z.testbit prot 0 = true).
    { destruct (Z.testbit prot 0) eqn:E; [reflexivity|]. exfalso. apply E1, H1, eq_refl. }
    destruct (Z.ltb_spec n 2); [|rewrite andb_false_r; destruct n as [|[p|p|]|]; try lia; reflexivity].
    assert (n = 0 \/ n = 1) as [-> | ->] by lia; rewrite ?E1', ?E2; reflexivity.
  - assert (E1' : Z.testbit prot 0 = true).
    { destruct (Z.testbit prot 0) eqn:E; [reflexivity|]. exfalso. apply E1, H1, eq_refl. }
    assert (E2' : Z.testbit prot 1 = true).
    { destruct (Z.testbit prot 1) eqn:E; [reflexivity|]. exfalso. apply E2, H2, eq_refl. }
    destruct (Z.ltb_spec n 2); [|rewrite andb_false_r; destruct n as [|[p|p|]|]; try lia; reflexivity].
    assert (n = 0 \/ n = 1) as [-> | ->] by lia; rewrite ?E1', ?E2'; reflexivity.
Qed.

(** ** The codec *)

Lemma SetPkey_pkru (rd : Z -> Z) (k prot : Z) (s : State) :
  pkru (SetPkey rd k prot s).2 =
  Z.lor (Z.land (sampled rd s) (Z.lnot (int32 (Z.shiftl 3 (k * 2)))))
        (int32 (Z.shiftl (Z.land prot 3) (k * 2))).
Proof.
  unfold SetPkey, sampled, wrpkru. cbv zeta. rewrite new_bits_land. reflexivity.
Qed.

Lemma SetPkey_testbit (rd : Z -> Z) (k prot : Z) (s : State) (m : Z) :
  0 <= k -> 0 <= m < 32 ->
  Z.testbit (pkru (SetPkey rd k prot s).2) m =
  if (2 * k <=? m) && (m <? 2 * k + 2) then Z.testbit prot (m - 2 * k)
  else Z.testbit (sampled rd s) m.
Proof.
  intros Hk Hm. rewrite SetPkey_pkru.
  rewrite Z.lor_spec, Z.land_spec, Z.lnot_spec by lia.
  rewrite !int32_testbit by lia.
  rewrite !Z.shiftl_spec by lia.
  replace (m - k * 2) with (m - 2 * k) by lia.
  destruct (Z.leb_spec (2 * k) m) as [H1|H1]; simpl.
  - rewrite Z.land_spec. change 3 with (Z.ones 2).
    rewrite !Z.testbit_ones_nonneg by lia.
    destruct (Z.ltb_spec m (2 * k + 2)) as [H2|H2].
    + replace (m - 2 * k <? 2) with true by (symmetry; apply Z.ltb_lt; lia).
      simpl. rewrite andb_false_r, andb_true_r. reflexivity.
    + replace (m - 2 * k <? 2) with false by (symmetry; apply Z.ltb_ge; lia).
      simpl. rewrite andb_true_r, andb_false_r, orb_false_r. reflexivity.
  - rewrite !(Z.testbit_neg_r _ (m - 2 * k)) by lia.
    simpl. rewrite andb_true_r, orb_false_r. reflexivity.
Qed.

(** The field of the key is set to the two low bits of [prot]. *)
Lemma SetPkey_field_key (rd : Z -> Z) (k prot : Z) (s : State) :
  0 <= k < 16 ->
  pkru_field (pkru (SetPkey rd k prot s).2) k = Z.land prot 3.
Proof.
  intros Hk. apply Z.bits_inj'. intros n Hn.
  rewrite pkru_field_testbit by lia.
  rewrite Z.land_spec. change 3 with (Z.ones 2).
  rewrite Z.testbit_ones_nonneg by lia.
  destruct (Z.ltb_spec n 2) as [H|H];
    [rewrite andb_true_l, andb_true_r | rewrite andb_false_r; reflexivity].
  rewrite SetPkey_testbit by lia.
  replace (2 * k <=? n + 2 * k) with true by (symmetry; apply Z.leb_le; lia).
  replace (n + 2 * k <? 2 * k + 2) with true by (symmetry; apply Z.ltb_lt; lia).
  rewrite andb_true_l. f_equal. lia.
Qed.

(** The fields of the other keys are those of the value it started from. *)
Lemma SetPkey_field_other (rd : Z -> Z) (k prot : Z) (s : State) (j : Z) :
  0 <= k < 16 -> 0 <= j < 16 -> j <> k ->
  pkru_field (pkru (SetPkey rd k prot s).2) j = pkru_field (sampled rd s) j.
Proof.
  intros Hk Hj Hjk.
  apply pkru_field_ext; try lia; rewrite SetPkey_testbit by lia.
  - replace ((2 * k <=? 2 * j) && (2 * j <? 2 * k + 2)) with false; [reflexivity|].
    symmetry. apply andb_false_iff.
    destruct (Z.lt_ge_cases j k); [left; apply Z.leb_gt|right; apply Z.ltb_ge]; lia.
  - replace ((2 * k <=? 1 + 2 * j) && (1 + 2 * j <? 2 * k + 2)) with false; [reflexivity|].
    symmetry. apply andb_false_iff.
    destruct (Z.lt_ge_cases j k); [left; apply Z.leb_gt|right; apply Z.ltb_ge]; lia.
Qed.

(** [SetPkey] returns 0 and touches the register only. *)
Lemma SetPkey_frame (rd : Z -> Z) (k prot : Z) (s : State) :
  SetPkey rd k prot s = (0, set_pkru (pkru (SetPkey rd k prot s).2) s).
Proof. reflexivity. Qed.

(** The fields of the fallback constant. *)
Lemma fallback_fields (j : Z) :
  0 <= j < 16 ->
  pkru_field 0x55555554 j = if j =? 0 then 0 else PKEY_DISABLE_ACCESS.
Proof.
  intros Hj.
  assert (j = 0 \/ j = 1 \/ j = 2 \/ j = 3 \/ j = 4 \/ j = 5 \/ j = 6 \/ j = 7 \/
          j = 8 \/ j = 9 \/ j = 10 \/ j = 11 \/ j = 12 \/ j = 13 \/ j = 14 \/ j = 15)
    as H by lia.
  repeat destruct H as [-> | H]; try subst j; reflexivity.
Qed.

(** C7, as amended.  Whenever the read primitive yields no value (a sample
    of 0), [SetPkey] starts from the fixed constant 0x55555554, and the value
    it writes has, in every key slot other than the one being set, the field
    of that constant: both disable bits clear in slot 0, and in each slot
    1..15 the disable-access bit set and the disable-write bit clear.  The
    slot being set receives the two low bits of the requested rights.  The
    text of [SetPkey] is the same in src/pku.c and src/pkuc/pku.c. *)
Theorem SetPkey_fallback (rd : Z -> Z) (s : State) (k prot j : Z) :
  rd (pkru s) = 0 -> 0 <= k < 16 -> 0 <= j < 16 ->
  sampled rd s = 0x55555554 /\
  pkru_field (pkru (SetPkey rd k prot s).2) j =
    if j =? k then Z.land prot 3
    else if j =? 0 then 0 else PKEY_DISABLE_ACCESS.
Proof.
  intros Hrd Hk Hj.
  assert (Hs : sampled rd s = 0x55555554) by (unfold sampled; rewrite Hrd; reflexivity).
  split; [exact Hs|].
  destruct (Z.eqb_spec j k) as [->|Hjk].
  - apply SetPkey_field_key; assumption.
  - rewrite SetPkey_field_other by assumption.
    rewrite Hs. apply fallback_fields; assumption.
Qed.

(** The source's own [rdpkru] at process start, key 1 being given the right
    "disable write": slot 2 shows the fallback. *)
Lemma SetPkey_fallback_witness :
  rdpkru (pkru (initial_state 0)) = 0 /\ 0 <= 1 < 16 /\ 0 <= 2 < 16 /\
  sampled rdpkru (initial_state 0) = 0x55555554 /\
  pkru_field (pkru (SetPkey rdpkru 1 PKEY_DISABLE_WRITE (initial_state 0)).2) 2 =
    PKEY_DISABLE_ACCESS.
Proof.
  split; [reflexivity|]. split; [lia|]. split; [lia|].
  apply (SetPkey_fallback rdpkru (initial_state 0) 1 PKEY_DISABLE_WRITE 2);
    [reflexivity | lia | lia].
Defined.

(** C7, as stated, fails: with the source's [rdpkru], which yields no value,
    the register written by [SetPkey(0, 0)] holds in slot 1 the field of the
    fallback, and that field is the disable-access bit alone, not both
    bits. *)
Lemma SetPkey_fallback_not_both_bits :
  rdpkru (pkru (initial_state 0)) = 0 /\
  pkru_field (pkru (SetPkey rdpkru 0 0 (initial_state 0)).2) 1 = PKEY_DISABLE_ACCESS /\
  pkru_field (pkru (SetPkey rdpkru 0 0 (initial_state 0)).2) 1
    <> Z.lor PKEY_DISABLE_ACCESS PKEY_DISABLE_WRITE.
Proof.
  split; [reflexivity|]. split; [reflexivity|]. discriminate.
Qed.

(** ** Invariants of the registry *)

Lemma registry_inv_frame (s s' : State) :
  keys s' = keys s ->
  RegisteredPKUCalls s' = RegisteredPKUCalls s ->
  length (domains (g_data s')) = length (domains (g_data s)) ->
  length (ranges (g_data s')) = length (ranges (g_data s)) ->
  registry_inv s -> registry_inv s'.
Proof.
  unfold registry_inv, wf. intros -> -> -> ->. tauto.
Qed.

Lemma registry_inv_initial (pkru0 : Z) : registry_inv (initial_state pkru0).
Proof.
  unfold registry_inv, wf, initial_state. simpl.
  split; [repeat split|]. split; [|split].
  - intros i k H. unfold PKUInitCtor, zero_state in H. simpl in H.
    destruct i as [|i]; simpl in H.
    + injection H as <-. simpl. lia.
    + apply (lookup_replicate_1 15 zero_key) in H as [-> _]. simpl. lia.
  - eexists. split; [reflexivity|reflexivity].
  - intros i c H. apply (lookup_replicate_1 64 zero_call) in H as [-> _].
    simpl. lia.
Qed.

(** The sweep of [PKUDomainFree] calls the handler once for each used record,
    in table order, and changes nothing else. *)
Lemma sweep_ranges_spec (rs : list s_mprotect) (s s' : State) :
  sweep_ranges rs s = Some s' ->
  s' = set_handler_calls
         (handler_calls s ++ List.map rg_addr (List.filter rg_used rs)) s.
Proof.
  revert s. induction rs as [|r rs IH]; intros s H; simpl in *.
  - injection H as <-. rewrite app_nil_r. destruct s; reflexivity.
  - destruct (rg_used r); [|apply IH; assumption].
    unfold call_UserHandler in H.
    destruct (UserHandler (g_data s) =? 0); [discriminate|]. simpl in H.
    apply IH in H. rewrite H. simpl. rewrite <- app_assoc. reflexivity.
Qed.

(** The sweep has a defined result when a handler is configured, and when no
    record is used. *)
Lemma sweep_ranges_defined (rs : list s_mprotect) (s : State) :
  UserHandler (g_data s) <> 0 \/ existsb rg_used rs = false ->
  is_Some (sweep_ranges rs s).
Proof.
  revert s. induction rs as [|r rs IH]; intros s H; simpl.
  - eexists; reflexivity.
  - destruct (rg_used r) eqn:Hr.
    + destruct H as [H|H]; [|simpl in H; rewrite Hr in H; discriminate].
      unfold call_UserHandler.
      destruct (Z.eqb_spec (UserHandler (g_data s)) 0); [contradiction|]. simpl.
      apply IH. left. assumption.
    + apply IH. destruct H as [H|H]; [left; assumption|right].
      simpl in H. rewrite Hr in H. assumption.
Qed.

Lemma byte_at_range (buf : list byte) (i : nat) : 0 <= byte_at buf i < 256.
Proof.
  unfold byte_at. pose proof (Byte.to_N_bounded (default x00 (buf !! i))). lia.
Qed.

(** The three outcomes of [PKUCreateDomain]: the hook failed; no key was
    granted; the key [b] was granted and slot [b] of the key table holds it
    and is used, its permission bits being left as they were. *)
Lemma PKUCreateDomain_cases (h : hook) (flags : Z) (s : State) :
  let b := byte_at (h (request x01 x21)).2 2 in
  PKUCreateDomain h flags s =
    if negb ((h (request x01 x21)).1 =? 0) then (-1, s)
    else if 16 <=? b then (0, s)
    else (b, set_keys (alter (fun k => mkPKUKey b (perm k) true) (Z.to_nat b) (keys s)) s).
Proof.
  unfold PKUCreateDomain. destruct (h (request x01 x21)) as [e buf]. simpl.
  destruct (negb (e =? 0)); [reflexivity|].
  destruct (16 <=? byte_at buf 2); [reflexivity|].
  f_equal. unfold set_keys at 1 2. simpl. rewrite list_alter_alter_eq. reflexivity.
Qed.

Lemma registry_inv_set_key (s : State) (b : Z) :
  0 <= b < 16 ->
  registry_inv s ->
  registry_inv
    (set_keys (alter (fun k => mkPKUKey b (perm k) true) (Z.to_nat b) (keys s)) s).
Proof.
  intros Hb (Hwf & Hk & (k0 & Hk0 & Hu0) & Hc).
  unfold registry_inv, wf in *. simpl. rewrite length_alter.
  split; [exact Hwf|]. split; [|split; [|exact Hc]].
  - intros i k. rewrite list_lookup_alter. case_decide as Hi.
    + destruct (keys s !! Z.to_nat b) as [k'|] eqn:E; [|discriminate].
      simpl. intros [= <-]. simpl. apply Hk in E. split; [tauto|lia].
    + apply Hk.
  - rewrite list_lookup_alter. case_decide as Hi.
    + rewrite Hi, Hk0. simpl. eexists. split; reflexivity.
    + exists k0. split; assumption.
Qed.

Lemma PKUCreateDomain_inv (h : hook) (flags : Z) (s : State) :
  registry_inv s -> registry_inv (PKUCreateDomain h flags s).2.
Proof.
  intros Hinv. rewrite PKUCreateDomain_cases. cbv zeta.
  destruct (negb _); [exact Hinv|].
  destruct (Z.leb_spec 16 (byte_at (h (request x01 x21)).2 2)); [exact Hinv|].
  simpl. apply registry_inv_set_key; [|exact Hinv].
  pose proof (byte_at_range (h (request x01 x21)).2 2). lia.
Qed.

Lemma DoInit_inv (pagesize flags : Z) (s : State) :
  registry_inv s -> registry_inv (DoInit pagesize flags s).2.
Proof.
  unfold DoInit. repeat case_match; simpl; apply registry_inv_frame; reflexivity.
Qed.

Lemma PKUInit_inv (pagesize flags : Z) (s : State) :
  registry_inv s -> registry_inv (PKUInit pagesize flags s).2.
Proof.
  intros H. unfold PKUInit. destruct (negb _); [exact H|].
  pose proof (DoInit_inv pagesize flags s H) as H'.
  destruct (DoInit pagesize flags s) as [ret s1]. simpl in H'.
  destruct (-1 =? ret); simpl; [exact H'|].
  revert H'. apply registry_inv_frame; reflexivity.
Qed.

Lemma PKUDomainFree_inv (domain : Z) (s : State) (r : Z) (s' : State) :
  PKUDomainFree domain s = Some (r, s') -> registry_inv s -> registry_inv s'.
Proof.
  unfold PKUDomainFree. intros H.
  destruct (initialized (g_data s) =? 0); [injection H as <- <-; auto|].
  destruct (negb (DomainExists domain s));
    [injection H as <- <-; apply registry_inv_frame; reflexivity|].
  destruct (existsb used _);
    [injection H as <- <-; apply registry_inv_frame; reflexivity|].
  destruct (sweep_ranges _ s) as [s1|] eqn:Hs; [|discriminate]. simpl in H.
  injection H as <- <-. apply sweep_ranges_spec in Hs. subst s1.
  apply registry_inv_frame; simpl; try reflexivity.
  rewrite !length_alter. reflexivity.
Qed.

Lemma PKUPkeyFree_inv (k : Z) (s : State) (r : Z) (s' : State) :
  PKUPkeyFree k s = Some (r, s') -> registry_inv s -> registry_inv s'.
Proof.
  unfold PKUPkeyFree. intros H Hinv.
  destruct (existsb rg_used _);
    [injection H as <- <-; revert Hinv; apply registry_inv_frame; reflexivity|].
  match type of H with context [g_LazyFree ?t] => set (s1 := t) in * end.
  assert (H1 : registry_inv s1).
  { revert Hinv. apply registry_inv_frame; simpl; try reflexivity.
    rewrite length_app, length_fmap, <- length_app, take_drop. reflexivity. }
  destruct (g_LazyFree s1); [injection H as <- <-; exact H1|].
  eapply PKUDomainFree_inv; eassumption.
Qed.

Lemma DomainExists_range (d : Z) (s : State) :
  DomainExists d s = true ->
  0 <= d < 16 /\ exists k, keys s !! Z.to_nat d = Some k /\ used k = true.
Proof.
  unfold DomainExists, NUM_DOMAINS. intros H.
  apply andb_prop in H as [H H3]. apply andb_prop in H as [H1 H2].
  apply Z.leb_le in H1. apply Z.ltb_lt in H2. split; [lia|].
  destruct (keys s !! Z.to_nat d) as [k|]; [|discriminate].
  exists k. split; [reflexivity|assumption].
Qed.

Lemma RegisterPKUCall_inv (d e : Z) (s : State) (r : Z) (s' : State) :
  RegisterPKUCall d e s = Some (r, s') -> registry_inv s -> registry_inv s'.
Proof.
  unfold RegisterPKUCall. intros H Hinv.
  destruct (DomainExists d s) eqn:Hd; simpl in H; [|injection H as <- <-; exact Hinv].
  apply DomainExists_range in Hd as [Hd _].
  destruct (_ || _); [injection H as <- <-; exact Hinv|].
  destruct (at_index _ _) as [c|]; [|discriminate]. simpl in H.
  destruct (negb (entry c =? 0)); injection H as <- <-; [exact Hinv|].
  destruct Hinv as (Hwf & Hk & H0 & Hc).
  unfold registry_inv, wf in *. simpl. rewrite !length_alter.
  split; [exact Hwf|]. split; [exact Hk|]. split; [exact H0|].
  intros i c'. rewrite list_alter_alter_eq, list_lookup_alter. case_decide.
  - destruct (RegisteredPKUCalls s !! _); [|discriminate]. simpl.
    intros [= <-]. simpl. exact Hd.
  - apply Hc.
Qed.

Lemma gate_inv (rd : Z -> Z) (c : call) (s : State) (r : Z) (s' : State) :
  match c with
  | CallPKUDomainAssignPkey _ _ _ _ | CallPKUSwitch _ | CallPKURestore _ => True
  | _ => False
  end ->
  exec rd c s = Some (r, s') -> registry_inv s -> registry_inv s'.
Proof.
  destruct c; try contradiction; intros _; simpl;
    unfold PKUDomainAssignPkey, PKUSwitch, PKURestore; intros H.
  - destruct (negb _); [injection H as <- <-; auto|].
    destruct (negb _); [injection H as <- <-; auto|].
    destruct (negb _); [injection H as <- <-; auto|].
    destruct (at_index _ _) as [k|]; [|discriminate]. simpl in H.
    injection H as <- <-. apply registry_inv_frame; reflexivity.
  - destruct (at_index _ _) as [c|]; [|discriminate]. simpl in H.
    destruct (at_index _ _) as [k|]; [|discriminate]. simpl in H.
    injection H as <- <-. apply registry_inv_frame; reflexivity.
  - destruct (at_index _ _) as [k|]; [|discriminate]. simpl in H.
    injection H as <- <-. apply registry_inv_frame; reflexivity.
Qed.

(** Every call with a defined result preserves the invariant. *)
Lemma exec_inv (rd : Z -> Z) (c : call) (s : State) (r : Z) (s' : State) :
  exec rd c s = Some (r, s') -> registry_inv s -> registry_inv s'.
Proof.
  destruct c; try (apply gate_inv; exact I); simpl; intros H Hinv.
  - injection H as H. rewrite (surjective_pairing (DoInit _ _ _)) in H.
    injection H as _ <-. apply DoInit_inv, Hinv.
  - injection H as H. rewrite (surjective_pairing (PKUInit _ _ _)) in H.
    injection H as _ <-. apply PKUInit_inv, Hinv.
  - injection H as <- <-. exact Hinv.
  - eapply PKUDomainFree_inv; eassumption.
  - unfold PKUPkeyAlloc in H. destruct (negb _).
    + injection H as <- <-. revert Hinv. apply registry_inv_frame; reflexivity.
    + injection H as H. rewrite (surjective_pairing (PKUCreateDomain _ _ _)) in H.
      injection H as _ <-. apply PKUCreateDomain_inv, Hinv.
  - eapply PKUPkeyFree_inv; eassumption.
  - injection H as H. rewrite (surjective_pairing (PKUCreateDomain _ _ _)) in H.
    injection H as _ <-. apply PKUCreateDomain_inv, Hinv.
  - eapply RegisterPKUCall_inv; eassumption.
Qed.

(** The invariant holds in every state of a run. *)
Lemma reachable_inv (rd : Z -> Z) (s : State) : reachable rd s -> registry_inv s.
Proof.
  induction 1 as [pkru0 | s c r s' _ IH Hex].
  - apply registry_inv_initial.
  - eapply exec_inv; eassumption.
Qed.

Lemma PKUDomainFree_keys (domain : Z) (s : State) (r : Z) (s' : State) :
  PKUDomainFree domain s = Some (r, s') ->
  keys s' = keys s /\ RegisteredPKUCalls s' = RegisteredPKUCalls s.
Proof.
  unfold PKUDomainFree. intros H.
  destruct (initialized (g_data s) =? 0); [injection H as <- <-; auto|].
  destruct (negb (DomainExists domain s)); [injection H as <- <-; auto|].
  destruct (existsb used _); [injection H as <- <-; auto|].
  destruct (sweep_ranges _ s) as [s1|] eqn:Hs; [|discriminate]. simpl in H.
  injection H as <- <-. apply sweep_ranges_spec in Hs. subst s1. auto.
Qed.

(** ** Creating a domain *)

(** C10.  When the host reports no error and grants a key index outside
    0..15, [PKUCreateDomain] returns 0 and creates nothing (the state is
    unchanged).  0 is also the id of the root domain, which exists in every
    state of a run, and it is also what a call returns to which the host
    grants key 0: the return value alone does not tell "no domain was
    created" from a handle to the root domain. *)
Theorem PKUCreateDomain_sentinel_is_root
    (rd : Z -> Z) (s : State) (h : hook) (flags : Z) :
  reachable rd s ->
  (h (request x01 x21)).1 = 0 ->
  16 <= byte_at (h (request x01 x21)).2 2 ->
  PKUCreateDomain h flags s = (0, s) /\
  DomainExists 0 s = true /\
  (PKUCreateDomain (grant x00) flags s).1 = 0 /\
  DomainExists 0 (PKUCreateDomain (grant x00) flags s).2 = true.
Proof.
  intros Hr He Hb.
  pose proof (reachable_inv rd s Hr) as Hinv.
  assert (Hroot : forall s0, registry_inv s0 -> DomainExists 0 s0 = true).
  { intros s0 (_ & _ & (k0 & Hk0 & Hu0) & _).
    unfold DomainExists. change (Z.to_nat 0) with 0%nat.
    rewrite Hk0. exact Hu0. }
  split; [|split; [|split]].
  - rewrite PKUCreateDomain_cases. cbv zeta. rewrite He. simpl.
    destruct (Z.leb_spec 16 (byte_at (h (request x01 x21)).2 2)); [reflexivity|lia].
  - apply Hroot, Hinv.
  - reflexivity.
  - apply Hroot, PKUCreateDomain_inv, Hinv.
Qed.

(** At process start, a host that answers with the key byte 255. *)
Lemma PKUCreateDomain_sentinel_is_root_witness :
  reachable rdpkru (initial_state 0) /\
  ((grant xff) (request x01 x21)).1 = 0 /\
  16 <= byte_at ((grant xff) (request x01 x21)).2 2 /\
  PKUCreateDomain (grant xff) 0 (initial_state 0) = (0, initial_state 0) /\
  DomainExists 0 (initial_state 0) = true /\
  (PKUCreateDomain (grant x00) 0 (initial_state 0)).1 = 0 /\
  DomainExists 0 (PKUCreateDomain (grant x00) 0 (initial_state 0)).2 = true.
Proof.
  split; [apply reachable_init|]. split; [reflexivity|].
  split; [vm_compute; discriminate|].
  apply (PKUCreateDomain_sentinel_is_root rdpkru (initial_state 0) (grant xff) 0);
    [apply reachable_init | reflexivity | vm_compute; discriminate].
Defined.

(** [PKUCreateDomain] of src/pku.c is the one of src/pkuc/pku.c under a host
    that answers the request with the other opcode. *)
Lemma Pku_PKUCreateDomain_eq (h : hook) (flags : Z) (s : State) :
  Pku.PKUCreateDomain h flags s =
  PKUCreateDomain (fun _ => h (request x01 x4a)) flags s.
Proof. reflexivity. Qed.

(** The same sentinel in src/pku.c. *)
Lemma Pku_PKUCreateDomain_sentinel (s : State) (h : hook) (flags : Z) :
  (h (request x01 x4a)).1 = 0 ->
  16 <= byte_at (h (request x01 x4a)).2 2 ->
  Pku.PKUCreateDomain h flags s = (0, s).
Proof.
  intros He Hb. rewrite Pku_PKUCreateDomain_eq, PKUCreateDomain_cases. cbv zeta.
  rewrite He. simpl.
  destruct (Z.leb_spec 16 (byte_at (h (request x01 x4a)).2 2)); [reflexivity|lia].
Qed.


Lemma st_dom1_reachable (rd : Z -> Z) : reachable rd st_dom1.
Proof.
  apply (reachable_call rd st_ready (CallPKUCreateDomain (grant x01) 0) 1);
    [|reflexivity].
  apply (reachable_call rd st_init (CallPKUInit 4096 0) 0); [|reflexivity].
  apply reachable_init.
Qed.

Lemma st_call_reachable (rd : Z -> Z) : reachable rd st_call.
Proof.
  apply (reachable_call rd st_dom1 (CallRegisterPKUCall 1 0x1000) 0);
    [apply st_dom1_reachable|reflexivity].
Qed.


(** The stored bits on that input, evaluated: 2, not 0. *)
Example reused_slot_perm_leaks :
  perm <$> keys (PKUCreateDomain (grant x01) 0 st_rights_freed).2 !! 1%nat =
    Some PKEY_DISABLE_WRITE /\
  PKEY_DISABLE_WRITE <> 0.
Proof. split; [reflexivity|discriminate]. Qed.

(** In src/pku.c [PKUDomainFree] does nothing and returns 0, and
    [PKUCreateDomain] writes [pkey] and [used] only: the bits are handed on
    there too. *)
Lemma Pku_reused_slot_keeps_perm
    (s : State) (did_ : Z) (h : hook) (flags : Z) (k : PKUKey) :
  keys s !! Z.to_nat did_ = Some k ->
  (Pku.PKUCreateDomain h flags (Pku.PKUDomainFree did_ s).2).1 = did_ ->
  exists k',
    keys (Pku.PKUCreateDomain h flags (Pku.PKUDomainFree did_ s).2).2 !! Z.to_nat did_
      = Some k' /\
    perm k' = perm k.
Proof.
  intros Hk. change (Pku.PKUDomainFree did_ s).2 with s.
  rewrite Pku_PKUCreateDomain_eq, PKUCreateDomain_cases. cbv zeta.
  destruct (negb _); [intros _; exists k; auto|].
  destruct (16 <=? _); simpl.
  - intros _. exists k. auto.
  - intros ->. rewrite list_lookup_alter_eq, Hk. simpl.
    eexists. split; reflexivity.
Qed.

(** In a run of the code as it is the bits handed on are always zero: no
    function stores a permission other than zero ([PKUDomainAssignPkey]
    drops the rights it is given). *)
Lemma run_perm_zero (rd : Z -> Z) (s : State) (i : nat) (k : PKUKey) :
  reachable rd s -> keys s !! i = Some k -> perm k = 0.
Proof.
  intros Hr Hk. destruct (reachable_inv rd s Hr) as (_ & Hp & _).
  apply (Hp _ _ Hk).
Qed.

(** ** Registering a call *)

(** The scan stops at the lowest slot whose entry is null. *)
Lemma scan_calls_first (l : list PKUCall) (n : Z) (i : nat) (c : PKUCall) :
  l !! i = Some c -> entry c = 0 ->
  (forall j c', (j < i)%nat -> l !! j = Some c' -> entry c' <> 0) ->
  scan_calls l n = n + Z.of_nat i.
Proof.
  revert n i. induction l as [|a l IH]; intros n i Hi Hc Hlow; [discriminate|].
  destruct i as [|i]; simpl in *.
  - injection Hi as ->. rewrite Hc. simpl. lia.
  - destruct (Z.eqb_spec (entry a) 0) as [Ha|Ha].
    + exfalso. apply (Hlow 0%nat a); [lia|reflexivity|exact Ha].
    + rewrite (IH (n + 1) i Hi Hc); [lia|].
      intros j c' Hj Hl. apply (Hlow (S j) c'); [lia|exact Hl].
Qed.

(** With no null entry the scan runs past the last slot. *)
Lemma scan_calls_full (l : list PKUCall) (n : Z) :
  (forall i c, l !! i = Some c -> entry c <> 0) ->
  scan_calls l n = n + Z.of_nat (length l).
Proof.
  revert n. induction l as [|a l IH]; intros n Hall; simpl; [lia|].
  destruct (Z.eqb_spec (entry a) 0) as [Ha|Ha].
  - exfalso. apply (Hall 0%nat a); [reflexivity|exact Ha].
  - rewrite IH; [lia|]. intros i c Hl. apply (Hall (S i) c). exact Hl.
Qed.

(** C9.  [RegisterPKUCall(did, entry)] returns -EINVAL (InvalidDomain) and
    changes nothing when [did] does not exist.  When it exists and [i] is
    the lowest slot whose entry pointer is null, the call stores
    [(did, entry)] in slot [i], leaves every other slot alone and returns
    [i].  When it exists and all 64 slots hold non-null entries, the call
    returns -EACCES (ResourceExhausted) and changes nothing, so no slot is
    overwritten. *)
Theorem RegisterPKUCall_spec (did_ entry_ : Z) (s : State) :
  wf s ->
  (DomainExists did_ s = false ->
   RegisterPKUCall did_ entry_ s = Some (- EINVAL, s)) /\
  (DomainExists did_ s = true ->
   forall (i : nat) (c : PKUCall),
     RegisteredPKUCalls s !! i = Some c -> entry c = 0 ->
     (forall j c', (j < i)%nat -> RegisteredPKUCalls s !! j = Some c' -> entry c' <> 0) ->
     RegisterPKUCall did_ entry_ s =
       Some (Z.of_nat i,
             set_RegisteredPKUCalls
               (<[i := mkPKUCall did_ entry_]> (RegisteredPKUCalls s)) s)) /\
  (DomainExists did_ s = true ->
   (forall i c, RegisteredPKUCalls s !! i = Some c -> entry c <> 0) ->
   RegisterPKUCall did_ entry_ s = Some (- EACCES, s)).
Proof.
  intros (_ & Hlen & _). unfold RegisterPKUCall.
  rewrite take_ge by lia.
  split; [intros ->; reflexivity|]. split.
  - intros -> i c Hi Hc Hlow. simpl.
    rewrite (scan_calls_first _ 0 i c Hi Hc Hlow), Z.add_0_l.
    pose proof (lookup_lt_Some _ _ _ Hi) as Hlt. rewrite Hlen in Hlt.
    unfold NUM_REGISTERED_PKUCALLS in *.
    replace (Z.of_nat i <? 0) with false by (symmetry; apply Z.ltb_ge; lia).
    replace (64 <=? Z.of_nat i) with false by (symmetry; apply Z.leb_gt; lia).
    cbn [orb]. unfold at_index.
    replace (0 <=? Z.of_nat i) with true by (symmetry; apply Z.leb_le; lia).
    rewrite Nat2Z.id, Hi. simpl. rewrite Hc. simpl.
    rewrite list_alter_alter_eq, list_insert_alter. reflexivity.
  - intros -> Hall. simpl. rewrite (scan_calls_full _ 0 Hall), Hlen. reflexivity.
Qed.

(** At process start the root domain registers a first call and gets slot
    0, the lowest of the 64 empty slots. *)
Lemma RegisterPKUCall_spec_witness :
  wf st_init /\
  RegisterPKUCall 0 0x1000 st_init =
    Some (0, set_RegisteredPKUCalls
               (<[0%nat := mkPKUCall 0 0x1000]> (RegisteredPKUCalls st_init)) st_init).
Proof.
  assert (Hwf : wf st_init) by (repeat split; reflexivity).
  split; [exact Hwf|].
  apply (proj1 (proj2 (RegisterPKUCall_spec 0 0x1000 st_init Hwf)) eq_refl
           0%nat zero_call eq_refl eq_refl).
  intros j c' Hj. inversion Hj.
Defined.

(** ** Initialisation *)

(** C8, as amended.  [PKUInit(flags)] returns 0 and changes nothing when a
    previous [PKUInit] has succeeded ([g_initialized] set).  Otherwise it
    fails with -1 and errno EACCES when [DoInit] has already run
    ([g_data.initialized] set) or when the observed page size is not 4096
    (which includes the -1 of a failed [sysconf]); and a first call with the
    page size 4096 succeeds, setting both flags.  [DoInit] itself fails
    whenever [g_data.initialized] is set. *)
Theorem PKUInit_spec (pagesize flags : Z) (s : State) :
  (g_initialized s <> 0 -> PKUInit pagesize flags s = (0, s)) /\
  (g_initialized s = 0 ->
   initialized (g_data s) <> 0 \/ pagesize <> 4096 ->
   PKUInit pagesize flags s = (-1, set_errno EACCES s)) /\
  (g_initialized s = 0 -> initialized (g_data s) = 0 -> pagesize = 4096 ->
   PKUInit pagesize flags s =
     (0, set_g_initialized 1 (set_g_data (set_initialized 1 (g_data s)) s))) /\
  (initialized (g_data s) <> 0 ->
   DoInit pagesize flags s = (-1, set_errno EACCES s)).
Proof.
  unfold PKUInit, DoInit, PAGESIZEPKU. repeat split.
  - intros H. destruct (Z.eqb_spec (g_initialized s) 0); [contradiction|reflexivity].
  - intros -> H.
    destruct (Z.eqb_spec (initialized (g_data s)) 0) as [Hi|Hi];
    destruct (Z.eqb_spec (-1) pagesize) as [E1|E1];
    destruct (Z.eqb_spec 4096 pagesize) as [E2|E2]; try reflexivity; lia.
  - intros -> -> ->. reflexivity.
  - intros H. destruct (Z.eqb_spec (initialized (g_data s)) 0); [contradiction|reflexivity].
Qed.

(** C8, as stated, fails: [PKUInit] called again after a successful
    [PKUInit] returns 0, not an error, and leaves the state as it is. *)
Lemma PKUInit_twice_succeeds :
  PKUInit 4096 0 st_init = (0, st_ready) /\
  g_initialized st_ready = 1 /\
  PKUInit 4096 0 st_ready = (0, st_ready).
Proof. repeat split; reflexivity. Qed.

(** The three other outcomes on the sample run: a wrong page size, a first
    call, and [DoInit] called again directly. *)
Example PKUInit_outcomes :
  PKUInit 8192 0 st_init = (-1, set_errno EACCES st_init) /\
  PKUInit 4096 0 st_init =
    (0, set_g_initialized 1 (set_g_data (set_initialized 1 (g_data st_init)) st_init)) /\
  DoInit 4096 0 st_ready = (-1, set_errno EACCES st_ready).
Proof. repeat split; reflexivity. Qed.

(** ** Freeing a domain *)

(** The failing paths of [PKUDomainFree]. *)
Lemma PKUDomainFree_failures (domain : Z) (s : State) :
  wf s ->
  (initialized (g_data s) = 0 -> PKUDomainFree domain s = Some (-1, s)) /\
  (initialized (g_data s) <> 0 ->
   DomainExists domain s = false \/ existsb used (domains (g_data s)) = true ->
   PKUDomainFree domain s = Some (-1, set_errno EINVAL s)).
Proof.
  intros (_ & _ & Hd & _). unfold PKUDomainFree. rewrite (take_ge (domains _)) by lia.
  split; [intros ->; reflexivity|].
  intros Hi H. destruct (Z.eqb_spec (initialized (g_data s)) 0); [contradiction|].
  destruct (DomainExists domain s); [|reflexivity].
  destruct H as [H | ->]; [discriminate|reflexivity].
Qed.

(** The path of [PKUDomainFree] past its three checks: the sweep of the
    whole range table, then the clearing of the slot. *)
Lemma PKUDomainFree_sweeps (domain : Z) (s s1 : State) :
  wf s ->
  initialized (g_data s) <> 0 -> DomainExists domain s = true ->
  existsb used (domains (g_data s)) = false ->
  sweep_ranges (ranges (g_data s)) s = Some s1 ->
  PKUDomainFree domain s =
    Some (0, set_g_data
               (set_domains
                  (<[Z.to_nat domain := mkPKUKey 0 0 false]> (domains (g_data s1)))
                  (g_data s1)) s1).
Proof.
  intros (_ & _ & Hd & Hr) Hi Hex Hnone Hsw. unfold PKUDomainFree.
  rewrite !take_ge by lia.
  destruct (Z.eqb_spec (initialized (g_data s)) 0); [contradiction|].
  rewrite Hex, Hnone, Hsw. simpl.
  rewrite !list_alter_alter_eq, list_insert_alter. reflexivity.
Qed.

(** [PKUDomainFree(did)], case by case.  It fails with -1, changing
    nothing, when the registry is not initialized; it fails with -1 and
    errno EINVAL when [did] does not exist, and also when a slot of the
    [g_data] domain table is marked used.  Otherwise, with a handler
    configured (or no record used), it invokes the handler exactly once for
    each used range record of the whole table, in table order and whoever
    owns the record, and then clears slot [did] of the [g_data] domain
    table and returns 0. *)
Lemma PKUDomainFree_cases (domain : Z) (s : State) :
  wf s ->
  (initialized (g_data s) = 0 -> PKUDomainFree domain s = Some (-1, s)) /\
  (initialized (g_data s) <> 0 -> DomainExists domain s = false ->
   PKUDomainFree domain s = Some (-1, set_errno EINVAL s)) /\
  (initialized (g_data s) <> 0 -> DomainExists domain s = true ->
   existsb used (domains (g_data s)) = true ->
   PKUDomainFree domain s = Some (-1, set_errno EINVAL s)) /\
  (initialized (g_data s) <> 0 -> DomainExists domain s = true ->
   existsb used (domains (g_data s)) = false ->
   UserHandler (g_data s) <> 0 \/ existsb rg_used (ranges (g_data s)) = false ->
   exists s1,
     sweep_ranges (ranges (g_data s)) s = Some s1 /\
     handler_calls s1 =
       handler_calls s ++ List.map rg_addr (List.filter rg_used (ranges (g_data s))) /\
     g_data s1 = g_data s /\ keys s1 = keys s /\
     PKUDomainFree domain s =
       Some (0, set_g_data
                  (set_domains
                     (<[Z.to_nat domain := mkPKUKey 0 0 false]> (domains (g_data s1)))
                     (g_data s1)) s1)).
Proof.
  intros Hwf. destruct (PKUDomainFree_failures domain s Hwf) as [F1 F2].
  split; [exact F1|].
  split; [intros Hi Hex; apply F2; [exact Hi|left; exact Hex]|].
  split; [intros Hi _ Hu; apply F2; [exact Hi|right; exact Hu]|].
  intros Hi Hex Hnone Hh.
  destruct (sweep_ranges_defined (ranges (g_data s)) s Hh) as [s1 Hs1].
  pose proof (sweep_ranges_spec _ _ _ Hs1) as Heq.
  exists s1. split; [exact Hs1|].
  split; [rewrite Heq; reflexivity|].
  split; [rewrite Heq; reflexivity|].
  split; [rewrite Heq; reflexivity|].
  apply PKUDomainFree_sweeps; assumption.
Qed.

(** With records 0 and 20 used and a handler configured, freeing domain 1
    calls the handler on the two addresses, in that order. *)
Example PKUDomainFree_cases_ranges :
  wf st_ranges /\
  exists s1,
    sweep_ranges (ranges (g_data st_ranges)) st_ranges = Some s1 /\
    handler_calls s1 = [0x2000; 0x5000] /\
    g_data s1 = g_data st_ranges /\ keys s1 = keys st_ranges /\
    PKUDomainFree 1 st_ranges =
      Some (0, set_g_data
                 (set_domains
                    (<[1%nat := mkPKUKey 0 0 false]> (domains (g_data s1)))
                    (g_data s1)) s1).
Proof.
  assert (Hwf : wf st_ranges) by (repeat split; reflexivity).
  split; [exact Hwf|].
  apply (proj2 (proj2 (proj2 (PKUDomainFree_cases 1 st_ranges Hwf)))).
  - discriminate.
  - reflexivity.
  - reflexivity.
  - left. discriminate.
Defined.

(** C6 on the code.  Whenever [PKUDomainFree(did)] returns 0 the domain
    exists afterwards as it did before.  The call clears the key,
    permission and used fields of slot [did] of [g_data.domains]; the
    existence test reads [keys[did].used], and the tables [keys] and
    [RegisteredPKUCalls] are left as they were.  So a registration for the
    freed domain is answered as it was before the free. *)
Theorem PKUDomainFree_domain_survives (domain : Z) (s s' : State) :
  wf s ->
  PKUDomainFree domain s = Some (0, s') ->
  DomainExists domain s = true /\ DomainExists domain s' = true /\
  keys s' = keys s /\ RegisteredPKUCalls s' = RegisteredPKUCalls s /\
  domains (g_data s') !! Z.to_nat domain = Some (mkPKUKey 0 0 false) /\
  (forall e, fst <$> RegisterPKUCall domain e s' = fst <$> RegisterPKUCall domain e s).
Proof.
  intros (_ & _ & Hlen & _) Hfree.
  assert (Hex : DomainExists domain s = true).
  { unfold PKUDomainFree in Hfree.
    destruct (initialized (g_data s) =? 0); [discriminate|].
    destruct (DomainExists domain s); [reflexivity|discriminate]. }
  destruct (PKUDomainFree_keys _ _ _ _ Hfree) as [Hkeys Hcalls].
  assert (Hex' : DomainExists domain s' = true).
  { unfold DomainExists in *. rewrite Hkeys. exact Hex. }
  split; [exact Hex|]. split; [exact Hex'|]. split; [exact Hkeys|].
  split; [exact Hcalls|]. split.
  - pose proof Hex as Hr. apply DomainExists_range in Hr as (Hd & _).
    unfold PKUDomainFree in Hfree. rewrite Hex in Hfree.
    destruct (initialized (g_data s) =? 0); [discriminate|]. cbn [negb] in Hfree.
    destruct (existsb used _); [discriminate|].
    destruct (sweep_ranges _ s) as [s1|] eqn:Hs; [|discriminate].
    cbn [mbind option_bind] in Hfree. injection Hfree as <-.
    apply sweep_ranges_spec in Hs. subst s1.
    cbn [g_data set_g_data set_handler_calls domains set_domains].
    destruct (lookup_lt_is_Some_2 (domains (g_data s)) (Z.to_nat domain)) as [x Hx].
    { rewrite Hlen. unfold NUM_DOMAINS. lia. }
    rewrite !list_lookup_alter_eq, Hx. reflexivity.
  - intros e. unfold RegisterPKUCall. rewrite Hex, Hex', Hcalls. cbn [negb].
    destruct (_ || _); [reflexivity|].
    destruct (at_index _ _) as [c|]; [|reflexivity]. cbn [mbind option_bind].
    destruct (negb _); reflexivity.
Qed.

(** On the sample run: domain 1 is freed with result 0 and exists
    afterwards; a call can still be registered for it. *)
Lemma PKUDomainFree_domain_survives_witness :
  wf st_dom1 /\ PKUDomainFree 1 st_dom1 = Some (0, st_freed) /\
  DomainExists 1 st_dom1 = true /\ DomainExists 1 st_freed = true /\
  keys st_freed = keys st_dom1 /\
  RegisteredPKUCalls st_freed = RegisteredPKUCalls st_dom1 /\
  domains (g_data st_freed) !! Z.to_nat 1 = Some (mkPKUKey 0 0 false) /\
  (forall e, fst <$> RegisterPKUCall 1 e st_freed = fst <$> RegisterPKUCall 1 e st_dom1).
Proof.
  assert (Hwf : wf st_dom1) by (repeat split; reflexivity).
  split; [exact Hwf|]. split; [reflexivity|].
  apply (PKUDomainFree_domain_survives 1 st_dom1 st_freed Hwf eq_refl).
Defined.

(** The same input, evaluated: the free returns 0, the existence test still
    answers true, and a registration for the freed domain gets slot 0. *)
Example PKUDomainFree_then_register :
  fst <$> PKUDomainFree 1 st_dom1 = Some 0 /\
  DomainExists 1 st_freed = true /\
  fst <$> RegisterPKUCall 1 0x1000 st_freed = Some 0.
Proof. repeat split; reflexivity. Qed.

(** ** Freeing a key *)

Lemma existsb_used_revoke (ds : list PKUKey) : existsb used (revoke <$> ds) = false.
Proof.
  induction ds as [|d ds IH]; [reflexivity|].
  rewrite fmap_cons. cbn [existsb]. rewrite IH, orb_false_r.
  unfold revoke. destruct (used d) eqn:E; [reflexivity|exact E].
Qed.

Lemma existsb_take_true {A} (f : A -> bool) (n : nat) (l : list A) :
  existsb f (take n l) = true -> existsb f l = true.
Proof.
  revert n. induction l as [|a l IH]; intros [|n] H; simpl in *; try discriminate.
  apply orb_true_iff in H as [H|H]; apply orb_true_iff; [left; exact H|right].
  apply (IH n H).
Qed.

Lemma existsb_take_false {A} (f : A -> bool) (n : nat) (l : list A) :
  existsb f l = false -> existsb f (take n l) = false.
Proof.
  intros H. destruct (existsb f (take n l)) eqn:E; [|reflexivity].
  apply existsb_take_true in E. congruence.
Qed.

(** The state after the second loop of [PKUPkeyFree]. *)
Lemma revoked_wf (s : State) :
  wf s -> wf (set_g_data (set_domains (revoke <$> domains (g_data s)) (g_data s)) s).
Proof.
  unfold wf. simpl. rewrite length_fmap. tauto.
Qed.

(** C4, as amended.  [PKUPkeyFree(pkey)] fails with -1 and errno EPERM
    (PermissionDenied), changing nothing else, when its scan meets a used
    range record, which it does only if a record is marked used.  When no
    range record is marked used, it marks every used slot of the [g_data]
    domain table unused and then: in lazy-free mode it returns 0; otherwise
    it returns what [PKUDomainFree(pkey)] returns on that state, which is -1
    when the registry is not initialized, -1 with errno EINVAL when domain
    [pkey] does not exist, and 0, slot [pkey] of the [g_data] domain table
    being cleared, in the remaining case. *)
Theorem PKUPkeyFree_spec (pkey_ : Z) (s : State) :
  wf s ->
  let s1 := set_g_data (set_domains (revoke <$> domains (g_data s)) (g_data s)) s in
  (existsb rg_used (take (Z.to_nat NUM_DOMAINS) (ranges (g_data s))) = true ->
   existsb rg_used (ranges (g_data s)) = true /\
   PKUPkeyFree pkey_ s = Some (-1, set_errno EPERM s)) /\
  (existsb rg_used (ranges (g_data s)) = false ->
   existsb used (domains (g_data s1)) = false /\
   (g_LazyFree s = true -> PKUPkeyFree pkey_ s = Some (0, s1)) /\
   (g_LazyFree s = false ->
    PKUPkeyFree pkey_ s = PKUDomainFree pkey_ s1 /\
    (initialized (g_data s) = 0 -> PKUPkeyFree pkey_ s = Some (-1, s1)) /\
    (initialized (g_data s) <> 0 -> DomainExists pkey_ s = false ->
     PKUPkeyFree pkey_ s = Some (-1, set_errno EINVAL s1)) /\
    (initialized (g_data s) <> 0 -> DomainExists pkey_ s = true ->
     PKUPkeyFree pkey_ s =
       Some (0, set_g_data
                  (set_domains
                     (<[Z.to_nat pkey_ := mkPKUKey 0 0 false]> (domains (g_data s1)))
                     (g_data s1)) s1)))).
Proof.
  intros Hwf s1. pose proof Hwf as (_ & _ & Hd & Hr).
  assert (Hs1 : forall b, g_LazyFree s = b ->
            existsb rg_used (take (Z.to_nat NUM_DOMAINS) (ranges (g_data s))) = false ->
            PKUPkeyFree pkey_ s = if b then Some (0, s1) else PKUDomainFree pkey_ s1).
  { intros b Hb Hscan. unfold PKUPkeyFree. rewrite Hscan.
    rewrite take_ge, drop_ge, app_nil_r by lia.
    fold s1. change (g_LazyFree s1) with (g_LazyFree s). rewrite Hb. reflexivity. }
  split.
  - intros H. split; [apply (existsb_take_true _ _ _ H)|].
    unfold PKUPkeyFree. rewrite H. reflexivity.
  - intros Hnone.
    pose proof (existsb_take_false rg_used (Z.to_nat NUM_DOMAINS) _ Hnone) as Hscan.
    split; [apply existsb_used_revoke|].
    split; [intros Hl; apply (Hs1 true Hl Hscan)|].
    intros Hl. pose proof (Hs1 false Hl Hscan) as Heq.
    split; [exact Heq|]. rewrite Heq.
    destruct (PKUDomainFree_failures pkey_ s1 (revoked_wf s Hwf)) as [F1 F2].
    split; [exact F1|].
    split; [intros Hi Hex; apply F2; [exact Hi|left; exact Hex]|].
    intros Hi Hex.
    destruct (sweep_ranges_defined (ranges (g_data s1)) s1 (or_intror Hnone))
      as [s2 Hsw].
    rewrite (PKUDomainFree_sweeps pkey_ s1 s2 (revoked_wf s Hwf) Hi Hex
               (existsb_used_revoke _) Hsw).
    apply sweep_ranges_spec in Hsw.
    change (ranges (g_data s1)) with (ranges (g_data s)) in Hsw.
    assert (Hf : List.filter rg_used (ranges (g_data s)) = []).
    { clear -Hnone. induction (ranges (g_data s)) as [|r rs IH]; [reflexivity|].
      simpl in *. apply orb_false_iff in Hnone as [-> Hrs]. apply IH, Hrs. }
    rewrite Hf, app_nil_r in Hsw. subst s2. destruct s; reflexivity.
Qed.

(** On the sample run, with no range record used, freeing key 1 frees
    domain 1 and returns 0. *)
Lemma PKUPkeyFree_spec_witness :
  wf st_dom1 /\
  existsb rg_used (ranges (g_data st_dom1)) = false /\
  g_LazyFree st_dom1 = false /\
  PKUPkeyFree 1 st_dom1 = Some (0, st_freed).
Proof.
  assert (Hwf : wf st_dom1) by (repeat split; reflexivity).
  split; [exact Hwf|]. split; [reflexivity|]. split; [reflexivity|].
  destruct (PKUPkeyFree_spec 1 st_dom1 Hwf) as [_ H].
  destruct (H eq_refl) as (_ & _ & H2).
  destruct (H2 eq_refl) as (_ & _ & _ & H3).
  rewrite H3; [reflexivity | discriminate | reflexivity].
Defined.

(** C4, as stated, fails: at process start no range record is used and the
    lazy-free mode is off, as the source has it; [PKUPkeyFree(1)] does not
    succeed, because [PKUDomainFree] finds the registry not initialized. *)
Lemma PKUPkeyFree_fails_without_ranges :
  existsb rg_used (ranges (g_data st_init)) = false /\
  g_LazyFree st_init = false /\
  PKUPkeyFree 1 st_init = Some (-1, st_init).
Proof. repeat split; reflexivity. Qed.

(** The scan of [PKUPkeyFree] is bounded by [NUM_DOMAINS], not by
    [NUM_MPROTECT_RANGES]: with record 20 alone used, the call does not
    report EPERM; it goes on to [PKUDomainFree], whose sweep covers the whole
    table and calls the handler for record 20, and returns 0. *)
Example PKUPkeyFree_scan_bound :
  existsb rg_used (ranges (g_data st_far)) = true /\
  fst <$> PKUPkeyFree 1 st_far = Some 0 /\
  (handler_calls ∘ snd) <$> PKUPkeyFree 1 st_far = Some [0x5000].
Proof. repeat split; reflexivity. Qed.

(** ** The call gate *)

Lemma at_index_lt {A} (l : list A) (i : Z) :
  0 <= i < Z.of_nat (length l) -> exists x, at_index l i = Some x.
Proof.
  intros Hi. unfold at_index.
  replace (0 <=? i) with true by (symmetry; apply Z.leb_le; lia).
  destruct (lookup_lt_is_Some_2 l (Z.to_nat i)) as [x Hx]; [lia|].
  exists x. exact Hx.
Qed.

Lemma at_index_out {A} (l : list A) (i : Z) :
  ~ 0 <= i < Z.of_nat (length l) -> at_index l i = None.
Proof.
  intros Hi. unfold at_index.
  destruct (Z.leb_spec 0 i); [|reflexivity].
  apply lookup_ge_None_2. lia.
Qed.

Lemma at_index_Some {A} (l : list A) (i : Z) (x : A) :
  at_index l i = Some x -> l !! Z.to_nat i = Some x.
Proof.
  unfold at_index. destruct (0 <=? i); [auto|discriminate].
Qed.

(** In a state of a run, the domain recorded in a slot of the call table has
    a slot in the key table, whose key is below 16 and whose permission bits
    are zero. *)
Lemma slot_domain_key (rd : Z -> Z) (s : State) (id : Z) (c : PKUCall) :
  reachable rd s -> at_index (RegisteredPKUCalls s) id = Some c ->
  exists k, at_index (keys s) (did c) = Some k /\ perm k = 0 /\ 0 <= pkey k < 16.
Proof.
  intros Hr Hc. destruct (reachable_inv rd s Hr) as ((Hlen & _) & Hk & _ & Hcalls).
  apply at_index_Some in Hc. apply Hcalls in Hc.
  destruct (at_index_lt (keys s) (did c)) as [k Hkk].
  { rewrite Hlen. unfold NUM_DOMAINS. lia. }
  exists k. split; [exact Hkk|]. apply at_index_Some in Hkk. apply (Hk _ _ Hkk).
Qed.

(** C1, as amended.  [PKUSwitch] validates nothing and never reports an
    error.  In every state of a run and for every id in 0..63, whether the
    slot is registered or its entry pointer is null, it returns 0; it leaves
    the key, call, domain and range tables unchanged; it makes the domain
    recorded in the slot the current one (domain 0 for a slot never
    registered), and writes that domain's permission bits, which are zero,
    into the field of its key in the register, the other fields being those
    of the sampled value.  The function of src/pku.c does the same except
    that it leaves the current domain alone.  For an id outside 0..63 the
    read of the call table is out of bounds and has no defined result. *)
Theorem PKUSwitch_unchecked (rd : Z -> Z) (s : State) (id : Z) :
  reachable rd s ->
  (0 <= id < 64 ->
   exists c k v,
     at_index (RegisteredPKUCalls s) id = Some c /\
     at_index (keys s) (did c) = Some k /\
     PKUSwitch rd id s = Some (0, SetCurrentDid (did c) (set_pkru v s)) /\
     Pku.PKUSwitch rd id s = Some (0, set_pkru v s) /\
     pkru_field v (pkey k) = 0 /\
     (forall j, 0 <= j < 16 -> j <> pkey k ->
                pkru_field v j = pkru_field (sampled rd s) j)) /\
  (~ 0 <= id < 64 -> PKUSwitch rd id s = None /\ Pku.PKUSwitch rd id s = None).
Proof.
  intros Hr. pose proof (reachable_inv rd s Hr) as ((_ & Hlen & _) & _).
  split.
  - intros Hid.
    destruct (at_index_lt (RegisteredPKUCalls s) id) as [c Hc].
    { rewrite Hlen. unfold NUM_REGISTERED_PKUCALLS. lia. }
    destruct (slot_domain_key rd s id c Hr Hc) as (k & Hk & Hp & Hkey).
    assert (Hf1 : pkru_field (pkru (SetPkey rd (pkey k) (perm k) s).2) (pkey k) = 0)
      by (rewrite SetPkey_field_key, Hp by exact Hkey; reflexivity).
    assert (Hf2 : forall j, 0 <= j < 16 -> j <> pkey k ->
              pkru_field (pkru (SetPkey rd (pkey k) (perm k) s).2) j =
              pkru_field (sampled rd s) j)
      by (intros j Hj Hne; apply SetPkey_field_other; assumption).
    exists c, k, (pkru (SetPkey rd (pkey k) (perm k) s).2).
    split; [exact Hc|]. split; [exact Hk|].
    unfold PKUSwitch, Pku.PKUSwitch. rewrite Hc. simpl. rewrite Hk.
    split; [reflexivity|]. split; [reflexivity|]. split; [exact Hf1|exact Hf2].
  - intros Hid. unfold PKUSwitch, Pku.PKUSwitch.
    rewrite at_index_out; [split; reflexivity|].
    rewrite Hlen. unfold NUM_REGISTERED_PKUCALLS. lia.
Qed.

Lemma st_inside_reachable : reachable rdpkru st_inside.
Proof.
  apply (reachable_call rdpkru st_call (CallPKUSwitch 0) 0);
    [apply st_call_reachable|reflexivity].
Qed.

(** Inside domain 1 on the sample run, slot 5 of the call table, which was
    never registered: the switch returns 0, domain 0 becomes current and the
    register is rewritten. *)
Lemma PKUSwitch_unchecked_witness :
  reachable rdpkru st_inside /\ 0 <= 5 < 64 /\
  exists c k v,
    at_index (RegisteredPKUCalls st_inside) 5 = Some c /\
    at_index (keys st_inside) (did c) = Some k /\
    PKUSwitch rdpkru 5 st_inside = Some (0, SetCurrentDid (did c) (set_pkru v st_inside)) /\
    Pku.PKUSwitch rdpkru 5 st_inside = Some (0, set_pkru v st_inside) /\
    pkru_field v (pkey k) = 0 /\
    (forall j, 0 <= j < 16 -> j <> pkey k ->
               pkru_field v j = pkru_field (sampled rdpkru st_inside) j).
Proof.
  split; [apply st_inside_reachable|]. split; [lia|].
  apply (proj1 (PKUSwitch_unchecked rdpkru st_inside 5 st_inside_reachable)). lia.
Defined.

(** C1, as stated, fails: inside domain 1 on the sample run, slot 5 has a
    null entry pointer, yet [PKUSwitch(5)] returns 0, the current domain
    changes from 1 to 0 and the register from 0x55555550 to 0x55555554.  The
    function of src/pku.c returns 0 and rewrites the register as well. *)
Lemma PKUSwitch_null_entry_succeeds :
  entry <$> at_index (RegisteredPKUCalls st_inside) 5 = Some 0 /\
  fst <$> PKUSwitch rdpkru 5 st_inside = Some 0 /\
  CurrentDid st_inside = 1 /\
  (CurrentDid ∘ snd) <$> PKUSwitch rdpkru 5 st_inside = Some 0 /\
  pkru st_inside = 0x55555550 /\
  (pkru ∘ snd) <$> PKUSwitch rdpkru 5 st_inside = Some 0x55555554 /\
  fst <$> Pku.PKUSwitch rdpkru 5 st_inside = Some 0 /\
  (pkru ∘ snd) <$> Pku.PKUSwitch rdpkru 5 st_inside = Some 0x55555554.
Proof. repeat split; reflexivity. Qed.

(** C2, as amended.  In every state of a run, for every slot [id] of the
    call table and every domain [D], [PKUSwitch(id)] followed by
    [PKURestore(D)] returns 0 twice, makes [D] the current domain and leaves
    the tables unchanged.  It does not put the register back: the field of
    the callee domain's key ends with both disable bits set, and every other
    field is that of the value [PKURestore] sampled (the fallback whenever
    the sample is 0, as it always is with the source's [rdpkru]).  With the
    functions of src/pku.c, where [PKURestore] does nothing, the register
    keeps what [PKUSwitch] wrote: the callee's field holds its permission
    bits, which are zero. *)
Theorem Switch_Restore_spec (rd : Z -> Z) (s : State) (id D : Z) (c : PKUCall) :
  reachable rd s ->
  at_index (RegisteredPKUCalls s) id = Some c ->
  exists k s1 s2,
    at_index (keys s) (did c) = Some k /\
    PKUSwitch rd id s = Some (0, s1) /\
    PKURestore rd D s1 = Some (0, s2) /\
    Switch_Restore rd id D s = Some s2 /\
    CurrentDid s2 = D /\
    keys s2 = keys s /\ RegisteredPKUCalls s2 = RegisteredPKUCalls s /\
    g_data s2 = g_data s /\
    pkru_field (pkru s2) (pkey k) = Z.lor PKEY_DISABLE_ACCESS PKEY_DISABLE_WRITE /\
    (forall j, 0 <= j < 16 -> j <> pkey k ->
               pkru_field (pkru s2) j = pkru_field (sampled rd s1) j) /\
    (exists s', Pku_Switch_Restore rd id D s = Some s' /\
                pkru_field (pkru s') (pkey k) = 0).
Proof.
  intros Hr Hc.
  destruct (slot_domain_key rd s id c Hr Hc) as (k & Hk & Hp & Hkey).
  set (s1 := SetCurrentDid (did c) (SetPkey rd (pkey k) (perm k) s).2).
  set (s2 := SetCurrentDid D
               (SetPkey rd (pkey k) (Z.lor PKEY_DISABLE_ACCESS PKEY_DISABLE_WRITE) s1).2).
  assert (Hsw : PKUSwitch rd id s = Some (0, s1)).
  { unfold PKUSwitch. rewrite Hc. simpl. rewrite Hk. reflexivity. }
  assert (Hre : PKURestore rd D s1 = Some (0, s2)).
  { unfold PKURestore. change (GetCurrentDid s1) with (did c).
    change (keys s1) with (keys s). rewrite Hk. reflexivity. }
  exists k, s1, s2. split; [exact Hk|]. split; [exact Hsw|]. split; [exact Hre|].
  split; [unfold Switch_Restore; rewrite Hsw; simpl; rewrite Hre; reflexivity|].
  split; [reflexivity|]. split; [reflexivity|]. split; [reflexivity|].
  split; [reflexivity|]. split; [|split].
  - change (pkru s2)
      with (pkru (SetPkey rd (pkey k) (Z.lor PKEY_DISABLE_ACCESS PKEY_DISABLE_WRITE) s1).2).
    rewrite SetPkey_field_key by exact Hkey. reflexivity.
  - intros j Hj Hne.
    change (pkru s2)
      with (pkru (SetPkey rd (pkey k) (Z.lor PKEY_DISABLE_ACCESS PKEY_DISABLE_WRITE) s1).2).
    apply SetPkey_field_other; assumption.
  - exists (SetPkey rd (pkey k) (perm k) s).2. split.
    + unfold Pku_Switch_Restore, Pku.PKUSwitch, Pku.PKURestore.
      rewrite Hc. simpl. rewrite Hk. reflexivity.
    + rewrite SetPkey_field_key, Hp by exact Hkey. reflexivity.
Qed.

(** The registered call 0 of the sample run, entered from and left to the
    root domain. *)
Lemma Switch_Restore_spec_witness :
  reachable rdpkru st_call /\
  at_index (RegisteredPKUCalls st_call) 0 = Some (mkPKUCall 1 0x1000) /\
  exists k s1 s2,
    at_index (keys st_call) (did (mkPKUCall 1 0x1000)) = Some k /\
    PKUSwitch rdpkru 0 st_call = Some (0, s1) /\
    PKURestore rdpkru 0 s1 = Some (0, s2) /\
    Switch_Restore rdpkru 0 0 st_call = Some s2 /\
    CurrentDid s2 = 0 /\
    keys s2 = keys st_call /\ RegisteredPKUCalls s2 = RegisteredPKUCalls st_call /\
    g_data s2 = g_data st_call /\
    pkru_field (pkru s2) (pkey k) = Z.lor PKEY_DISABLE_ACCESS PKEY_DISABLE_WRITE /\
    (forall j, 0 <= j < 16 -> j <> pkey k ->
               pkru_field (pkru s2) j = pkru_field (sampled rdpkru s1) j) /\
    (exists s', Pku_Switch_Restore rdpkru 0 0 st_call = Some s' /\
                pkru_field (pkru s') (pkey k) = 0).
Proof.
  split; [apply st_call_reachable|]. split; [reflexivity|].
  apply (Switch_Restore_spec rdpkru st_call 0 0 (mkPKUCall 1 0x1000));
    [apply st_call_reachable | reflexivity].
Defined.

(** C2, as stated, fails: on the sample run the register holds 0x55555554
    before the registered call 0 is entered from the root domain; after
    [PKUSwitch(0)] and [PKURestore(0)] it holds 0x5555555C, with the source's
    [rdpkru] as with a read primitive that yields the register.  With the
    functions of src/pku.c it holds 0x55555550. *)
Lemma Switch_Restore_changes_register :
  entry <$> at_index (RegisteredPKUCalls st_call) 0 = Some 0x1000 /\
  CurrentDid st_call = 0 /\
  pkru st_call = 0x55555554 /\
  pkru <$> Switch_Restore rdpkru 0 0 st_call = Some 0x5555555C /\
  pkru <$> Switch_Restore rdpkru_insn 0 0 st_call = Some 0x5555555C /\
  pkru <$> Pku_Switch_Restore rdpkru 0 0 st_call = Some 0x55555550.
Proof. repeat split; reflexivity. Qed.

(** ** Assigning a key *)

(** [PKUDomainAssignPkey] never writes the key table, in either file. *)
Lemma PKUDomainAssignPkey_keys
    (rd : Z -> Z) (d k f ar : Z) (s : State) (r : Z) (s' : State) :
  PKUDomainAssignPkey rd d k f ar s = Some (r, s') \/
  Pku.PKUDomainAssignPkey rd d k f ar s = Some (r, s') ->
  keys s' = keys s.
Proof.
  unfold PKUDomainAssignPkey, Pku.PKUDomainAssignPkey. intros [H|H].
  - destruct (negb _); [injection H as _ <-; reflexivity|].
    destruct (negb _); [injection H as _ <-; reflexivity|].
    destruct (negb _); [injection H as _ <-; reflexivity|].
    destruct (at_index _ _) as [k0|]; [|discriminate]. simpl in H.
    injection H as _ <-. reflexivity.
  - destruct (negb _); [injection H as _ <-; reflexivity|].
    destruct (negb _); [injection H as _ <-; reflexivity|].
    destruct (at_index _ _) as [k0|]; [|discriminate]. simpl in H.
    injection H as _ <-. reflexivity.
Qed.

(** C3 on the code: on the sample run domain 1 exists and the right
    "disable write" is one of the two recognised flags; the call returns 0,
    but the permission bits stored for domain 1 are still zero and the bits
    committed to the field of key 1 are zero, not the requested right.  Both
    files behave alike. *)
Lemma PKUDomainAssignPkey_drops_rights :
  DomainExists 1 st_dom1 = true /\
  perm <$> at_index (keys st_dom1) 1 = Some 0 /\
  fst <$> PKUDomainAssignPkey rdpkru 1 1 0 PKEY_DISABLE_WRITE st_dom1 = Some 0 /\
  (fun r => perm <$> at_index (keys r.2) 1) <$>
    PKUDomainAssignPkey rdpkru 1 1 0 PKEY_DISABLE_WRITE st_dom1 = Some (Some 0) /\
  (fun r => pkru_field (pkru r.2) 1) <$>
    PKUDomainAssignPkey rdpkru 1 1 0 PKEY_DISABLE_WRITE st_dom1 = Some 0 /\
  fst <$> Pku.PKUDomainAssignPkey rdpkru 1 1 0 PKEY_DISABLE_WRITE st_dom1 = Some 0 /\
  (fun r => perm <$> at_index (keys r.2) 1) <$>
    Pku.PKUDomainAssignPkey rdpkru 1 1 0 PKEY_DISABLE_WRITE st_dom1 = Some (Some 0) /\
  (fun r => pkru_field (pkru r.2) 1) <$>
    Pku.PKUDomainAssignPkey rdpkru 1 1 0 PKEY_DISABLE_WRITE st_dom1 = Some 0.
Proof. repeat split; reflexivity. Qed.

(** The error paths of [PKUDomainAssignPkey] are as C3 has them: -EINVAL
    when the domain does not exist, and when the rights hold a bit other
    than the two flags; src/pkuc/pku.c also returns -EINVAL when the current
    domain does not exist. *)
Lemma PKUDomainAssignPkey_errors (rd : Z -> Z) (d k f ar : Z) (s : State) :
  (DomainExists d s = false ->
   PKUDomainAssignPkey rd d k f ar s = Some (- EINVAL, s) /\
   Pku.PKUDomainAssignPkey rd d k f ar s = Some (- EINVAL, s)) /\
  (Z.land ar (Z.lnot (Z.lor PKEY_DISABLE_ACCESS PKEY_DISABLE_WRITE)) <> 0 ->
   PKUDomainAssignPkey rd d k f ar s = Some (- EINVAL, s) /\
   Pku.PKUDomainAssignPkey rd d k f ar s = Some (- EINVAL, s)).
Proof.
  unfold PKUDomainAssignPkey, Pku.PKUDomainAssignPkey. split.
  - intros ->. simpl. destruct (negb _); split; reflexivity.
  - intros H.
    destruct (Z.eqb_spec (Z.land ar (Z.lnot (Z.lor PKEY_DISABLE_ACCESS PKEY_DISABLE_WRITE))) 0);
      [contradiction|].
    simpl. destruct (negb _); destruct (negb _); split; reflexivity.
Qed.

(** * Further properties of the code *)

(** ** Bytes of a request *)

Lemma to_uchar_value (v : Z) : Z.of_N (Byte.to_N (to_uchar v)) = v mod 256.
Proof.
  unfold to_uchar.
  pose proof (Z.mod_pos_bound v 256 ltac:(lia)) as Hb.
  destruct (Byte.of_N (Z.to_N (v mod 256))) as [b|] eqn:E.
  - apply Byte.to_of_N in E. simpl. rewrite E. lia.
  - apply Byte.of_N_None_iff in E. lia.
Qed.

Lemma land_255 (v : Z) : Z.land v 255 = v mod 256.
Proof. change 255 with (Z.ones 8). rewrite Z.land_ones by lia. reflexivity. Qed.

(** Four bytes stored most significant first hold the value modulo 2^32. *)
Lemma be_bytes_value (v : Z) :
  (Z.shiftr (Z.shiftr (Z.shiftr v 8) 8) 8 mod 256) * 2 ^ 24 +
  (Z.shiftr (Z.shiftr v 8) 8 mod 256) * 2 ^ 16 +
  (Z.shiftr v 8 mod 256) * 2 ^ 8 + v mod 256 = v mod 2 ^ 32.
Proof.
  rewrite !Z.shiftr_div_pow2 by lia.
  change (2 ^ 8) with 256. change (2 ^ 16) with 65536.
  change (2 ^ 24) with 16777216. change (2 ^ 32) with 4294967296.
  Z.div_mod_to_equations. lia.
Qed.

(** The loop that reads four bytes computes their big-endian value. *)
Lemma load_loop_be32 (buf : list byte) (from : nat) :
  load_loop 4 from 0 buf = be32 buf from.
Proof.
  unfold be32. simpl. rewrite !Z.shiftl_mul_pow2 by lia.
  replace (from + 1)%nat with (S from) by lia.
  replace (from + 2)%nat with (S (S from)) by lia.
  replace (from + 3)%nat with (S (S (S from))) by lia.
  change (2 ^ 8) with 256. change (2 ^ 16) with 65536. change (2 ^ 24) with 16777216.
  lia.
Qed.

Lemma byte_at_bound (buf : list byte) (i : nat) : 0 <= byte_at buf i <= 255.
Proof. pose proof (byte_at_range buf i). lia. Qed.

Lemma be32_range (buf : list byte) (from : nat) : 0 <= be32 buf from < 2 ^ 32.
Proof.
  unfold be32.
  pose proof (byte_at_bound buf from). pose proof (byte_at_bound buf (from + 1)).
  pose proof (byte_at_bound buf (from + 2)). pose proof (byte_at_bound buf (from + 3)).
  change (2 ^ 8) with 256. change (2 ^ 16) with 65536.
  change (2 ^ 24) with 16777216. change (2 ^ 32) with 4294967296. lia.
Qed.

(** The layout of the two requests that carry an address and a length. *)
Lemma addr_len_request_layout (op : byte) (addr length b10 b11 : Z) :
  let req :=
    <[11%nat := to_uchar b11]>
      (<[10%nat := to_uchar b10]>
         (store_loop 4 6 length (store_loop 4 2 addr (request x01 op)))) in
  List.length req = 12%nat /\
  req !! 0%nat = Some x01 /\ req !! 1%nat = Some op /\
  be32 req 2 = addr mod 2 ^ 32 /\ be32 req 6 = length mod 2 ^ 32 /\
  byte_at req 10 = b10 mod 256 /\ byte_at req 11 = b11 mod 256.
Proof.
  cbv zeta.
  match goal with |- List.length ?r = _ /\ _ =>
    assert (E : r =
      [x01; op;
       to_uchar (Z.land (Z.shiftr (Z.shiftr (Z.shiftr addr 8) 8) 8) 255);
       to_uchar (Z.land (Z.shiftr (Z.shiftr addr 8) 8) 255);
       to_uchar (Z.land (Z.shiftr addr 8) 255);
       to_uchar (Z.land addr 255);
       to_uchar (Z.land (Z.shiftr (Z.shiftr (Z.shiftr length 8) 8) 8) 255);
       to_uchar (Z.land (Z.shiftr (Z.shiftr length 8) 8) 255);
       to_uchar (Z.land (Z.shiftr length 8) 255);
       to_uchar (Z.land length 255);
       to_uchar b10; to_uchar b11]) by reflexivity;
    rewrite E; clear E
  end.
  split; [reflexivity|]. split; [reflexivity|]. split; [reflexivity|].
  unfold be32, byte_at.
  change (2 + 1)%nat with 3%nat. change (2 + 2)%nat with 4%nat.
  change (2 + 3)%nat with 5%nat. change (6 + 1)%nat with 7%nat.
  change (6 + 2)%nat with 8%nat. change (6 + 3)%nat with 9%nat.
  cbn [lookup list_lookup default from_option]. unfold id.
  rewrite !to_uchar_value, !land_255.
  rewrite !Z.mod_mod by lia.
  split; [apply be_bytes_value|]. split; [apply be_bytes_value|].
  split; reflexivity.
Qed.

(** ** Host calls for memory *)

(** [DomainProtect] always returns 0, whatever the hook answers, and touches
    neither [GS_MmapMemory] nor [MmapAddr].  The one request it sends has 12
    bytes: the opcode 01 20, the address and the length modulo 2^32 as four
    bytes each, most significant first, the protection byte 3 whatever the
    caller wants, and the low byte of the key. *)
Theorem DomainProtect_sends (h : hook) (addr length pkey_ : Z) (m : IOState) :
  let r := DomainProtect h addr length pkey_ m in
  let req := DomainProtect_request x20 addr length pkey_ in
  r.1 = 0 /\
  GS_MmapMemory r.2 = GS_MmapMemory m /\ MmapAddr r.2 = MmapAddr m /\
  sent r.2 = sent m ++ [req] /\
  List.length req = 12%nat /\
  req !! 0%nat = Some x01 /\ req !! 1%nat = Some x20 /\
  be32 req 2 = addr mod 2 ^ 32 /\ be32 req 6 = length mod 2 ^ 32 /\
  byte_at req 10 = 3 /\ byte_at req 11 = pkey_ mod 256.
Proof.
  cbv zeta. unfold DomainProtect, WASICALL.
  destruct (h (DomainProtect_request x20 addr length pkey_)) as [e rb]. simpl.
  split; [reflexivity|]. split; [reflexivity|]. split; [reflexivity|].
  split; [reflexivity|].
  exact (addr_len_request_layout x20 addr length 3 pkey_).
Qed.

(** What [PKUMmap] makes of the reply, for every hook: the error code is not
    looked at; the result is the address in bytes 2..5 of the reply when the
    length in bytes 6..9 equals the requested length, and NULL otherwise;
    the counter grows by the length of the reply in both cases.  The request
    carries the address, the length and the low bytes of [prot] and [flags];
    [fd] and [offset] are not sent. *)
Theorem PKUMmap_reply
    (w : Z) (h : hook) (addr length prot flags fd offset : Z) (m : IOState) :
  let req := PKUMmap_request addr length prot flags in
  let rb := (h req).2 in
  let r := PKUMmap w h addr length prot flags fd offset m in
  r.1 = (if be32 rb 6 =? length then be32 rb 2 else 0) /\
  GS_MmapMemory r.2 = (GS_MmapMemory m + be32 rb 6) mod 2 ^ w /\
  MmapAddr r.2 = MmapAddr m /\
  sent r.2 = sent m ++ [req] /\
  req !! 0%nat = Some x01 /\ req !! 1%nat = Some x2b /\
  be32 req 2 = addr mod 2 ^ 32 /\ be32 req 6 = length mod 2 ^ 32 /\
  byte_at req 10 = prot mod 256 /\ byte_at req 11 = flags mod 256.
Proof.
  cbv zeta. unfold PKUMmap, WASICALL.
  destruct (h (PKUMmap_request addr length prot flags)) as [e rb].
  cbn [fst snd GS_MmapMemory MmapAddr sent]. rewrite !load_loop_be32.
  split; [destruct (be32 rb 6 =? length); reflexivity|].
  split; [reflexivity|]. split; [reflexivity|]. split; [reflexivity|].
  exact (proj2 (addr_len_request_layout x2b addr length prot flags)).
Qed.

(** A length that does not fit four bytes can never be mapped: whatever the
    hook answers, [PKUMmap] returns NULL. *)
Theorem PKUMmap_long_length
    (w : Z) (h : hook) (addr length prot flags fd offset : Z) (m : IOState) :
  ~ 0 <= length < 2 ^ 32 ->
  (PKUMmap w h addr length prot flags fd offset m).1 = 0.
Proof.
  intros Hl. unfold PKUMmap, WASICALL.
  destruct (h (PKUMmap_request addr length prot flags)) as [e rb].
  cbn [fst snd GS_MmapMemory MmapAddr sent]. rewrite !load_loop_be32. pose proof (be32_range rb 6).
  destruct (Z.eqb_spec (be32 rb 6) length); [lia|reflexivity].
Qed.

Lemma PKUMmap_long_length_witness :
  ~ 0 <= 2 ^ 32 < 2 ^ 32 /\
  (PKUMmap 64 echo 0 (2 ^ 32) 3 0x22 (-1) 0 (mkIOState 0 0 [])).1 = 0.
Proof.
  assert (H : ~ 0 <= 2 ^ 32 < 2 ^ 32) by lia.
  split; [exact H|].
  apply (PKUMmap_long_length 64 echo 0 (2 ^ 32) 3 0x22 (-1) 0 (mkIOState 0 0 []) H).
Defined.

(** Round trip through the request: with a host that leaves the buffer as
    it is, [PKUMmap] returns the address it was given and adds the length to
    the counter, for an address and a length below 2^32. *)
Theorem PKUMmap_echo
    (w : Z) (addr length prot flags fd offset : Z) (m : IOState) :
  0 <= addr < 2 ^ 32 -> 0 <= length < 2 ^ 32 ->
  PKUMmap w echo addr length prot flags fd offset m =
    (addr, mkIOState ((GS_MmapMemory m + length) mod 2 ^ w) (MmapAddr m)
                     (sent m ++ [PKUMmap_request addr length prot flags])).
Proof.
  intros Ha Hl. unfold PKUMmap, WASICALL, echo.
  cbn [fst snd GS_MmapMemory MmapAddr sent]. rewrite !load_loop_be32.
  destruct (addr_len_request_layout x2b addr length prot flags)
    as (_ & _ & _ & E2 & E6 & _).
  cbv zeta in E2, E6. fold (PKUMmap_request addr length prot flags) in E2, E6.
  rewrite E2, E6, !Z.mod_small by lia. rewrite Z.eqb_refl. reflexivity.
Qed.

Lemma PKUMmap_echo_witness :
  0 <= 0x10000 < 2 ^ 32 /\ 0 <= 8192 < 2 ^ 32 /\
  PKUMmap 32 echo 0x10000 8192 3 0x22 (-1) 0 (mkIOState 100 0 []) =
    (0x10000, mkIOState ((100 + 8192) mod 2 ^ 32) 0
                        ([] ++ [PKUMmap_request 0x10000 8192 3 0x22])).
Proof.
  assert (Ha : 0 <= 0x10000 < 2 ^ 32) by lia.
  assert (Hl : 0 <= 8192 < 2 ^ 32) by lia.
  split; [exact Ha|]. split; [exact Hl|].
  apply (PKUMmap_echo 32 0x10000 8192 3 0x22 (-1) 0 (mkIOState 100 0 []) Ha Hl).
Defined.

Lemma PKUMmap_frame
    (w : Z) (h : hook) (addr length prot flags fd offset : Z) (m : IOState) :
  MmapAddr (PKUMmap w h addr length prot flags fd offset m).2 = MmapAddr m /\
  sent (PKUMmap w h addr length prot flags fd offset m).2 =
    sent m ++ [PKUMmap_request addr length prot flags].
Proof.
  unfold PKUMmap, WASICALL.
  destruct (h (PKUMmap_request addr length prot flags)) as [e rb].
  split; reflexivity.
Qed.

Lemma DomainProtect_frame (h : hook) (addr length pkey_ : Z) (m : IOState) :
  DomainProtect h addr length pkey_ m =
    (0, mkIOState (GS_MmapMemory m) (MmapAddr m)
                  (sent m ++ [DomainProtect_request x20 addr length pkey_])).
Proof.
  unfold DomainProtect, WASICALL. destruct (h _) as [e rb]. reflexivity.
Qed.

(** [PKUMprotect] always returns 0.  Once a mapping address is recorded it
    is never replaced, and every later call sends one protect request for
    that address with key 0, whatever [addr] and [prot] are.  Before that, a
    call with a non-null [addr] does nothing at all, and a call with a null
    [addr] maps once and records the result, protecting it when it is not
    NULL.  [PKUPkeyMprotect] is the same function: its key is not used. *)
Theorem PKUMprotect_cases (w : Z) (h : hook) (addr len prot pkey_ : Z) (m : IOState) :
  let r := PKUMprotect w h addr len prot m in
  let p := (PKUMmap w h 0 len prot 0x22 (-1) 0 m).1 in
  PKUPkeyMprotect w h addr len prot pkey_ m = r /\
  r.1 = 0 /\
  (MmapAddr m <> 0 ->
   MmapAddr r.2 = MmapAddr m /\ GS_MmapMemory r.2 = GS_MmapMemory m /\
   sent r.2 = sent m ++ [DomainProtect_request x20 (MmapAddr m) len 0]) /\
  (MmapAddr m = 0 -> addr <> 0 -> r.2 = m) /\
  (MmapAddr m = 0 -> addr = 0 ->
   MmapAddr r.2 = p /\
   sent r.2 = sent m ++ PKUMmap_request 0 len prot 0x22 ::
                (if p =? 0 then [] else [DomainProtect_request x20 p len 0])).
Proof.
  cbv zeta. split; [reflexivity|]. split; [reflexivity|].
  unfold PKUMprotect. change (Z.lor 2 32) with 34. split; [|split].
  - intros Hm. assert (E : (MmapAddr m =? 0) = false) by (apply Z.eqb_neq, Hm).
    rewrite E, andb_false_r, E. cbn [negb]. rewrite DomainProtect_frame.
    repeat split; reflexivity.
  - intros Hm Ha.
    destruct (Z.eqb_spec addr 0) as [|_]; [contradiction|].
    cbn [andb]. rewrite Hm. reflexivity.
  - intros Hm ->. rewrite Hm. cbn [andb Z.eqb].
    destruct (PKUMmap_frame w h 0 len prot 34 (-1) 0 m) as [_ Hs].
    destruct (PKUMmap w h 0 len prot 34 (-1) 0 m) as [p m1].
    cbn [fst snd MmapAddr GS_MmapMemory sent] in *.
    destruct (Z.eqb_spec p 0) as [Hp|Hp]; cbn [negb].
    + split; [reflexivity|]. cbn [snd sent]. exact Hs.
    + rewrite DomainProtect_frame. cbn [snd sent MmapAddr].
      split; [reflexivity|]. rewrite Hs, <- app_assoc. reflexivity.
Qed.

Lemma PKUMprotect_cases_witness :
  let fresh := mkIOState 0 0 [] in
  let mapped := mkIOState 4096 0x10000 [] in
  MmapAddr mapped <> 0 /\ MmapAddr fresh = 0 /\ 0x5000 <> 0 /\
  sent (PKUMprotect 32 echo 0x5000 4096 1 mapped).2 =
    sent mapped ++ [DomainProtect_request x20 (MmapAddr mapped) 4096 0] /\
  (PKUMprotect 32 echo 0x5000 4096 3 fresh).2 = fresh /\
  MmapAddr (PKUMprotect 32 (reply (PKUMmap_request 0x10000 4096 3 0x22)) 0 4096 3 fresh).2 =
    (PKUMmap 32 (reply (PKUMmap_request 0x10000 4096 3 0x22)) 0 4096 3 0x22 (-1) 0 fresh).1.
Proof.
  cbv zeta.
  assert (Hm : MmapAddr (mkIOState 4096 0x10000 []) <> 0) by discriminate.
  assert (Hf : MmapAddr (mkIOState 0 0 []) = 0) by reflexivity.
  assert (Ha : 0x5000 <> 0) by discriminate.
  split; [exact Hm|]. split; [exact Hf|]. split; [exact Ha|].
  split; [|split].
  - destruct (PKUMprotect_cases 32 echo 0x5000 4096 1 0 (mkIOState 4096 0x10000 []))
      as (_ & _ & H & _).
    apply (H Hm).
  - destruct (PKUMprotect_cases 32 echo 0x5000 4096 3 0 (mkIOState 0 0 []))
      as (_ & _ & _ & H & _).
    apply (H Hf Ha).
  - destruct (PKUMprotect_cases 32 (reply (PKUMmap_request 0x10000 4096 3 0x22))
                0 4096 3 0 (mkIOState 0 0 []))
      as (_ & _ & _ & _ & H).
    apply (H Hf eq_refl).
Defined.

(** ** Host calls for the register *)

Lemma int32_congr (a b : Z) : a mod 2 ^ 32 = b mod 2 ^ 32 -> int32 a = int32 b.
Proof.
  intros H. unfold int32. f_equal.
  rewrite (Zplus_mod a), (Zplus_mod b), H. reflexivity.
Qed.

Lemma int32_small (a : Z) : - 2 ^ 31 <= a < 2 ^ 31 -> int32 a = a.
Proof.
  intros H. unfold int32. rewrite Z.mod_small; lia.
Qed.

Lemma load_step_int (a b : Z) :
  int32 (int32 (Z.shiftl (int32 a) 8) + b) = int32 (a * 256 + b).
Proof.
  apply int32_congr.
  rewrite Zplus_mod, int32_mod, Z.shiftl_mul_pow2 by lia.
  rewrite Zmult_mod, int32_mod, <- Zmult_mod, <- Zplus_mod. reflexivity.
Qed.

(** The loop on an [int] yields what the loop without wrap-around yields,
    as an [int]. *)
Lemma load_loop_int_wrap (n from : nat) (a : Z) (buf : list byte) :
  load_loop_int n from (int32 a) buf = int32 (load_loop n from a buf).
Proof.
  revert from a. induction n as [|n IH]; intros from a; [reflexivity|].
  cbn [load_loop_int load_loop]. rewrite load_step_int.
  rewrite Z.shiftl_mul_pow2 by lia. apply IH.
Qed.

(** The loop of [ReadPKRU] yields the big-endian value of the four bytes,
    as an [int]. *)
Lemma load_loop_int_be32 (buf : list byte) (from : nat) :
  load_loop_int 4 from 0 buf = int32 (be32 buf from).
Proof.
  change 0 with (int32 0) at 1. rewrite load_loop_int_wrap, load_loop_be32.
  reflexivity.
Qed.

Lemma register_request_value (b0 b1 b2 : byte) (v : Z) :
  be32 (store_loop 4 3 v (b0 :: b1 :: b2 :: replicate 9 x00)) 3 = v mod 2 ^ 32.
Proof.
  match goal with |- be32 ?r 3 = _ =>
    assert (E : r =
      [b0; b1; b2;
       to_uchar (Z.land (Z.shiftr (Z.shiftr (Z.shiftr v 8) 8) 8) 255);
       to_uchar (Z.land (Z.shiftr (Z.shiftr v 8) 8) 255);
       to_uchar (Z.land (Z.shiftr v 8) 255);
       to_uchar (Z.land v 255); x00; x00; x00; x00; x00]) by reflexivity;
    rewrite E; clear E
  end.
  unfold be32, byte_at.
  change (3 + 1)%nat with 4%nat. change (3 + 2)%nat with 5%nat.
  change (3 + 3)%nat with 6%nat.
  cbn [lookup list_lookup default from_option]. unfold id.
  rewrite !to_uchar_value, !land_255, !Z.mod_mod by lia.
  apply be_bytes_value.
Qed.

(** Round trip through the register requests: when the host answers a read
    with the buffer a write of [v] sent, [ReadPKRU] returns [v] as an [int]
    (so [v] itself when it is in the range of [int]).  The same holds for
    [ReadPkru] and [WritePkru] of src/pku.c. *)
Theorem ReadPKRU_of_WritePKRU (v : Z) (m : IOState) :
  (ReadPKRU (reply (WritePKRU_request v)) m).1 = int32 v /\
  (PkuIO.ReadPkru (reply (PkuIO.WritePkru_request v)) m).1 = int32 v /\
  (- 2 ^ 31 <= v < 2 ^ 31 ->
   (ReadPKRU (reply (WritePKRU_request v)) m).1 = v /\
   (PkuIO.ReadPkru (reply (PkuIO.WritePkru_request v)) m).1 = v).
Proof.
  assert (H1 : (ReadPKRU (reply (WritePKRU_request v)) m).1 = int32 v).
  { unfold ReadPKRU, WASICALL, reply. cbn [fst snd Z.eqb negb].
    rewrite load_loop_int_be32. unfold WritePKRU_request.
    rewrite register_request_value. apply int32_congr.
    rewrite !Z.mod_mod by lia. reflexivity. }
  assert (H2 : (PkuIO.ReadPkru (reply (PkuIO.WritePkru_request v)) m).1 = int32 v).
  { unfold PkuIO.ReadPkru, WASICALL, reply. cbn [fst snd Z.eqb negb].
    rewrite load_loop_int_be32. unfold PkuIO.WritePkru_request.
    change (replicate 10 x00) with (x00 :: replicate 9 x00).
    rewrite register_request_value. apply int32_congr.
    rewrite !Z.mod_mod by lia. reflexivity. }
  split; [exact H1|]. split; [exact H2|].
  intros Hv. rewrite H1, H2, int32_small by exact Hv. split; reflexivity.
Qed.

Lemma ReadPKRU_of_WritePKRU_witness :
  - 2 ^ 31 <= 0x55555554 < 2 ^ 31 /\
  (ReadPKRU (reply (WritePKRU_request 0x55555554)) (mkIOState 0 0 [])).1 = 0x55555554 /\
  (PkuIO.ReadPkru (reply (PkuIO.WritePkru_request 0x55555554)) (mkIOState 0 0 [])).1 =
    0x55555554.
Proof.
  assert (Hv : - 2 ^ 31 <= 0x55555554 < 2 ^ 31) by lia.
  split; [exact Hv|].
  destruct (ReadPKRU_of_WritePKRU 0x55555554 (mkIOState 0 0 [])) as (_ & _ & H).
  apply (H Hv).
Defined.

(** [ReadPKRU] answers -1 when the hook reports an error, and the value of
    bytes 3..6 of the reply, as an [int], otherwise; [WritePKRU] answers -1
    on an error and 0 otherwise, and sends the value modulo 2^32 in bytes
    3..6.  The -1 of a failed read is also what a successful read returns
    when the register holds 0xFFFFFFFF: the result alone does not tell the
    two apart. *)
Theorem ReadPKRU_result (h : hook) (v : Z) (m : IOState) :
  let rq := x0f :: x01 :: xee :: replicate 9 x00 in
  (ReadPKRU h m).1 =
    (if (h rq).1 =? 0 then int32 (be32 (h rq).2 3) else -1) /\
  sent (ReadPKRU h m).2 = sent m ++ [rq] /\
  (WritePKRU h v m).1 = (if (h (WritePKRU_request v)).1 =? 0 then 0 else -1) /\
  sent (WritePKRU h v m).2 = sent m ++ [WritePKRU_request v] /\
  be32 (WritePKRU_request v) 3 = v mod 2 ^ 32 /\
  (ReadPKRU (reply (WritePKRU_request 0xFFFFFFFF)) m).1 = -1.
Proof.
  cbv zeta.
  assert (Hff : (ReadPKRU (reply (WritePKRU_request 0xFFFFFFFF)) m).1 = -1).
  { unfold ReadPKRU, WASICALL, reply. cbn [fst snd Z.eqb negb].
    rewrite load_loop_int_be32. unfold WritePKRU_request.
    rewrite register_request_value. reflexivity. }
  assert (Hwr : be32 (WritePKRU_request v) 3 = v mod 2 ^ 32).
  { unfold WritePKRU_request. rewrite register_request_value.
    apply Z.mod_mod. lia. }
  split; [|split; [|split; [|split; [|split; [exact Hwr|exact Hff]]]]];
    clear Hff Hwr; unfold ReadPKRU, WritePKRU, WASICALL.
  - destruct (h (x0f :: x01 :: xee :: replicate 9 x00)) as [e rb]. cbn [fst snd].
    destruct (e =? 0); cbn [negb fst]; [apply load_loop_int_be32|reflexivity].
  - destruct (h (x0f :: x01 :: xee :: replicate 9 x00)) as [e rb]. cbn [fst snd].
    destruct (e =? 0); reflexivity.
  - destruct (h (WritePKRU_request v)) as [e rb]. cbn [fst snd].
    destruct (e =? 0); reflexivity.
  - destruct (h (WritePKRU_request v)) as [e rb]. cbn [fst snd].
    destruct (e =? 0); reflexivity.
Qed.

(** ** Page alignment *)

(** Masking with [~(PAGESIZEPKU - 1)] in [size_t] rounds down to a page. *)
Lemma page_mask (w y : Z) :
  12 <= w -> 0 <= y < 2 ^ w ->
  Z.land y (Z.lnot (PAGESIZEPKU - 1) mod 2 ^ w) = 4096 * (y / 4096).
Proof.
  intros Hw Hy. unfold PAGESIZEPKU. change (4096 - 1) with (Z.ones 12).
  replace (4096 * (y / 4096)) with (Z.shiftl (Z.shiftr y 12) 12)
    by (rewrite Z.shiftl_mul_pow2, Z.shiftr_div_pow2 by lia;
        change (2 ^ 12) with 4096; lia).
  apply Z.bits_inj'. intros n Hn.
  rewrite Z.land_spec.
  destruct (Z.lt_ge_cases n 12) as [H12|H12].
  - rewrite Z.shiftl_spec_low by lia.
    rewrite Z.mod_pow2_bits_low, Z.lnot_spec, Z.testbit_ones_nonneg by lia.
    replace (n <? 12) with true by (symmetry; apply Z.ltb_lt; lia).
    apply andb_false_r.
  - rewrite Z.shiftl_spec, Z.shiftr_spec by lia.
    replace (n - 12 + 12) with n by lia.
    destruct (Z.lt_ge_cases n w) as [Hnw|Hnw].
    + rewrite Z.mod_pow2_bits_low, Z.lnot_spec, Z.testbit_ones_nonneg by lia.
      replace (n <? 12) with false by (symmetry; apply Z.ltb_ge; lia).
      apply andb_true_r.
    + rewrite Z.mod_pow2_bits_high by lia. rewrite andb_false_r.
      symmetry. rewrite <- (Z.mod_small y (2 ^ w)) by lia.
      apply Z.mod_pow2_bits_high. lia.
Qed.

Lemma pow2_page (w : Z) : 12 <= w -> 2 ^ w = 4096 * 2 ^ (w - 12).
Proof.
  intros Hw. replace w with (12 + (w - 12)) at 1 by lia.
  rewrite Z.pow_add_r by lia. reflexivity.
Qed.

(** [PAGE_ALIGN(S)] is the least multiple of the page size that is not
    below [S], as long as [S + 4095] fits in [size_t]; aligning twice is
    aligning once. *)
Theorem PAGE_ALIGN_rounds_up (w S : Z) :
  12 <= w -> 0 <= S -> S + 4095 < 2 ^ w ->
  PAGE_ALIGN w S mod 4096 = 0 /\
  S <= PAGE_ALIGN w S < S + 4096 /\
  PAGE_ALIGN w (PAGE_ALIGN w S) = PAGE_ALIGN w S.
Proof.
  intros Hw HS Hfit.
  assert (Hval : forall T, 0 <= T -> T + 4095 < 2 ^ w ->
            PAGE_ALIGN w T = 4096 * ((T + 4095) / 4096)).
  { intros T HT HTfit. unfold PAGE_ALIGN. unfold PAGESIZEPKU at 1.
    rewrite (Z.mod_small (T + (4096 - 1))) by lia.
    rewrite page_mask by lia. reflexivity. }
  rewrite (Hval S HS Hfit).
  pose proof (pow2_page w Hw) as Hp.
  assert (0 < 2 ^ (w - 12)) by (apply Z.pow_pos_nonneg; lia).
  split; [rewrite Z.mul_comm; apply Z_mod_mult|].
  split; [Z.div_mod_to_equations; lia|].
  rewrite Hval.
  - f_equal. Z.div_mod_to_equations; lia.
  - Z.div_mod_to_equations; lia.
  - assert (Hq : (S + 4095) / 4096 < 2 ^ (w - 12))
      by (apply Z.div_lt_upper_bound; lia).
    lia.
Qed.

Lemma PAGE_ALIGN_rounds_up_witness :
  12 <= 32 /\ 0 <= 5000 /\ 5000 + 4095 < 2 ^ 32 /\
  PAGE_ALIGN 32 5000 mod 4096 = 0 /\
  5000 <= PAGE_ALIGN 32 5000 < 5000 + 4096 /\
  PAGE_ALIGN 32 (PAGE_ALIGN 32 5000) = PAGE_ALIGN 32 5000.
Proof.
  assert (H1 : 12 <= 32) by lia. assert (H2 : 0 <= 5000) by lia.
  assert (H3 : 5000 + 4095 < 2 ^ 32) by lia.
  split; [exact H1|]. split; [exact H2|]. split; [exact H3|].
  apply (PAGE_ALIGN_rounds_up 32 5000 H1 H2 H3).
Defined.

(** For a size within 4095 of the top of [size_t] the sum wraps, and
    [PAGE_ALIGN] yields 0: [NaiveMmap] then asks the allocator for 0 bytes
    and leaves the counter as it is. *)
Theorem NaiveMmap_wraps (w : Z) (PKUMalloc : Z -> Z) (bytes : Z) (m : IOState) :
  12 <= w -> 2 ^ w - 4096 < bytes < 2 ^ w ->
  PAGE_ALIGN w bytes = 0 /\
  NaiveMmap w PKUMalloc bytes m =
    (PKUMalloc 0, mkIOState (GS_MmapMemory m mod 2 ^ w) (MmapAddr m) (sent m)).
Proof.
  intros Hw Hb.
  assert (Hz : PAGE_ALIGN w bytes = 0).
  { unfold PAGE_ALIGN. unfold PAGESIZEPKU at 1.
    pose proof (pow2_page w Hw) as Hp.
    assert (0 < 2 ^ (w - 12)) by (apply Z.pow_pos_nonneg; lia).
    assert (Hm : (bytes + (4096 - 1)) mod 2 ^ w = bytes + 4095 - 2 ^ w).
    { symmetry. apply (Z.mod_unique_pos _ _ 1); lia. }
    rewrite Hm, page_mask by lia.
    rewrite Z.div_small by lia. reflexivity. }
  split; [exact Hz|]. unfold NaiveMmap. rewrite Hz, Z.add_0_r. reflexivity.
Qed.

Lemma NaiveMmap_wraps_witness :
  12 <= 32 /\ 2 ^ 32 - 4096 < 2 ^ 32 - 1 < 2 ^ 32 /\
  PAGE_ALIGN 32 (2 ^ 32 - 1) = 0 /\
  NaiveMmap 32 (fun n => 0x8000 + n) (2 ^ 32 - 1) (mkIOState 7 0 []) =
    (0x8000 + 0, mkIOState (7 mod 2 ^ 32) 0 []).
Proof.
  assert (H1 : 12 <= 32) by lia.
  assert (H2 : 2 ^ 32 - 4096 < 2 ^ 32 - 1 < 2 ^ 32) by lia.
  split; [exact H1|]. split; [exact H2|].
  apply (NaiveMmap_wraps 32 (fun n => 0x8000 + n) (2 ^ 32 - 1) (mkIOState 7 0 []) H1 H2).
Defined.

(** Without wrap-around [NaiveMmap] asks the allocator for a whole number of
    pages that covers the request, and adds that size to the counter. *)
Theorem NaiveMmap_pages (w : Z) (PKUMalloc : Z -> Z) (bytes : Z) (m : IOState) :
  12 <= w -> 0 <= bytes -> bytes + 4095 < 2 ^ w ->
  exists n,
    n mod 4096 = 0 /\ bytes <= n < bytes + 4096 /\
    NaiveMmap w PKUMalloc bytes m =
      (PKUMalloc n,
       mkIOState ((GS_MmapMemory m + n) mod 2 ^ w) (MmapAddr m) (sent m)).
Proof.
  intros Hw Hb Hfit. exists (PAGE_ALIGN w bytes).
  assert (Hval : PAGE_ALIGN w bytes = 4096 * ((bytes + 4095) / 4096)).
  { unfold PAGE_ALIGN. unfold PAGESIZEPKU at 1.
    rewrite (Z.mod_small (bytes + (4096 - 1))) by lia.
    rewrite page_mask by lia. reflexivity. }
  split; [rewrite Hval, Z.mul_comm; apply Z_mod_mult|].
  split; [rewrite Hval; Z.div_mod_to_equations; lia|].
  reflexivity.
Qed.

Lemma NaiveMmap_pages_witness :
  12 <= 32 /\ 0 <= 8 /\ 8 + 4095 < 2 ^ 32 /\
  exists n,
    n mod 4096 = 0 /\ 8 <= n < 8 + 4096 /\
    NaiveMmap 32 (fun n => 0x8000) 8 (mkIOState 0 0 []) =
      (0x8000, mkIOState ((0 + n) mod 2 ^ 32) 0 []).
Proof.
  assert (H1 : 12 <= 32) by lia. assert (H2 : 0 <= 8) by lia.
  assert (H3 : 8 + 4095 < 2 ^ 32) by lia.
  split; [exact H1|]. split; [exact H2|]. split; [exact H3|].
  apply (NaiveMmap_pages 32 (fun n => 0x8000) 8 (mkIOState 0 0 []) H1 H2 H3).
Defined.

(** ** The macro [PKUIsPkeyLoaded] *)

Lemma shifted_field (r k : Z) :
  0 <= k < 16 ->
  Z.land (r mod 2 ^ 64) (Z.shiftl 3 (k * 2) mod 2 ^ 64) =
  Z.shiftl (pkru_field r k) (k * 2).
Proof.
  intros Hk. unfold pkru_field. replace (2 * k) with (k * 2) by lia.
  apply Z.bits_inj'. intros n Hn.
  rewrite Z.land_spec.
  destruct (Z.lt_ge_cases n (k * 2)) as [Hlow|Hhigh].
  - rewrite (Z.shiftl_spec_low _ _ n) by lia.
    destruct (Z.lt_ge_cases n 64) as [H64|H64].
    + rewrite (Z.mod_pow2_bits_low (Z.shiftl 3 (k * 2))) by lia.
      rewrite Z.shiftl_spec_low by lia. apply andb_false_r.
    + rewrite (Z.mod_pow2_bits_high (Z.shiftl 3 (k * 2))) by lia.
      apply andb_false_r.
  - rewrite (Z.shiftl_spec _ _ n) by lia.
    rewrite Z.land_spec, Z.shiftr_spec by lia.
    replace (n - k * 2 + k * 2) with n by lia.
    destruct (Z.lt_ge_cases n (k * 2 + 2)) as [Hin|Hout].
    + rewrite !Z.mod_pow2_bits_low by lia.
      rewrite Z.shiftl_spec by lia. reflexivity.
    + assert (H3 : Z.testbit 3 (n - k * 2) = false).
      { change 3 with (Z.ones 2). rewrite Z.testbit_ones_nonneg by lia.
        apply Z.ltb_ge. lia. }
      rewrite H3, andb_false_r.
      destruct (Z.lt_ge_cases n 64) as [H64|H64].
      * rewrite (Z.mod_pow2_bits_low (Z.shiftl 3 (k * 2))) by lia.
        rewrite Z.shiftl_spec, H3 by lia. apply andb_false_r.
      * rewrite (Z.mod_pow2_bits_high (Z.shiftl 3 (k * 2))) by lia.
        apply andb_false_r.
Qed.

Lemma mask_small (k : Z) :
  0 <= k < 16 -> Z.shiftl 3 (k * 2) mod 2 ^ 64 = Z.shiftl 3 (k * 2).
Proof.
  intros Hk. apply Z.mod_small. rewrite Z.shiftl_mul_pow2 by lia.
  assert (0 < 2 ^ (k * 2)) by (apply Z.pow_pos_nonneg; lia).
  assert (2 ^ (k * 2) <= 2 ^ 30) by (apply Z.pow_le_mono_r; lia).
  change (2 ^ 64) with (2 ^ 34 * 2 ^ 30). nia.
Qed.

(** A key below 16 is loaded exactly when its field of the register does not
    hold both disable bits; this is so for a negative [int] as well. *)
Lemma PKUIsPkeyLoaded_field (k r : Z) :
  0 <= k < 16 ->
  PKUIsPkeyLoaded k r = negb (pkru_field r k =? 3).
Proof.
  intros Hk. unfold PKUIsPkeyLoaded.
  change (Z.lor PKEY_DISABLE_ACCESS PKEY_DISABLE_WRITE) with 3.
  cbv zeta. rewrite shifted_field, mask_small by exact Hk.
  f_equal. rewrite !Z.shiftl_mul_pow2 by lia.
  assert (0 < 2 ^ (k * 2)) by (apply Z.pow_pos_nonneg; lia).
  destruct (Z.eqb_spec (pkru_field r k) 3) as [->|Hne].
  - apply Z.eqb_refl.
  - apply Z.eqb_neq. intros E. apply Hne. nia.
Qed.

(** After [SetPkey(k, prot)], whatever the read primitive yields, key [k] is
    reported loaded by [PKUIsPkeyLoaded] unless [prot] holds both disable
    bits, and every other key below 16 is reported as it is in the sampled
    value: only the key being set changes its status. *)
Theorem SetPkey_loaded (rd : Z -> Z) (k prot j : Z) (s : State) :
  0 <= k < 16 -> 0 <= j < 16 ->
  PKUIsPkeyLoaded j (pkru (SetPkey rd k prot s).2) =
    if j =? k then negb (Z.land prot 3 =? 3)
    else PKUIsPkeyLoaded j (sampled rd s).
Proof.
  intros Hk Hj. rewrite !PKUIsPkeyLoaded_field by assumption.
  destruct (Z.eqb_spec j k) as [->|Hne].
  - rewrite SetPkey_field_key by exact Hk. reflexivity.
  - rewrite SetPkey_field_other by assumption. reflexivity.
Qed.

Lemma SetPkey_loaded_witness :
  0 <= 1 < 16 /\ 0 <= 1 < 16 /\
  PKUIsPkeyLoaded 1 (pkru (SetPkey rdpkru 1 PKEY_DISABLE_WRITE st_init).2) =
    if 1 =? 1 then negb (Z.land PKEY_DISABLE_WRITE 3 =? 3)
    else PKUIsPkeyLoaded 1 (sampled rdpkru st_init).
Proof.
  assert (H : 0 <= 1 < 16) by lia.
  split; [exact H|]. split; [exact H|].
  apply (SetPkey_loaded rdpkru 1 PKEY_DISABLE_WRITE 1 st_init H H).
Defined.

(** ** What a run keeps *)

(** [DoInit] and [PKUInit] write the two flags and [errno] only. *)
Lemma DoInit_frame (pagesize flags : Z) (s : State) :
  let s' := (DoInit pagesize flags s).2 in
  keys s' = keys s /\ RegisteredPKUCalls s' = RegisteredPKUCalls s /\
  domains (g_data s') = domains (g_data s) /\
  ranges (g_data s') = ranges (g_data s) /\
  UserHandler (g_data s') = UserHandler (g_data s) /\
  handler_calls s' = handler_calls s /\ g_LazyFree s' = g_LazyFree s /\
  g_initialized s' = g_initialized s /\
  CurrentDid s' = CurrentDid s /\ pkru s' = pkru s.
Proof.
  cbv zeta. unfold DoInit. repeat case_match; simpl; repeat split.
Qed.

Lemma PKUInit_frame (pagesize flags : Z) (s : State) :
  let s' := (PKUInit pagesize flags s).2 in
  keys s' = keys s /\ RegisteredPKUCalls s' = RegisteredPKUCalls s /\
  domains (g_data s') = domains (g_data s) /\
  ranges (g_data s') = ranges (g_data s) /\
  UserHandler (g_data s') = UserHandler (g_data s) /\
  handler_calls s' = handler_calls s /\ g_LazyFree s' = g_LazyFree s /\
  CurrentDid s' = CurrentDid s /\ pkru s' = pkru s.
Proof.
  cbv zeta. unfold PKUInit. destruct (negb _); [simpl; repeat split|].
  pose proof (DoInit_frame pagesize flags s) as H. cbv zeta in H.
  destruct (DoInit pagesize flags s) as [ret s1]. simpl in H.
  destruct (-1 =? ret); simpl; tauto.
Qed.

(** How a call can change the key table: not at all, or by marking slot [b]
    used with key [b], for a granted key [b] below 16. *)
(** From [Some x = Some (r, s')], replace [s'] by [x.2]. *)
Ltac state_of H s' :=
  first [ injection H as _ <-
        | injection H as H; apply (f_equal snd) in H; cbn [snd] in H; subst s' ].

Lemma exec_keys (rd : Z -> Z) (c : call) (s : State) (r : Z) (s' : State) :
  exec rd c s = Some (r, s') ->
  keys s' = keys s \/
  exists b, 0 <= b < 16 /\
    keys s' = alter (fun k => mkPKUKey b (perm k) true) (Z.to_nat b) (keys s).
Proof.
  assert (Hcreate : forall h flags,
            keys (PKUCreateDomain h flags s).2 = keys s \/
            exists b, 0 <= b < 16 /\
              keys (PKUCreateDomain h flags s).2 =
                alter (fun k => mkPKUKey b (perm k) true) (Z.to_nat b) (keys s)).
  { intros h flags. rewrite PKUCreateDomain_cases. cbv zeta.
    destruct (negb _); [left; reflexivity|].
    destruct (Z.leb_spec 16 (byte_at (h (request x01 x21)).2 2)); [left; reflexivity|].
    right. exists (byte_at (h (request x01 x21)).2 2).
    pose proof (byte_at_range (h (request x01 x21)).2 2).
    split; [lia|reflexivity]. }
  destruct c; simpl; intros H.
  - left. state_of H s'. apply DoInit_frame.
  - left. state_of H s'. apply PKUInit_frame.
  - left. state_of H s'. reflexivity.
  - left. apply PKUDomainFree_keys in H. tauto.
  - state_of H s'. unfold PKUPkeyAlloc. destruct (negb _); [left; reflexivity|].
    apply Hcreate.
  - left. unfold PKUPkeyFree in H.
    destruct (existsb rg_used _); [injection H as _ <-; reflexivity|].
    destruct (g_LazyFree _); [injection H as _ <-; reflexivity|].
    apply PKUDomainFree_keys in H. tauto.
  - state_of H s'. apply Hcreate.
  - left. unfold RegisterPKUCall in H.
    destruct (negb _); [injection H as _ <-; reflexivity|].
    destruct (_ || _); [injection H as _ <-; reflexivity|].
    destruct (at_index _ _) as [c0|]; [|discriminate]. simpl in H.
    destruct (negb _); injection H as _ <-; reflexivity.
  - left. eapply PKUDomainAssignPkey_keys. left. exact H.
  - left. unfold PKUSwitch in H.
    destruct (at_index _ _) as [c0|]; [|discriminate]. simpl in H.
    destruct (at_index _ _) as [k0|]; [|discriminate]. simpl in H.
    injection H as _ <-. reflexivity.
  - left. unfold PKURestore in H.
    destruct (at_index _ _) as [k0|]; [|discriminate]. simpl in H.
    injection H as _ <-. reflexivity.
Qed.

(** How a call can change the call table: not at all, or by filling a slot
    whose entry was null. *)
Lemma exec_calls (rd : Z -> Z) (c : call) (s : State) (r : Z) (s' : State) :
  exec rd c s = Some (r, s') ->
  RegisteredPKUCalls s' = RegisteredPKUCalls s \/
  exists i c0 d e,
    RegisteredPKUCalls s !! i = Some c0 /\ entry c0 = 0 /\
    RegisteredPKUCalls s' = <[i := mkPKUCall d e]> (RegisteredPKUCalls s).
Proof.
  destruct c; simpl; intros H.
  - left. state_of H s'. apply DoInit_frame.
  - left. state_of H s'. apply PKUInit_frame.
  - left. state_of H s'. reflexivity.
  - left. apply PKUDomainFree_keys in H. tauto.
  - left. state_of H s'. unfold PKUPkeyAlloc. destruct (negb _); [reflexivity|].
    rewrite PKUCreateDomain_cases. cbv zeta. repeat case_match; reflexivity.
  - left. unfold PKUPkeyFree in H.
    destruct (existsb rg_used _); [injection H as _ <-; reflexivity|].
    destruct (g_LazyFree _); [injection H as _ <-; reflexivity|].
    apply PKUDomainFree_keys in H. tauto.
  - left. state_of H s'.
    rewrite PKUCreateDomain_cases. cbv zeta. repeat case_match; reflexivity.
  - unfold RegisterPKUCall in H.
    destruct (negb _); [left; injection H as _ <-; reflexivity|].
    destruct (_ || _); [left; injection H as _ <-; reflexivity|].
    destruct (at_index _ _) as [c0|] eqn:Hc0; [|discriminate]. simpl in H.
    destruct (Z.eqb_spec (entry c0) 0) as [He|He]; simpl in H;
      injection H as _ <-; [|left; reflexivity].
    right. eexists _, c0, did_, entry_.
    split; [apply at_index_Some, Hc0|]. split; [exact He|].
    simpl. rewrite list_alter_alter_eq, list_insert_alter. reflexivity.
  - left. unfold PKUDomainAssignPkey in H.
    destruct (negb _); [injection H as _ <-; reflexivity|].
    destruct (negb _); [injection H as _ <-; reflexivity|].
    destruct (negb _); [injection H as _ <-; reflexivity|].
    destruct (at_index _ _) as [k0|]; [|discriminate]. simpl in H.
    injection H as _ <-. reflexivity.
  - left. unfold PKUSwitch in H.
    destruct (at_index _ _) as [c0|]; [|discriminate]. simpl in H.
    destruct (at_index _ _) as [k0|]; [|discriminate]. simpl in H.
    injection H as _ <-. reflexivity.
  - left. unfold PKURestore in H.
    destruct (at_index _ _) as [k0|]; [|discriminate]. simpl in H.
    injection H as _ <-. reflexivity.
Qed.

Lemma sweep_ranges_unused (n : nat) (s : State) :
  sweep_ranges (replicate n zero_range) s = Some s.
Proof. induction n as [|n IH]; [reflexivity|exact IH]. Qed.

Lemma alter_replicate_fixed {A} (f : A -> A) (x : A) (n i : nat) :
  f x = x -> alter f i (replicate n x) = replicate n x.
Proof.
  intros Hf. rewrite <- (insert_replicate x n i) at 2.
  rewrite list_insert_alter. apply list_alter_ext; [|reflexivity].
  intros y Hy. apply lookup_replicate_1 in Hy as [-> _]. exact Hf.
Qed.

Lemma state_eta (s : State) (ds : list PKUKey) :
  ds = domains (g_data s) ->
  set_g_data (set_domains ds (g_data s)) s = s.
Proof. intros ->. destruct s as [? ? ? [] ? ? ? ? ?]. reflexivity. Qed.

(** While the [g_data] tables are as zero-initialised, [PKUDomainFree] runs
    its two checks and then changes nothing. *)
Lemma PKUDomainFree_inert (domain : Z) (s : State) :
  domains (g_data s) = replicate (Z.to_nat NUM_DOMAINS) zero_key ->
  ranges (g_data s) = replicate (Z.to_nat NUM_MPROTECT_RANGES) zero_range ->
  PKUDomainFree domain s =
    Some (if initialized (g_data s) =? 0 then (-1, s)
          else if negb (DomainExists domain s) then (-1, set_errno EINVAL s)
          else (0, s)).
Proof.
  intros Hd Hr. unfold PKUDomainFree. rewrite Hr, Hd.
  destruct (initialized (g_data s) =? 0); [reflexivity|].
  destruct (negb (DomainExists domain s)); [reflexivity|].
  rewrite !take_ge by (rewrite length_replicate; lia).
  change (existsb used (replicate (Z.to_nat NUM_DOMAINS) zero_key)) with false.
  cbv iota. rewrite sweep_ranges_unused. simpl.
  rewrite !list_alter_alter_eq, Hd, alter_replicate_fixed by reflexivity.
  rewrite state_eta by (symmetry; exact Hd). reflexivity.
Qed.

(** In the same situation, with the lazy-free mode off, [PKUPkeyFree] is
    [PKUDomainFree]. *)
Lemma PKUPkeyFree_inert (pkey_ : Z) (s : State) :
  domains (g_data s) = replicate (Z.to_nat NUM_DOMAINS) zero_key ->
  ranges (g_data s) = replicate (Z.to_nat NUM_MPROTECT_RANGES) zero_range ->
  g_LazyFree s = false ->
  PKUPkeyFree pkey_ s = PKUDomainFree pkey_ s.
Proof.
  intros Hd Hr Hl. unfold PKUPkeyFree. rewrite Hr.
  replace (existsb rg_used
             (take (Z.to_nat NUM_DOMAINS)
                (replicate (Z.to_nat NUM_MPROTECT_RANGES) zero_range)))
    with false by reflexivity.
  rewrite Hd.
  replace (revoke <$> take (Z.to_nat NUM_DOMAINS) (replicate (Z.to_nat NUM_DOMAINS) zero_key))
    with (replicate (Z.to_nat NUM_DOMAINS) zero_key) by reflexivity.
  replace (drop (Z.to_nat NUM_DOMAINS) (replicate (Z.to_nat NUM_DOMAINS) zero_key))
    with (@nil PKUKey) by reflexivity.
  rewrite app_nil_r, state_eta by (symmetry; exact Hd).
  rewrite Hl. reflexivity.
Qed.

Lemma run_inv_initial (pkru0 : Z) : run_inv (initial_state pkru0).
Proof.
  unfold run_inv. split; [|repeat split; try reflexivity; left; reflexivity].
  intros i k Hk Hu. unfold initial_state, PKUInitCtor, zero_state in Hk. simpl in Hk.
  destruct i as [|i]; simpl in Hk.
  - injection Hk as <-. reflexivity.
  - apply (lookup_replicate_1 15 zero_key) in Hk as [-> _]. discriminate.
Qed.

(** A change of [errno], of the register or of the current domain keeps
    [run_inv]. *)
Lemma run_inv_frame (s s' : State) :
  keys s' = keys s -> g_data s' = g_data s ->
  handler_calls s' = handler_calls s -> g_LazyFree s' = g_LazyFree s ->
  g_initialized s' = g_initialized s ->
  run_inv s -> run_inv s'.
Proof. unfold run_inv. intros -> -> -> -> ->. tauto. Qed.

Lemma run_inv_set_key (s : State) (b : Z) :
  0 <= b < 16 -> run_inv s ->
  run_inv (set_keys (alter (fun k => mkPKUKey b (perm k) true) (Z.to_nat b) (keys s)) s).
Proof.
  intros Hb (I1 & I). split; [|exact I].
  intros i k. simpl. rewrite list_lookup_alter. case_decide as Hi.
  - destruct (keys s !! Z.to_nat b); [|discriminate]. simpl.
    intros [= <-] _. simpl. subst i. lia.
  - apply I1.
Qed.

Lemma PKUCreateDomain_run_inv (h : hook) (flags : Z) (s : State) :
  run_inv s -> run_inv (PKUCreateDomain h flags s).2.
Proof.
  intros Hinv. rewrite PKUCreateDomain_cases. cbv zeta.
  destruct (negb _); [exact Hinv|].
  destruct (Z.leb_spec 16 (byte_at (h (request x01 x21)).2 2)); [exact Hinv|].
  simpl. apply run_inv_set_key; [|exact Hinv].
  pose proof (byte_at_range (h (request x01 x21)).2 2). lia.
Qed.

Lemma DoInit_run_inv (pagesize flags : Z) (s : State) :
  run_inv s -> run_inv (DoInit pagesize flags s).2.
Proof.
  intros Hinv. pose proof Hinv as (I1 & I2 & I3 & I4 & I5 & I6 & I7 & I8).
  unfold DoInit.
  destruct (Z.eqb_spec (initialized (g_data s)) 0) as [Hi|Hi]; cbn [negb];
    [|revert Hinv; apply run_inv_frame; reflexivity].
  destruct (-1 =? pagesize); [revert Hinv; apply run_inv_frame; reflexivity|].
  destruct (negb (PAGESIZEPKU =? pagesize));
    [revert Hinv; apply run_inv_frame; reflexivity|].
  split; [exact I1|]. split; [exact I2|]. split; [exact I3|]. split; [exact I4|].
  split; [exact I5|]. split; [exact I6|]. split; [|right; reflexivity].
  destruct I7 as [I7|[_ I7]]; [left; exact I7|congruence].
Qed.

Lemma PKUInit_run_inv (pagesize flags : Z) (s : State) :
  run_inv s -> run_inv (PKUInit pagesize flags s).2.
Proof.
  intros Hinv. unfold PKUInit.
  destruct (negb (g_initialized s =? 0)); [exact Hinv|].
  pose proof (DoInit_run_inv pagesize flags s Hinv) as H1.
  assert (H2 : (DoInit pagesize flags s).1 <> -1 ->
               initialized (g_data (DoInit pagesize flags s).2) = 1).
  { unfold DoInit. repeat case_match; cbn [fst snd]; try congruence. reflexivity. }
  destruct (DoInit pagesize flags s) as [ret s1]. cbn [fst snd] in H1, H2.
  destruct (Z.eqb_spec (-1) ret) as [He|He]; cbn [snd]; [exact H1|].
  destruct H1 as (I1 & I2 & I3 & I4 & I5 & I6 & I7 & I8).
  split; [exact I1|]. split; [exact I2|]. split; [exact I3|]. split; [exact I4|].
  split; [exact I5|]. split; [exact I6|].
  split; [right; split; [reflexivity|apply H2; congruence]|exact I8].
Qed.

(** Every call with a defined result keeps [run_inv]. *)
Lemma exec_run_inv (rd : Z -> Z) (c : call) (s : State) (r : Z) (s' : State) :
  exec rd c s = Some (r, s') -> run_inv s -> run_inv s'.
Proof.
  intros H Hinv. pose proof Hinv as (I1 & I2 & I3 & I4 & I5 & I6 & I7 & I8).
  assert (Hfree : forall d r0 s0, PKUDomainFree d s = Some (r0, s0) -> run_inv s0).
  { intros d r0 s0. rewrite PKUDomainFree_inert by assumption.
    intros [= E]. revert E. repeat case_match; intros [= _ <-];
      try exact Hinv; revert Hinv; apply run_inv_frame; reflexivity. }
  destruct c; simpl in H.
  - state_of H s'. apply DoInit_run_inv, Hinv.
  - state_of H s'. apply PKUInit_run_inv, Hinv.
  - state_of H s'. exact Hinv.
  - eapply Hfree, H.
  - state_of H s'. unfold PKUPkeyAlloc. destruct (negb _).
    + revert Hinv. apply run_inv_frame; reflexivity.
    + apply PKUCreateDomain_run_inv, Hinv.
  - rewrite PKUPkeyFree_inert in H by assumption. eapply Hfree, H.
  - state_of H s'. apply PKUCreateDomain_run_inv, Hinv.
  - unfold RegisterPKUCall in H.
    destruct (negb _); [state_of H s'; exact Hinv|].
    destruct (_ || _); [state_of H s'; exact Hinv|].
    destruct (at_index _ _) as [c0|]; [|discriminate]. simpl in H.
    destruct (negb _); state_of H s'; [exact Hinv|].
    revert Hinv. apply run_inv_frame; reflexivity.
  - unfold PKUDomainAssignPkey in H.
    destruct (negb _); [state_of H s'; exact Hinv|].
    destruct (negb _); [state_of H s'; exact Hinv|].
    destruct (negb _); [state_of H s'; exact Hinv|].
    destruct (at_index _ _) as [k0|]; [|discriminate]. simpl in H.
    state_of H s'. revert Hinv. apply run_inv_frame; reflexivity.
  - unfold PKUSwitch in H.
    destruct (at_index _ _) as [c0|]; [|discriminate]. simpl in H.
    destruct (at_index _ _) as [k0|]; [|discriminate]. simpl in H.
    state_of H s'. revert Hinv. apply run_inv_frame; reflexivity.
  - unfold PKURestore in H.
    destruct (at_index _ _) as [k0|]; [|discriminate]. simpl in H.
    state_of H s'. revert Hinv. apply run_inv_frame; reflexivity.
Qed.

Lemma reachable_run_inv (rd : Z -> Z) (s : State) : reachable rd s -> run_inv s.
Proof.
  induction 1 as [pkru0 | s c r s' _ IH Hex].
  - apply run_inv_initial.
  - eapply exec_run_inv; eassumption.
Qed.

(** In every state of a run the id of an existing domain is its key: slot
    [d] of the key table holds key [d], with permission bits zero. *)
Theorem existing_domain_key (rd : Z -> Z) (s : State) (d : Z) :
  reachable rd s -> DomainExists d s = true ->
  exists k, at_index (keys s) d = Some k /\
            pkey k = d /\ perm k = 0 /\ used k = true.
Proof.
  intros Hr Hex.
  destruct (reachable_run_inv rd s Hr) as (I1 & _).
  destruct (reachable_inv rd s Hr) as (_ & Hp & _).
  apply DomainExists_range in Hex as (Hd & k & Hk & Hu).
  exists k. unfold at_index.
  replace (0 <=? d) with true by (symmetry; apply Z.leb_le; lia).
  split; [exact Hk|]. split; [rewrite (I1 _ _ Hk Hu); lia|].
  split; [apply (Hp _ _ Hk)|exact Hu].
Qed.

Lemma existing_domain_key_witness :
  reachable rdpkru st_dom1 /\ DomainExists 1 st_dom1 = true /\
  exists k, at_index (keys st_dom1) 1 = Some k /\
            pkey k = 1 /\ perm k = 0 /\ used k = true.
Proof.
  split; [apply st_dom1_reachable|]. split; [reflexivity|].
  apply (existing_domain_key rdpkru st_dom1 1 (st_dom1_reachable rdpkru) eq_refl).
Defined.

(** No call of the library makes an existing domain cease to exist:
    [PKUDomainFree] and [PKUPkeyFree] included, the used flag of the key
    table is never cleared. *)
Theorem domain_never_removed
    (rd : Z -> Z) (c : call) (s : State) (r : Z) (s' : State) (d : Z) :
  exec rd c s = Some (r, s') ->
  DomainExists d s = true -> DomainExists d s' = true.
Proof.
  intros Hex Hd. apply exec_keys in Hex as [Hk | (b & Hb & Hk)];
    unfold DomainExists in *; rewrite Hk; [exact Hd|].
  apply andb_prop in Hd as [Hrange Hu]. rewrite Hrange. cbn [andb].
  rewrite list_lookup_alter. case_decide as Hi; [|exact Hu].
  rewrite Hi. destruct (keys s !! Z.to_nat d); [reflexivity|discriminate].
Qed.

Lemma domain_never_removed_witness :
  exec rdpkru (CallPKUDomainFree 1) st_dom1 = Some (0, st_freed) /\
  DomainExists 1 st_dom1 = true /\ DomainExists 1 st_freed = true.
Proof.
  assert (H : exec rdpkru (CallPKUDomainFree 1) st_dom1 = Some (0, st_freed))
    by reflexivity.
  split; [exact H|]. split; [reflexivity|].
  apply (domain_never_removed rdpkru (CallPKUDomainFree 1) st_dom1 0 st_freed 1 H eq_refl).
Defined.

(** A slot of the call table whose entry pointer is not null is never
    written again: no call unregisters or replaces a registered call. *)
Theorem registered_slot_stable
    (rd : Z -> Z) (c : call) (s : State) (r : Z) (s' : State)
    (i : nat) (c0 : PKUCall) :
  exec rd c s = Some (r, s') ->
  RegisteredPKUCalls s !! i = Some c0 -> entry c0 <> 0 ->
  RegisteredPKUCalls s' !! i = Some c0.
Proof.
  intros Hex Hi He.
  apply exec_calls in Hex as [Hc | (j & c1 & d & e & Hj & Hnull & Hc)];
    rewrite Hc; [exact Hi|].
  rewrite list_lookup_insert_ne; [exact Hi|].
  intros ->. rewrite Hi in Hj. injection Hj as ->. contradiction.
Qed.

Lemma registered_slot_stable_witness :
  exec rdpkru (CallRegisterPKUCall 1 0x2000) st_call =
    Some (1, (default (0, st_call) (RegisterPKUCall 1 0x2000 st_call)).2) /\
  RegisteredPKUCalls st_call !! 0%nat = Some (mkPKUCall 1 0x1000) /\
  entry (mkPKUCall 1 0x1000) <> 0 /\
  RegisteredPKUCalls (default (0, st_call) (RegisterPKUCall 1 0x2000 st_call)).2
    !! 0%nat = Some (mkPKUCall 1 0x1000).
Proof.
  assert (H : exec rdpkru (CallRegisterPKUCall 1 0x2000) st_call =
    Some (1, (default (0, st_call) (RegisterPKUCall 1 0x2000 st_call)).2))
    by reflexivity.
  assert (He : entry (mkPKUCall 1 0x1000) <> 0) by discriminate.
  split; [exact H|]. split; [reflexivity|]. split; [exact He|].
  apply (registered_slot_stable rdpkru (CallRegisterPKUCall 1 0x2000) st_call 1 _
           0%nat (mkPKUCall 1 0x1000) H eq_refl He).
Defined.

(** The results of [PKUCreateDomain] in a run: -1 with nothing changed, or
    an id in 0..15 that names a domain existing afterwards.  The id can be
    0.  The call writes at most the slot of that id in the key table, and
    neither the call table nor [g_data]. *)
Theorem PKUCreateDomain_result (rd : Z -> Z) (s : State) (h : hook) (flags : Z) :
  reachable rd s ->
  let r := PKUCreateDomain h flags s in
  (r.1 = -1 /\ r.2 = s \/ 0 <= r.1 < 16 /\ DomainExists r.1 r.2 = true) /\
  RegisteredPKUCalls r.2 = RegisteredPKUCalls s /\ g_data r.2 = g_data s /\
  (forall j, j <> Z.to_nat r.1 -> keys r.2 !! j = keys s !! j).
Proof.
  intros Hr. cbv zeta.
  destruct (reachable_inv rd s Hr) as ((Hlen & _) & _ & (k0 & Hk0 & Hu0) & _).
  rewrite PKUCreateDomain_cases. cbv zeta.
  destruct (negb _); [cbn [fst snd]; auto|].
  destruct (Z.leb_spec 16 (byte_at (h (request x01 x21)).2 2)) as [Hb|Hb];
    cbn [fst snd].
  - split; [right; split; [lia|]|auto].
    unfold DomainExists. change (Z.to_nat 0) with 0%nat. rewrite Hk0. exact Hu0.
  - pose proof (byte_at_range (h (request x01 x21)).2 2) as Hrange.
    split; [right; split; [lia|]|split; [reflexivity|split; [reflexivity|]]].
    + unfold DomainExists, NUM_DOMAINS. cbn [keys set_keys].
      replace (0 <=? _) with true by (symmetry; apply Z.leb_le; lia).
      replace (_ <? 16) with true by (symmetry; apply Z.ltb_lt; lia).
      rewrite list_lookup_alter_eq.
      destruct (lookup_lt_is_Some_2 (keys s) (Z.to_nat (byte_at (h (request x01 x21)).2 2)))
        as [k Hk]; [rewrite Hlen; unfold NUM_DOMAINS; lia|].
      rewrite Hk. reflexivity.
    + intros j Hj. cbn [keys set_keys]. apply list_lookup_alter_ne. congruence.
Qed.

Lemma PKUCreateDomain_result_witness :
  reachable rdpkru st_ready /\
  let r := PKUCreateDomain (grant x01) 0 st_ready in
  (r.1 = -1 /\ r.2 = st_ready \/ 0 <= r.1 < 16 /\ DomainExists r.1 r.2 = true) /\
  RegisteredPKUCalls r.2 = RegisteredPKUCalls st_ready /\
  g_data r.2 = g_data st_ready /\
  (forall j, j <> Z.to_nat r.1 -> keys r.2 !! j = keys st_ready !! j).
Proof.
  assert (Hr : reachable rdpkru st_ready).
  { apply (reachable_call rdpkru st_init (CallPKUInit 4096 0) 0); [|reflexivity].
    apply reachable_init. }
  split; [exact Hr|].
  apply (PKUCreateDomain_result rdpkru st_ready (grant x01) 0 Hr).
Defined.

(** Creating a domain for a key whose domain already exists changes nothing
    and returns the same id again: the caller gets no sign that the domain
    is not new. *)
Theorem PKUCreateDomain_again
    (rd : Z -> Z) (s : State) (h : hook) (flags : Z) :
  reachable rd s ->
  (h (request x01 x21)).1 = 0 ->
  DomainExists (byte_at (h (request x01 x21)).2 2) s = true ->
  PKUCreateDomain h flags s = (byte_at (h (request x01 x21)).2 2, s).
Proof.
  intros Hr He Hex.
  destruct (reachable_run_inv rd s Hr) as (I1 & _).
  apply DomainExists_range in Hex as (Hd & k & Hk & Hu).
  rewrite PKUCreateDomain_cases. cbv zeta. rewrite He. cbn [Z.eqb negb].
  destruct (Z.leb_spec 16 (byte_at (h (request x01 x21)).2 2)); [lia|].
  f_equal.
  assert (Hsame : alter
            (fun k0 => mkPKUKey (byte_at (h (request x01 x21)).2 2) (perm k0) true)
            (Z.to_nat (byte_at (h (request x01 x21)).2 2)) (keys s) = keys s).
  { apply list_eq. intros j. rewrite list_lookup_alter. case_decide as Hj; [|reflexivity].
    subst j. rewrite Hk. simpl. f_equal.
    pose proof (I1 _ _ Hk Hu) as Hpk. rewrite Z2Nat.id in Hpk by lia.
    destruct k as [pk pm u]. simpl in *. subst. reflexivity. }
  rewrite Hsame. destruct s; reflexivity.
Qed.

Lemma PKUCreateDomain_again_witness :
  reachable rdpkru st_dom1 /\
  ((grant x01) (request x01 x21)).1 = 0 /\
  DomainExists (byte_at ((grant x01) (request x01 x21)).2 2) st_dom1 = true /\
  PKUCreateDomain (grant x01) 0 st_dom1 =
    (byte_at ((grant x01) (request x01 x21)).2 2, st_dom1).
Proof.
  split; [apply st_dom1_reachable|]. split; [reflexivity|]. split; [reflexivity|].
  apply (PKUCreateDomain_again rdpkru st_dom1 (grant x01) 0
           (st_dom1_reachable rdpkru) eq_refl eq_refl).
Defined.

(** In a run nothing marks a range record or a slot of the [g_data] domain
    table used, and no handler is configured.  So [PKUDomainFree] returns 0
    exactly when the registry is initialized and the domain exists, and then
    changes nothing at all: it can be repeated, and it never reaches a
    handler.  [PKUPkeyFree] does the same as [PKUDomainFree] and never
    reports EPERM. *)
Theorem free_in_a_run (rd : Z -> Z) (s : State) (d : Z) :
  reachable rd s ->
  PKUDomainFree d s =
    Some (if initialized (g_data s) =? 0 then (-1, s)
          else if negb (DomainExists d s) then (-1, set_errno EINVAL s)
          else (0, s)) /\
  PKUPkeyFree d s = PKUDomainFree d s.
Proof.
  intros Hr. destruct (reachable_run_inv rd s Hr) as (_ & I2 & I3 & _ & _ & I6 & _).
  split; [apply PKUDomainFree_inert; assumption|].
  apply PKUPkeyFree_inert; assumption.
Qed.

Lemma free_in_a_run_witness :
  reachable rdpkru st_dom1 /\
  PKUDomainFree 1 st_dom1 =
    Some (if initialized (g_data st_dom1) =? 0 then (-1, st_dom1)
          else if negb (DomainExists 1 st_dom1) then (-1, set_errno EINVAL st_dom1)
          else (0, st_dom1)) /\
  PKUPkeyFree 1 st_dom1 = PKUDomainFree 1 st_dom1.
Proof.
  split; [apply st_dom1_reachable|].
  apply (free_in_a_run rdpkru st_dom1 1 (st_dom1_reachable rdpkru)).
Defined.

(** ** Initialisation is never undone *)

Lemma PKUDomainFree_flags (d : Z) (s : State) (r : Z) (s' : State) :
  PKUDomainFree d s = Some (r, s') ->
  initialized (g_data s') = initialized (g_data s) /\
  g_initialized s' = g_initialized s.
Proof.
  unfold PKUDomainFree. intros H.
  destruct (initialized (g_data s) =? 0); [injection H as _ <-; auto|].
  destruct (negb (DomainExists d s)); [injection H as _ <-; auto|].
  destruct (existsb used _); [injection H as _ <-; auto|].
  destruct (sweep_ranges _ s) as [s1|] eqn:Hs; [|discriminate]. simpl in H.
  injection H as _ <-. apply sweep_ranges_spec in Hs. subst s1. auto.
Qed.

Lemma exec_flags (rd : Z -> Z) (c : call) (s : State) (r : Z) (s' : State) :
  exec rd c s = Some (r, s') ->
  (initialized (g_data s) <> 0 -> initialized (g_data s') <> 0) /\
  (g_initialized s <> 0 -> g_initialized s' <> 0).
Proof.
  intros H.
  assert (Hcreate : forall h flags,
            g_data (PKUCreateDomain h flags s).2 = g_data s /\
            g_initialized (PKUCreateDomain h flags s).2 = g_initialized s).
  { intros h flags. rewrite PKUCreateDomain_cases. cbv zeta.
    repeat case_match; split; reflexivity. }
  destruct c; simpl in H.
  - state_of H s'. unfold DoInit.
    destruct (Z.eqb_spec (initialized (g_data s)) 0) as [Hi|Hi]; cbn [negb].
    + split; [intros; contradiction|].
      repeat case_match; cbn [snd]; auto.
    + split; auto.
  - state_of H s'. unfold PKUInit, DoInit.
    destruct (Z.eqb_spec (g_initialized s) 0) as [Hg|Hg]; cbn [negb].
    + split; [|intros; contradiction].
      destruct (Z.eqb_spec (initialized (g_data s)) 0) as [Hi|Hi]; cbn [negb];
        [intros; contradiction|]. auto.
    + split; auto.
  - state_of H s'. split; auto.
  - apply PKUDomainFree_flags in H as [-> ->]. split; auto.
  - state_of H s'. unfold PKUPkeyAlloc. destruct (negb _); [split; auto|].
    destruct (Hcreate getentropy flags) as [-> ->]. split; auto.
  - unfold PKUPkeyFree in H.
    destruct (existsb rg_used _); [state_of H s'; split; auto|].
    destruct (g_LazyFree _); [state_of H s'; split; auto|].
    apply PKUDomainFree_flags in H as [-> ->]. split; auto.
  - state_of H s'. destruct (Hcreate getentropy flags) as [-> ->]. split; auto.
  - unfold RegisterPKUCall in H.
    destruct (negb _); [state_of H s'; split; auto|].
    destruct (_ || _); [state_of H s'; split; auto|].
    destruct (at_index _ _) as [c0|]; [|discriminate]. simpl in H.
    destruct (negb _); state_of H s'; split; auto.
  - unfold PKUDomainAssignPkey in H.
    destruct (negb _); [state_of H s'; split; auto|].
    destruct (negb _); [state_of H s'; split; auto|].
    destruct (negb _); [state_of H s'; split; auto|].
    destruct (at_index _ _) as [k0|]; [|discriminate]. simpl in H.
    state_of H s'. split; auto.
  - unfold PKUSwitch in H.
    destruct (at_index _ _) as [c0|]; [|discriminate]. simpl in H.
    destruct (at_index _ _) as [k0|]; [|discriminate]. simpl in H.
    state_of H s'. split; auto.
  - unfold PKURestore in H.
    destruct (at_index _ _) as [k0|]; [|discriminate]. simpl in H.
    state_of H s'. split; auto.
Qed.

(** No call clears an initialisation flag: once [DoInit] has set
    [g_data.initialized] and [PKUInit] has set [g_initialized], they stay
    set, through [PKUDeinit] as through every other call.  So after one
    successful [PKUInit] every later [PKUInit] returns 0 and does nothing,
    whatever the page size is then, and [DoInit] always fails. *)
Theorem initialised_for_good
    (rd : Z -> Z) (c : call) (s : State) (r : Z) (s' : State) :
  exec rd c s = Some (r, s') ->
  (initialized (g_data s) <> 0 ->
   initialized (g_data s') <> 0 /\
   forall pagesize flags, DoInit pagesize flags s' = (-1, set_errno EACCES s')) /\
  (g_initialized s <> 0 ->
   g_initialized s' <> 0 /\
   forall pagesize flags, PKUInit pagesize flags s' = (0, s')).
Proof.
  intros H. destruct (exec_flags rd c s r s' H) as [H1 H2]. split.
  - intros Hi. specialize (H1 Hi). split; [exact H1|].
    intros pagesize flags. unfold DoInit.
    destruct (Z.eqb_spec (initialized (g_data s')) 0); [contradiction|reflexivity].
  - intros Hg. specialize (H2 Hg). split; [exact H2|].
    intros pagesize flags. unfold PKUInit.
    destruct (Z.eqb_spec (g_initialized s') 0); [contradiction|reflexivity].
Qed.

Lemma initialised_for_good_witness :
  exec rdpkru CallPKUDeinit st_ready = Some (0, st_ready) /\
  initialized (g_data st_ready) <> 0 /\ g_initialized st_ready <> 0 /\
  (forall pagesize flags,
     DoInit pagesize flags st_ready = (-1, set_errno EACCES st_ready)) /\
  (forall pagesize flags, PKUInit pagesize flags st_ready = (0, st_ready)).
Proof.
  assert (H : exec rdpkru CallPKUDeinit st_ready = Some (0, st_ready)) by reflexivity.
  assert (Hi : initialized (g_data st_ready) <> 0) by discriminate.
  assert (Hg : g_initialized st_ready <> 0) by discriminate.
  split; [exact H|]. split; [exact Hi|]. split; [exact Hg|].
  destruct (initialised_for_good rdpkru CallPKUDeinit st_ready 0 st_ready H)
    as [H1 H2].
  split; [apply (H1 Hi)|apply (H2 Hg)].
Defined.

(** ** Registrations in sequence *)

(** Where the scan stops: after the longest run of non-null entries. *)
Lemma scan_calls_stops (l : list PKUCall) (n : Z) :
  exists k : nat,
    (k <= length l)%nat /\ scan_calls l n = n + Z.of_nat k /\
    (forall j c, (j < k)%nat -> l !! j = Some c -> entry c <> 0) /\
    ((k < length l)%nat -> exists c, l !! k = Some c /\ entry c = 0).
Proof.
  revert n. induction l as [|a l IH]; intros n.
  - exists 0%nat. simpl. repeat split; [lia|lia|intros; lia|intros; lia].
  - simpl. destruct (Z.eqb_spec (entry a) 0) as [Ha|Ha].
    + exists 0%nat. repeat split; [lia|lia|intros; lia|].
      intros _. exists a. split; [reflexivity|exact Ha].
    + destruct (IH (n + 1)) as (k & Hk & Hs & Hlow & Hnull).
      exists (S k). repeat split; [lia|lia| |].
      * intros [|j] c Hj Hl; simpl in Hl; [injection Hl as <-; exact Ha|].
        apply (Hlow j c); [lia|exact Hl].
      * intros Hlt. apply Hnull. lia.
Qed.

(** A registration that returns a slot took the lowest slot whose entry was
    null, for a domain that exists. *)
Lemma RegisterPKUCall_success (d e : Z) (s : State) (i : Z) (s1 : State) :
  wf s -> RegisterPKUCall d e s = Some (i, s1) -> 0 <= i ->
  exists (n : nat) (c : PKUCall),
    i = Z.of_nat n /\ DomainExists d s = true /\
    RegisteredPKUCalls s !! n = Some c /\ entry c = 0 /\
    (forall j c', (j < n)%nat -> RegisteredPKUCalls s !! j = Some c' -> entry c' <> 0) /\
    s1 = set_RegisteredPKUCalls (<[n := mkPKUCall d e]> (RegisteredPKUCalls s)) s.
Proof.
  intros (_ & Hlen & _) H Hi. unfold RegisterPKUCall in H.
  destruct (DomainExists d s) eqn:Hd; cbn [negb] in H;
    [|injection H as <- _; unfold EINVAL in Hi; lia].
  rewrite take_ge in H by lia.
  destruct (scan_calls_stops (RegisteredPKUCalls s) 0) as (k & Hk & Hs & Hlow & Hnull).
  rewrite Hs, Z.add_0_l in H. unfold NUM_REGISTERED_PKUCALLS in *.
  destruct (Z.leb_spec 64 (Z.of_nat k)) as [Hfull|Hfree].
  - rewrite orb_true_r in H. injection H as <- _. unfold EACCES in Hi. lia.
  - replace (Z.of_nat k <? 0) with false in H by (symmetry; apply Z.ltb_ge; lia).
    cbn [orb] in H. destruct Hnull as (c & Hc & Hnul); [lia|].
    unfold at_index in H.
    replace (0 <=? Z.of_nat k) with true in H by (symmetry; apply Z.leb_le; lia).
    rewrite Nat2Z.id, Hc in H. simpl in H. rewrite Hnul in H. simpl in H.
    injection H as <- <-. exists k, c.
    split; [reflexivity|]. split; [reflexivity|]. split; [exact Hc|].
    split; [exact Hnul|]. split; [exact Hlow|].
    rewrite list_alter_alter_eq, list_insert_alter. reflexivity.
Qed.

(** A registration for an existing domain takes the lowest null slot. *)
Lemma RegisterPKUCall_lowest (d e : Z) (s : State) (n : nat) (c : PKUCall) :
  wf s -> DomainExists d s = true ->
  RegisteredPKUCalls s !! n = Some c -> entry c = 0 ->
  (forall j c', (j < n)%nat -> RegisteredPKUCalls s !! j = Some c' -> entry c' <> 0) ->
  RegisterPKUCall d e s =
    Some (Z.of_nat n,
          set_RegisteredPKUCalls (<[n := mkPKUCall d e]> (RegisteredPKUCalls s)) s).
Proof.
  intros (_ & Hlen & _) Hd Hn Hc Hlow. unfold RegisterPKUCall.
  rewrite Hd, take_ge by lia. cbn [negb].
  rewrite (scan_calls_first _ 0 n c Hn Hc Hlow), Z.add_0_l.
  pose proof (lookup_lt_Some _ _ _ Hn) as Hlt. rewrite Hlen in Hlt.
  unfold NUM_REGISTERED_PKUCALLS in *.
  replace (Z.of_nat n <? 0) with false by (symmetry; apply Z.ltb_ge; lia).
  replace (64 <=? Z.of_nat n) with false by (symmetry; apply Z.leb_gt; lia).
  cbn [orb]. unfold at_index.
  replace (0 <=? Z.of_nat n) with true by (symmetry; apply Z.leb_le; lia).
  rewrite Nat2Z.id, Hn. simpl. rewrite Hc. simpl.
  rewrite list_alter_alter_eq, list_insert_alter. reflexivity.
Qed.

Lemma wf_set_calls (s : State) (n : nat) (c : PKUCall) :
  wf s -> wf (set_RegisteredPKUCalls (<[n := c]> (RegisteredPKUCalls s)) s).
Proof. unfold wf. simpl. rewrite length_insert. tauto. Qed.

(** A registration with a null entry point succeeds and returns a slot, but
    the slot stays free: the next registration gets the same id, and the
    domain recorded by the first is replaced. *)
Theorem RegisterPKUCall_null_entry
    (d d2 e : Z) (s : State) (i : Z) (s1 : State) :
  wf s -> DomainExists d2 s = true ->
  RegisterPKUCall d 0 s = Some (i, s1) -> 0 <= i ->
  RegisterPKUCall d2 e s1 =
    Some (i, set_RegisteredPKUCalls
               (<[Z.to_nat i := mkPKUCall d2 e]> (RegisteredPKUCalls s)) s).
Proof.
  intros Hwf Hd2 H Hi.
  destruct (RegisterPKUCall_success d 0 s i s1 Hwf H Hi)
    as (n & c & -> & Hd & Hn & Hc & Hlow & ->).
  pose proof (lookup_lt_Some _ _ _ Hn) as Hlt.
  rewrite (RegisterPKUCall_lowest d2 e _ n (mkPKUCall d 0)).
  - rewrite Nat2Z.id. cbn [RegisteredPKUCalls set_RegisteredPKUCalls].
    rewrite list_insert_insert_eq. reflexivity.
  - apply wf_set_calls, Hwf.
  - exact Hd2.
  - cbn [RegisteredPKUCalls set_RegisteredPKUCalls].
    apply list_lookup_insert_eq, Hlt.
  - reflexivity.
  - intros j c' Hj. cbn [RegisteredPKUCalls set_RegisteredPKUCalls].
    rewrite list_lookup_insert_ne by lia. apply Hlow, Hj.
Qed.

Lemma RegisterPKUCall_null_entry_witness :
  wf st_dom1 /\ DomainExists 0 st_dom1 = true /\
  RegisterPKUCall 1 0 st_dom1 =
    Some (0, set_RegisteredPKUCalls
               (<[0%nat := mkPKUCall 1 0]> (RegisteredPKUCalls st_dom1)) st_dom1) /\
  0 <= 0 /\
  RegisterPKUCall 0 0x1000
    (set_RegisteredPKUCalls
       (<[0%nat := mkPKUCall 1 0]> (RegisteredPKUCalls st_dom1)) st_dom1) =
    Some (0, set_RegisteredPKUCalls
               (<[Z.to_nat 0 := mkPKUCall 0 0x1000]> (RegisteredPKUCalls st_dom1))
               st_dom1).
Proof.
  assert (Hwf : wf st_dom1) by (repeat split; reflexivity).
  assert (H0 : 0 <= 0) by lia.
  split; [exact Hwf|]. split; [reflexivity|]. split; [reflexivity|].
  split; [exact H0|].
  apply (RegisterPKUCall_null_entry 1 0 0x1000 st_dom1 0 _ Hwf eq_refl eq_refl H0).
Defined.

(** Two registrations in a row, the first with a non-null entry point, get
    different slots, the second the higher one. *)
Theorem RegisterPKUCall_next
    (d e d2 e2 : Z) (s : State) (i j : Z) (s1 s2 : State) :
  wf s -> e <> 0 ->
  RegisterPKUCall d e s = Some (i, s1) -> 0 <= i ->
  RegisterPKUCall d2 e2 s1 = Some (j, s2) -> 0 <= j ->
  i < j.
Proof.
  intros Hwf He H1 Hi H2 Hj.
  destruct (RegisterPKUCall_success d e s i s1 Hwf H1 Hi)
    as (n & c & -> & _ & Hn & Hc & Hlow & ->).
  destruct (RegisterPKUCall_success d2 e2 _ j s2 (wf_set_calls s n _ Hwf) H2 Hj)
    as (n2 & c2 & -> & _ & Hn2 & Hc2 & _ & _).
  cbn [RegisteredPKUCalls set_RegisteredPKUCalls] in Hn2.
  pose proof (lookup_lt_Some _ _ _ Hn) as Hlt.
  destruct (Nat.lt_trichotomy n2 n) as [Hlt2|[->|Hgt]]; [| |lia].
  - rewrite list_lookup_insert_ne in Hn2 by lia.
    exfalso. apply (Hlow n2 c2 Hlt2 Hn2 Hc2).
  - rewrite list_lookup_insert_eq in Hn2 by exact Hlt.
    injection Hn2 as <-. simpl in Hc2. contradiction.
Qed.

Lemma RegisterPKUCall_next_witness :
  wf st_dom1 /\ 0x1000 <> 0 /\
  RegisterPKUCall 1 0x1000 st_dom1 = Some (0, st_call) /\ 0 <= 0 /\
  RegisterPKUCall 1 0x2000 st_call =
    Some (1, (default (0, st_call) (RegisterPKUCall 1 0x2000 st_call)).2) /\
  0 <= 1 /\ 0 < 1.
Proof.
  assert (Hwf : wf st_dom1) by (repeat split; reflexivity).
  assert (He : 0x1000 <> 0) by discriminate.
  assert (H0 : 0 <= 0) by lia. assert (H1 : 0 <= 1) by lia.
  split; [exact Hwf|]. split; [exact He|]. split; [reflexivity|].
  split; [exact H0|]. split; [reflexivity|]. split; [exact H1|].
  apply (RegisterPKUCall_next 1 0x1000 1 0x2000 st_dom1 0 1 st_call _
           Hwf He eq_refl H0 eq_refl H1).
Defined.

(** ** Leaving the gate, and the caller of main.c *)

(** [PKURestore] does not look at the domain it is handed.  Whatever [D] is,
    it returns 0 and makes [D] the current domain, the tables unchanged.  If
    [D] does not exist, every later [PKUDomainAssignPkey] is refused with
    -EINVAL, for whatever domain; if [D] is no index of the key table, the
    next [PKURestore] reads the table out of bounds. *)
Theorem PKURestore_unchecked (rd : Z -> Z) (D : Z) (s : State) :
  wf s -> 0 <= CurrentDid s < 16 ->
  exists s',
    PKURestore rd D s = Some (0, s') /\
    CurrentDid s' = D /\ keys s' = keys s /\
    RegisteredPKUCalls s' = RegisteredPKUCalls s /\
    (DomainExists D s = false ->
     forall d k f ar, PKUDomainAssignPkey rd d k f ar s' = Some (- EINVAL, s')) /\
    (~ 0 <= D < 16 -> forall D', PKURestore rd D' s' = None).
Proof.
  intros (Hlen & _) Hcur. unfold PKURestore at 1, GetCurrentDid.
  destruct (at_index_lt (keys s) (CurrentDid s)) as [k Hk].
  { rewrite Hlen. unfold NUM_DOMAINS. lia. }
  rewrite Hk. cbn [mbind option_bind]. rewrite SetPkey_frame.
  eexists. split; [reflexivity|]. cbn [CurrentDid keys RegisteredPKUCalls SetCurrentDid set_pkru].
  split; [reflexivity|]. split; [reflexivity|]. split; [reflexivity|]. split.
  - intros Hno d k' f ar. unfold PKUDomainAssignPkey, GetCurrentDid.
    cbn [CurrentDid SetCurrentDid]. unfold DomainExists in *.
    cbn [keys SetCurrentDid set_pkru]. rewrite Hno. reflexivity.
  - intros Hout D'. unfold PKURestore, GetCurrentDid.
    cbn [CurrentDid SetCurrentDid keys set_pkru].
    rewrite at_index_out; [reflexivity|]. rewrite Hlen. unfold NUM_DOMAINS. lia.
Qed.

Lemma PKURestore_unchecked_witness :
  wf st_inside /\ 0 <= CurrentDid st_inside < 16 /\
  DomainExists 99 st_inside = false /\ ~ 0 <= 99 < 16 /\
  exists s',
    PKURestore rdpkru 99 st_inside = Some (0, s') /\ CurrentDid s' = 99 /\
    (forall d k f ar, PKUDomainAssignPkey rdpkru d k f ar s' = Some (- EINVAL, s')) /\
    (forall D', PKURestore rdpkru D' s' = None).
Proof.
  assert (Hwf : wf st_inside) by (repeat split; reflexivity).
  assert (Hcur : 0 <= CurrentDid st_inside < 16)
    by (change (CurrentDid st_inside) with 1; lia).
  assert (Hno : DomainExists 99 st_inside = false) by reflexivity.
  assert (Hout : ~ 0 <= 99 < 16) by lia.
  split; [exact Hwf|]. split; [exact Hcur|]. split; [exact Hno|]. split; [exact Hout|].
  destruct (PKURestore_unchecked rdpkru 99 st_inside Hwf Hcur)
    as (s' & H1 & H2 & _ & _ & H5 & H6).
  exists s'. split; [exact H1|]. split; [exact H2|].
  split; [exact (H5 Hno)|exact (H6 Hout)].
Defined.

(** A domain granted by the host exists afterwards, and the call leaves the
    call table, the current domain and the domains that existed alone. *)
Lemma PKUCreateDomain_granted (rd : Z -> Z) (s : State) (h : hook) (flags : Z) :
  reachable rd s -> (h (request x01 x21)).1 = 0 ->
  let b := byte_at (h (request x01 x21)).2 2 in
  let r := PKUCreateDomain h flags s in
  r.1 = (if 16 <=? b then 0 else b) /\ 0 <= r.1 < 16 /\
  DomainExists r.1 r.2 = true /\
  RegisteredPKUCalls r.2 = RegisteredPKUCalls s /\ CurrentDid r.2 = CurrentDid s /\
  (forall x, DomainExists x s = true -> DomainExists x r.2 = true).
Proof.
  intros Hr He. cbv zeta.
  destruct (reachable_inv rd s Hr) as ((Hlen & _) & _ & (k0 & Hk0 & Hu0) & _).
  rewrite PKUCreateDomain_cases. cbv zeta. rewrite He. cbn [Z.eqb negb].
  destruct (Z.leb_spec 16 (byte_at (h (request x01 x21)).2 2)) as [Hb|Hb];
    cbn [fst snd].
  - split; [reflexivity|]. split; [lia|]. split; [|auto].
    unfold DomainExists. change (Z.to_nat 0) with 0%nat. rewrite Hk0. exact Hu0.
  - pose proof (byte_at_range (h (request x01 x21)).2 2) as Hrange.
    split; [reflexivity|]. split; [lia|].
    split; [|split; [reflexivity|split; [reflexivity|]]].
    + unfold DomainExists, NUM_DOMAINS. cbn [keys set_keys].
      replace (0 <=? _) with true by (symmetry; apply Z.leb_le; lia).
      replace (_ <? 16) with true by (symmetry; apply Z.ltb_lt; lia).
      rewrite list_lookup_alter_eq.
      destruct (lookup_lt_is_Some_2 (keys s) (Z.to_nat (byte_at (h (request x01 x21)).2 2)))
        as [k Hk]; [rewrite Hlen; unfold NUM_DOMAINS; lia|].
      rewrite Hk. reflexivity.
    + intros x. unfold DomainExists. cbn [keys set_keys].
      destruct ((0 <=? x) && (x <? NUM_DOMAINS)); [cbn [andb]|discriminate].
      rewrite list_lookup_alter. case_decide as Hx; [|auto].
      rewrite Hx. destruct (keys s !! Z.to_nat x); [|discriminate]. reflexivity.
Qed.

(** [init] of main.c when the host refuses the key: [PKUCreateDomain] hands
    back -1, both later calls refuse it with -EINVAL, and nothing is
    changed.  [init] returns -EINVAL, which is also what it leaves in the
    call id of [func]; the [PKUCALL] that [main] makes next, whatever the
    result of [init], indexes the call table at -22. *)
Theorem init_host_error (rd : Z -> Z) (h : hook) (func : Z) (s : State) :
  (h (request x01 x21)).1 <> 0 ->
  init rd h func s = Some (- EINVAL, s, - EINVAL) /\
  forall D, Switch_Restore rd (- EINVAL) D s = None.
Proof.
  intros He. split.
  - unfold init. rewrite PKUCreateDomain_cases. cbv zeta.
    apply Z.eqb_neq in He. rewrite He. cbn [negb].
    assert (Hno : DomainExists (-1) s = false) by reflexivity.
    unfold PKUDomainAssignPkey, RegisterPKUCall. rewrite Hno. cbn [negb].
    destruct (negb (DomainExists (GetCurrentDid s) s)); reflexivity.
  - intros D. reflexivity.
Qed.

Lemma init_host_error_witness :
  (refuse (request x01 x21)).1 <> 0 /\
  init rdpkru refuse 0x1000 st_init = Some (- EINVAL, st_init, - EINVAL) /\
  forall D, Switch_Restore rdpkru (- EINVAL) D st_init = None.
Proof.
  assert (He : (refuse (request x01 x21)).1 <> 0) by discriminate.
  split; [exact He|].
  apply (init_host_error rdpkru refuse 0x1000 st_init He).
Defined.

(** [init] of main.c when the host grants a key, called in a state of a run
    whose current domain exists: it returns the lowest call slot whose entry
    is null and leaves the same number in the call id of [func]; the slot
    then holds the domain of the granted key (the root, if the host answers
    16 or more) with the address of [func]; that domain exists, and the
    register gives it full access to its key.  The current domain is the one
    it was. *)
Theorem init_registers
    (rd : Z -> Z) (h : hook) (func : Z) (s : State) (n : nat) (c : PKUCall) :
  reachable rd s -> DomainExists (CurrentDid s) s = true ->
  (h (request x01 x21)).1 = 0 ->
  RegisteredPKUCalls s !! n = Some c -> entry c = 0 ->
  (forall j c', (j < n)%nat -> RegisteredPKUCalls s !! j = Some c' -> entry c' <> 0) ->
  let b := byte_at (h (request x01 x21)).2 2 in
  let d := if 16 <=? b then 0 else b in
  exists s1,
    init rd h func s = Some (Z.of_nat n, s1, Z.of_nat n) /\
    RegisteredPKUCalls s1 = <[n := mkPKUCall d func]> (RegisteredPKUCalls s) /\
    DomainExists d s1 = true /\ pkru_field (pkru s1) d = 0 /\
    CurrentDid s1 = CurrentDid s.
Proof.
  intros Hr Hcur He Hn Hc Hlow. cbv zeta.
  destruct (PKUCreateDomain_granted rd s h 0 Hr He) as (Hd & Hrange & Hex & Hcalls & Hcd & Hkeep).
  rewrite <- Hd. clear Hd. unfold init.
  assert (Hrc : reachable rd (PKUCreateDomain h 0 s).2).
  { apply (reachable_call rd s (CallPKUCreateDomain h 0) (PKUCreateDomain h 0 s).1 _ Hr).
    simpl. destruct (PKUCreateDomain h 0 s); reflexivity. }
  destruct (PKUCreateDomain h 0 s) as [d sc]. cbn [fst snd] in *.
  destruct (reachable_inv rd sc Hrc) as (Hwf & Hk & _ & _).
  destruct (reachable_run_inv rd sc Hrc) as (Hown & _).
  pose proof Hex as Hex'.
  apply DomainExists_range in Hex' as (_ & k & Hkk & Hu).
  destruct (Hk _ _ Hkk) as (Hperm & _). pose proof (Hown _ _ Hkk Hu) as Hpk.
  rewrite Z2Nat.id in Hpk by lia.
  assert (Hcur' : DomainExists (GetCurrentDid sc) sc = true).
  { unfold GetCurrentDid. rewrite Hcd. apply Hkeep, Hcur. }
  unfold PKUDomainAssignPkey. rewrite Hcur', Hex. cbn [negb].
  change (Z.land 0 (Z.lnot (Z.lor PKEY_DISABLE_ACCESS PKEY_DISABLE_WRITE)) =? 0) with true.
  cbn [negb]. unfold at_index at 1.
  replace (0 <=? d) with true by (symmetry; apply Z.leb_le; lia).
  rewrite Hkk. cbn [mbind option_bind]. rewrite SetPkey_frame, Hpk, Hperm.
  cbn [mbind option_bind].
  rewrite (RegisterPKUCall_lowest d func _ n c);
    [|exact Hwf|exact Hex|rewrite <- Hcalls in Hn; exact Hn|exact Hc
     |intros j c' Hj Hl; apply (Hlow j c' Hj); rewrite <- Hcalls; exact Hl].
  cbn [mbind option_bind]. eexists. split; [reflexivity|].
  cbn [RegisteredPKUCalls set_RegisteredPKUCalls set_pkru pkru CurrentDid].
  split; [rewrite Hcalls; reflexivity|]. split; [exact Hex|].
  split; [|exact Hcd].
  rewrite SetPkey_field_key by lia. reflexivity.
Qed.

Lemma init_registers_witness :
  reachable rdpkru st_init /\ DomainExists (CurrentDid st_init) st_init = true /\
  (grant x01 (request x01 x21)).1 = 0 /\
  (RegisteredPKUCalls st_init !! 0%nat) = Some zero_call /\ entry zero_call = 0 /\
  exists s1,
    init rdpkru (grant x01) 0x1000 st_init = Some (0, s1, 0) /\
    RegisteredPKUCalls s1 =
      (<[0%nat := mkPKUCall 1 0x1000]> (RegisteredPKUCalls st_init)) /\
    DomainExists 1 s1 = true /\ pkru_field (pkru s1) 1 = 0 /\
    CurrentDid s1 = CurrentDid st_init.
Proof.
  assert (Hr : reachable rdpkru st_init) by apply reachable_init.
  assert (Hlow : forall j c', (j < 0)%nat ->
            RegisteredPKUCalls st_init !! j = Some c' -> entry c' <> 0)
    by (intros j c' Hj; lia).
  split; [exact Hr|]. split; [reflexivity|]. split; [reflexivity|].
  split; [reflexivity|]. split; [reflexivity|].
  apply (init_registers rdpkru (grant x01) 0x1000 st_init 0 zero_call
           Hr eq_refl eq_refl eq_refl eq_refl Hlow).
Defined.
